(** * Stock-management: ledger and document lifecycle

    A shallow embedding of the inventory / invoicing back end: the Mongoose
    models (Product, Client, Supplier, StockMovement, Invoice, Purchase,
    Quotation), their [pre('save')] hooks, and the controllers that move
    stock and money (stock, invoice, purchase and quotation controllers).

    Modelling conventions.
    - A JavaScript [Number] is an exact rational ([Q]); rounding error of
      IEEE doubles is outside the model.  [Math.round x] is [floor (x + 1/2)].
    - A collection is a finite map from [_id] to document; the movement
      ledger is a list in insertion order.
    - A controller is a function [State -> State * Response]: whatever was
      written to the store before an early [return res.status(4xx)] stays
      written, exactly as in the source, which opens no transaction.
    - [new Date()] and [req.user.id] come from the request context [Req].
    - Schema validators ([min], [required], [enum]) and [populate] are part
      of the persistence layer and are not modelled: a reference stored in a
      line item is looked up with [findById] where the source does so. *)

From Stdlib Require Import QArith Qround Lqa ZArith Lia.
From stdpp Require Import gmap strings list fin_maps pretty.

Local Open Scope Q_scope.

(** ** Basic types *)

Definition ObjectId := nat.
Definition Date := Z.
Bind Scope nat_scope with ObjectId.
Bind Scope Z_scope with Date.

Record Req : Type := mkReq {
  user_id : ObjectId;   (* req.user.id *)
  now : Date;           (* new Date(), in milliseconds *)
  year : nat            (* new Date().getFullYear() *)
}.

Definition Qltb (x y : Q) : bool := negb (Qle_bool y x).
Definition Qgeb (x y : Q) : bool := Qle_bool y x.
Definition Qgtb (x y : Q) : bool := negb (Qle_bool x y).

(** [Math.round]: nearest integer, halves towards plus infinity. *)
Definition Math_round (x : Q) : Q := inject_Z (Qfloor (x + (1 # 2))).

(** [Math.max] on two numbers. *)
Definition Math_max (x y : Q) : Q := if Qle_bool x y then y else x.

Inductive TaxCode := TaxA | TaxB | TaxNone.

Inductive PaymentMethod :=
  cash | card | bank_transfer | cheque | mobile_money | credit.

Record Payment : Type := mkPayment {
  amount : Q;
  paymentMethod : PaymentMethod;
  reference : option string;
  pay_notes : option string;
  recordedBy : ObjectId;
  pay_paidDate : Date
}.

(** ** models/Product.js *)
Module Product.
Record t : Type := mk {
  name : string;
  currentStock : Q;
  averageCost : Q;
  supplier : option ObjectId;
  lastSupplyDate : option Date;
  lastSaleDate : option Date
}.

Definition set_currentStock (v : Q) (d : t) : t :=
  {| name := name d; currentStock := v; averageCost := averageCost d;
     supplier := supplier d; lastSupplyDate := lastSupplyDate d;
     lastSaleDate := lastSaleDate d |}.

Definition set_averageCost (v : Q) (d : t) : t :=
  {| name := name d; currentStock := currentStock d; averageCost := v;
     supplier := supplier d; lastSupplyDate := lastSupplyDate d;
     lastSaleDate := lastSaleDate d |}.

Definition set_supplier (v : option ObjectId) (d : t) : t :=
  {| name := name d; currentStock := currentStock d; averageCost := averageCost d;
     supplier := v; lastSupplyDate := lastSupplyDate d; lastSaleDate := lastSaleDate d |}.

Definition set_lastSupplyDate (v : option Date) (d : t) : t :=
  {| name := name d; currentStock := currentStock d; averageCost := averageCost d;
     supplier := supplier d; lastSupplyDate := v; lastSaleDate := lastSaleDate d |}.

Definition set_lastSaleDate (v : option Date) (d : t) : t :=
  {| name := name d; currentStock := currentStock d; averageCost := averageCost d;
     supplier := supplier d; lastSupplyDate := lastSupplyDate d; lastSaleDate := v |}.

End Product.

(** ** models/Client.js *)
Module Client.
Record t : Type := mk {
  name : string;
  outstandingBalance : Q;
  totalPurchases : Q;
  lastPurchaseDate : option Date
}.

Definition set_outstandingBalance (v : Q) (d : t) : t :=
  {| name := name d; outstandingBalance := v; totalPurchases := totalPurchases d;
     lastPurchaseDate := lastPurchaseDate d |}.

Definition set_totalPurchases (v : Q) (d : t) : t :=
  {| name := name d; outstandingBalance := outstandingBalance d; totalPurchases := v;
     lastPurchaseDate := lastPurchaseDate d |}.

Definition set_lastPurchaseDate (v : option Date) (d : t) : t :=
  {| name := name d; outstandingBalance := outstandingBalance d;
     totalPurchases := totalPurchases d; lastPurchaseDate := v |}.

End Client.

(** ** models/Supplier.js

    The schema declares [totalPurchases] and [lastPurchaseDate]; it declares
    no [outstandingBalance] path. *)
Module Supplier.
Record t : Type := mk {
  name : string;
  productsSupplied : list ObjectId;
  totalPurchases : Q;
  lastPurchaseDate : option Date
}.

Definition set_productsSupplied (v : list ObjectId) (d : t) : t :=
  {| name := name d; productsSupplied := v; totalPurchases := totalPurchases d;
     lastPurchaseDate := lastPurchaseDate d |}.

Definition set_totalPurchases (v : Q) (d : t) : t :=
  {| name := name d; productsSupplied := productsSupplied d; totalPurchases := v;
     lastPurchaseDate := lastPurchaseDate d |}.

Definition set_lastPurchaseDate (v : option Date) (d : t) : t :=
  {| name := name d; productsSupplied := productsSupplied d;
     totalPurchases := totalPurchases d; lastPurchaseDate := v |}.

End Supplier.

(** ** models/StockMovement.js *)
Inductive MovementType := mt_in | mt_out | mt_adjustment.

Inductive Reason :=
  purchase_reason | sale | return_ | damage | loss | theft | expired | transfer
  | correction | initial_stock.

Module StockMovement.
Record t : Type := mk {
  _id : ObjectId;
  product : ObjectId;
  type : MovementType;
  reason : Reason;
  quantity : Q;
  previousStock : Q;
  newStock : Q;
  unitCost : option Q;
  totalCost : option Q;
  supplier : option ObjectId;
  batchNumber : option string;
  lotNumber : option string;
  expiryDate : option Date;
  referenceType : option string;
  referenceNumber : option string;
  referenceDocument : option ObjectId;
  referenceModel : option string;
  notes : option string;
  performedBy : ObjectId;
  movementDate : Date
}.

Definition set__id (v : ObjectId) (d : t) : t :=
  {| _id := v; product := product d; type := type d; reason := reason d;
     quantity := quantity d; previousStock := previousStock d; newStock := newStock d;
     unitCost := unitCost d; totalCost := totalCost d; supplier := supplier d;
     batchNumber := batchNumber d; lotNumber := lotNumber d; expiryDate := expiryDate d;
     referenceType := referenceType d; referenceNumber := referenceNumber d;
     referenceDocument := referenceDocument d; referenceModel := referenceModel d;
     notes := notes d; performedBy := performedBy d; movementDate := movementDate d |}.

Definition set_notes (v : option string) (d : t) : t :=
  {| _id := _id d; product := product d; type := type d; reason := reason d;
     quantity := quantity d; previousStock := previousStock d; newStock := newStock d;
     unitCost := unitCost d; totalCost := totalCost d; supplier := supplier d;
     batchNumber := batchNumber d; lotNumber := lotNumber d; expiryDate := expiryDate d;
     referenceType := referenceType d; referenceNumber := referenceNumber d;
     referenceDocument := referenceDocument d; referenceModel := referenceModel d;
     notes := v; performedBy := performedBy d; movementDate := movementDate d |}.

Definition set_referenceNumber (v : option string) (d : t) : t :=
  {| _id := _id d; product := product d; type := type d; reason := reason d;
     quantity := quantity d; previousStock := previousStock d; newStock := newStock d;
     unitCost := unitCost d; totalCost := totalCost d; supplier := supplier d;
     batchNumber := batchNumber d; lotNumber := lotNumber d; expiryDate := expiryDate d;
     referenceType := referenceType d; referenceNumber := v;
     referenceDocument := referenceDocument d; referenceModel := referenceModel d;
     notes := notes d; performedBy := performedBy d; movementDate := movementDate d |}.

Definition set_referenceType (v : option string) (d : t) : t :=
  {| _id := _id d; product := product d; type := type d; reason := reason d;
     quantity := quantity d; previousStock := previousStock d; newStock := newStock d;
     unitCost := unitCost d; totalCost := totalCost d; supplier := supplier d;
     batchNumber := batchNumber d; lotNumber := lotNumber d; expiryDate := expiryDate d;
     referenceType := v; referenceNumber := referenceNumber d;
     referenceDocument := referenceDocument d; referenceModel := referenceModel d;
     notes := notes d; performedBy := performedBy d; movementDate := movementDate d |}.

Definition set_batchNumber (v : option string) (d : t) : t :=
  {| _id := _id d; product := product d; type := type d; reason := reason d;
     quantity := quantity d; previousStock := previousStock d; newStock := newStock d;
     unitCost := unitCost d; totalCost := totalCost d; supplier := supplier d;
     batchNumber := v; lotNumber := lotNumber d; expiryDate := expiryDate d;
     referenceType := referenceType d; referenceNumber := referenceNumber d;
     referenceDocument := referenceDocument d; referenceModel := referenceModel d;
     notes := notes d; performedBy := performedBy d; movementDate := movementDate d |}.

Definition set_lotNumber (v : option string) (d : t) : t :=
  {| _id := _id d; product := product d; type := type d; reason := reason d;
     quantity := quantity d; previousStock := previousStock d; newStock := newStock d;
     unitCost := unitCost d; totalCost := totalCost d; supplier := supplier d;
     batchNumber := batchNumber d; lotNumber := v; expiryDate := expiryDate d;
     referenceType := referenceType d; referenceNumber := referenceNumber d;
     referenceDocument := referenceDocument d; referenceModel := referenceModel d;
     notes := notes d; performedBy := performedBy d; movementDate := movementDate d |}.

Definition set_expiryDate (v : option Date) (d : t) : t :=
  {| _id := _id d; product := product d; type := type d; reason := reason d;
     quantity := quantity d; previousStock := previousStock d; newStock := newStock d;
     unitCost := unitCost d; totalCost := totalCost d; supplier := supplier d;
     batchNumber := batchNumber d; lotNumber := lotNumber d; expiryDate := v;
     referenceType := referenceType d; referenceNumber := referenceNumber d;
     referenceDocument := referenceDocument d; referenceModel := referenceModel d;
     notes := notes d; performedBy := performedBy d; movementDate := movementDate d |}.

Definition set_unitCost (v : option Q) (d : t) : t :=
  {| _id := _id d; product := product d; type := type d; reason := reason d;
     quantity := quantity d; previousStock := previousStock d; newStock := newStock d;
     unitCost := v; totalCost := totalCost d; supplier := supplier d;
     batchNumber := batchNumber d; lotNumber := lotNumber d; expiryDate := expiryDate d;
     referenceType := referenceType d; referenceNumber := referenceNumber d;
     referenceDocument := referenceDocument d; referenceModel := referenceModel d;
     notes := notes d; performedBy := performedBy d; movementDate := movementDate d |}.

Definition set_totalCost (v : option Q) (d : t) : t :=
  {| _id := _id d; product := product d; type := type d; reason := reason d;
     quantity := quantity d; previousStock := previousStock d; newStock := newStock d;
     unitCost := unitCost d; totalCost := v; supplier := supplier d;
     batchNumber := batchNumber d; lotNumber := lotNumber d; expiryDate := expiryDate d;
     referenceType := referenceType d; referenceNumber := referenceNumber d;
     referenceDocument := referenceDocument d; referenceModel := referenceModel d;
     notes := notes d; performedBy := performedBy d; movementDate := movementDate d |}.

Definition set_supplier (v : option ObjectId) (d : t) : t :=
  {| _id := _id d; product := product d; type := type d; reason := reason d;
     quantity := quantity d; previousStock := previousStock d; newStock := newStock d;
     unitCost := unitCost d; totalCost := totalCost d; supplier := v;
     batchNumber := batchNumber d; lotNumber := lotNumber d; expiryDate := expiryDate d;
     referenceType := referenceType d; referenceNumber := referenceNumber d;
     referenceDocument := referenceDocument d; referenceModel := referenceModel d;
     notes := notes d; performedBy := performedBy d; movementDate := movementDate d |}.

Definition set_movementDate (v : Date) (d : t) : t :=
  {| _id := _id d; product := product d; type := type d; reason := reason d;
     quantity := quantity d; previousStock := previousStock d; newStock := newStock d;
     unitCost := unitCost d; totalCost := totalCost d; supplier := supplier d;
     batchNumber := batchNumber d; lotNumber := lotNumber d; expiryDate := expiryDate d;
     referenceType := referenceType d; referenceNumber := referenceNumber d;
     referenceDocument := referenceDocument d; referenceModel := referenceModel d;
     notes := notes d; performedBy := performedBy d; movementDate := v |}.

End StockMovement.

(** ** models/Invoice.js *)
Module InvoiceItem.
Record t : Type := mk {
  product : ObjectId;
  quantity : Q;
  unitPrice : Q;
  discount : Q;
  taxCode : TaxCode;
  taxRate : Q;
  taxAmount : Q;
  subtotal : Q;
  totalWithTax : Q
}.

Definition set_taxAmount (v : Q) (d : t) : t :=
  {| product := product d; quantity := quantity d; unitPrice := unitPrice d;
     discount := discount d; taxCode := taxCode d; taxRate := taxRate d; taxAmount := v;
     subtotal := subtotal d; totalWithTax := totalWithTax d |}.

Definition set_subtotal (v : Q) (d : t) : t :=
  {| product := product d; quantity := quantity d; unitPrice := unitPrice d;
     discount := discount d; taxCode := taxCode d; taxRate := taxRate d;
     taxAmount := taxAmount d; subtotal := v; totalWithTax := totalWithTax d |}.

Definition set_totalWithTax (v : Q) (d : t) : t :=
  {| product := product d; quantity := quantity d; unitPrice := unitPrice d;
     discount := discount d; taxCode := taxCode d; taxRate := taxRate d;
     taxAmount := taxAmount d; subtotal := subtotal d; totalWithTax := v |}.

End InvoiceItem.

Module Invoice.
Inductive Status := draft | confirmed | partial | paid | cancelled.

Record t : Type := mk {
  invoiceNumber : string;
  client : ObjectId;
  quotation : option ObjectId;
  status : Status;
  items : list InvoiceItem.t;
  totalAEx : Q;
  totalB18 : Q;
  totalTaxA : Q;
  totalTaxB : Q;
  subtotal : Q;
  totalDiscount : Q;
  totalTax : Q;
  grandTotal : Q;
  roundedAmount : Q;
  amountPaid : Q;
  balance : Q;
  payments : list Payment;
  dueDate : option Date;
  terms : option string;
  notes : option string;
  stockDeducted : bool;
  createdBy : ObjectId;
  paidDate : option Date;
  confirmedDate : option Date;
  confirmedBy : option ObjectId;
  cancelledDate : option Date;
  cancelledBy : option ObjectId;
  cancellationReason : option string
}.

Definition set_invoiceNumber (v : string) (d : t) : t :=
  {| invoiceNumber := v; client := client d; quotation := quotation d; status := status d;
     items := items d; totalAEx := totalAEx d; totalB18 := totalB18 d;
     totalTaxA := totalTaxA d; totalTaxB := totalTaxB d; subtotal := subtotal d;
     totalDiscount := totalDiscount d; totalTax := totalTax d; grandTotal := grandTotal d;
     roundedAmount := roundedAmount d; amountPaid := amountPaid d; balance := balance d;
     payments := payments d; dueDate := dueDate d; terms := terms d; notes := notes d;
     stockDeducted := stockDeducted d; createdBy := createdBy d; paidDate := paidDate d;
     confirmedDate := confirmedDate d; confirmedBy := confirmedBy d;
     cancelledDate := cancelledDate d; cancelledBy := cancelledBy d;
     cancellationReason := cancellationReason d |}.

Definition set_status (v : Status) (d : t) : t :=
  {| invoiceNumber := invoiceNumber d; client := client d; quotation := quotation d;
     status := v; items := items d; totalAEx := totalAEx d; totalB18 := totalB18 d;
     totalTaxA := totalTaxA d; totalTaxB := totalTaxB d; subtotal := subtotal d;
     totalDiscount := totalDiscount d; totalTax := totalTax d; grandTotal := grandTotal d;
     roundedAmount := roundedAmount d; amountPaid := amountPaid d; balance := balance d;
     payments := payments d; dueDate := dueDate d; terms := terms d; notes := notes d;
     stockDeducted := stockDeducted d; createdBy := createdBy d; paidDate := paidDate d;
     confirmedDate := confirmedDate d; confirmedBy := confirmedBy d;
     cancelledDate := cancelledDate d; cancelledBy := cancelledBy d;
     cancellationReason := cancellationReason d |}.

Definition set_items (v : list InvoiceItem.t) (d : t) : t :=
  {| invoiceNumber := invoiceNumber d; client := client d; quotation := quotation d;
     status := status d; items := v; totalAEx := totalAEx d; totalB18 := totalB18 d;
     totalTaxA := totalTaxA d; totalTaxB := totalTaxB d; subtotal := subtotal d;
     totalDiscount := totalDiscount d; totalTax := totalTax d; grandTotal := grandTotal d;
     roundedAmount := roundedAmount d; amountPaid := amountPaid d; balance := balance d;
     payments := payments d; dueDate := dueDate d; terms := terms d; notes := notes d;
     stockDeducted := stockDeducted d; createdBy := createdBy d; paidDate := paidDate d;
     confirmedDate := confirmedDate d; confirmedBy := confirmedBy d;
     cancelledDate := cancelledDate d; cancelledBy := cancelledBy d;
     cancellationReason := cancellationReason d |}.

Definition set_totalAEx (v : Q) (d : t) : t :=
  {| invoiceNumber := invoiceNumber d; client := client d; quotation := quotation d;
     status := status d; items := items d; totalAEx := v; totalB18 := totalB18 d;
     totalTaxA := totalTaxA d; totalTaxB := totalTaxB d; subtotal := subtotal d;
     totalDiscount := totalDiscount d; totalTax := totalTax d; grandTotal := grandTotal d;
     roundedAmount := roundedAmount d; amountPaid := amountPaid d; balance := balance d;
     payments := payments d; dueDate := dueDate d; terms := terms d; notes := notes d;
     stockDeducted := stockDeducted d; createdBy := createdBy d; paidDate := paidDate d;
     confirmedDate := confirmedDate d; confirmedBy := confirmedBy d;
     cancelledDate := cancelledDate d; cancelledBy := cancelledBy d;
     cancellationReason := cancellationReason d |}.

Definition set_totalB18 (v : Q) (d : t) : t :=
  {| invoiceNumber := invoiceNumber d; client := client d; quotation := quotation d;
     status := status d; items := items d; totalAEx := totalAEx d; totalB18 := v;
     totalTaxA := totalTaxA d; totalTaxB := totalTaxB d; subtotal := subtotal d;
     totalDiscount := totalDiscount d; totalTax := totalTax d; grandTotal := grandTotal d;
     roundedAmount := roundedAmount d; amountPaid := amountPaid d; balance := balance d;
     payments := payments d; dueDate := dueDate d; terms := terms d; notes := notes d;
     stockDeducted := stockDeducted d; createdBy := createdBy d; paidDate := paidDate d;
     confirmedDate := confirmedDate d; confirmedBy := confirmedBy d;
     cancelledDate := cancelledDate d; cancelledBy := cancelledBy d;
     cancellationReason := cancellationReason d |}.

Definition set_totalTaxA (v : Q) (d : t) : t :=
  {| invoiceNumber := invoiceNumber d; client := client d; quotation := quotation d;
     status := status d; items := items d; totalAEx := totalAEx d; totalB18 := totalB18 d;
     totalTaxA := v; totalTaxB := totalTaxB d; subtotal := subtotal d;
     totalDiscount := totalDiscount d; totalTax := totalTax d; grandTotal := grandTotal d;
     roundedAmount := roundedAmount d; amountPaid := amountPaid d; balance := balance d;
     payments := payments d; dueDate := dueDate d; terms := terms d; notes := notes d;
     stockDeducted := stockDeducted d; createdBy := createdBy d; paidDate := paidDate d;
     confirmedDate := confirmedDate d; confirmedBy := confirmedBy d;
     cancelledDate := cancelledDate d; cancelledBy := cancelledBy d;
     cancellationReason := cancellationReason d |}.

Definition set_totalTaxB (v : Q) (d : t) : t :=
  {| invoiceNumber := invoiceNumber d; client := client d; quotation := quotation d;
     status := status d; items := items d; totalAEx := totalAEx d; totalB18 := totalB18 d;
     totalTaxA := totalTaxA d; totalTaxB := v; subtotal := subtotal d;
     totalDiscount := totalDiscount d; totalTax := totalTax d; grandTotal := grandTotal d;
     roundedAmount := roundedAmount d; amountPaid := amountPaid d; balance := balance d;
     payments := payments d; dueDate := dueDate d; terms := terms d; notes := notes d;
     stockDeducted := stockDeducted d; createdBy := createdBy d; paidDate := paidDate d;
     confirmedDate := confirmedDate d; confirmedBy := confirmedBy d;
     cancelledDate := cancelledDate d; cancelledBy := cancelledBy d;
     cancellationReason := cancellationReason d |}.

Definition set_subtotal (v : Q) (d : t) : t :=
  {| invoiceNumber := invoiceNumber d; client := client d; quotation := quotation d;
     status := status d; items := items d; totalAEx := totalAEx d; totalB18 := totalB18 d;
     totalTaxA := totalTaxA d; totalTaxB := totalTaxB d; subtotal := v;
     totalDiscount := totalDiscount d; totalTax := totalTax d; grandTotal := grandTotal d;
     roundedAmount := roundedAmount d; amountPaid := amountPaid d; balance := balance d;
     payments := payments d; dueDate := dueDate d; terms := terms d; notes := notes d;
     stockDeducted := stockDeducted d; createdBy := createdBy d; paidDate := paidDate d;
     confirmedDate := confirmedDate d; confirmedBy := confirmedBy d;
     cancelledDate := cancelledDate d; cancelledBy := cancelledBy d;
     cancellationReason := cancellationReason d |}.

Definition set_totalDiscount (v : Q) (d : t) : t :=
  {| invoiceNumber := invoiceNumber d; client := client d; quotation := quotation d;
     status := status d; items := items d; totalAEx := totalAEx d; totalB18 := totalB18 d;
     totalTaxA := totalTaxA d; totalTaxB := totalTaxB d; subtotal := subtotal d;
     totalDiscount := v; totalTax := totalTax d; grandTotal := grandTotal d;
     roundedAmount := roundedAmount d; amountPaid := amountPaid d; balance := balance d;
     payments := payments d; dueDate := dueDate d; terms := terms d; notes := notes d;
     stockDeducted := stockDeducted d; createdBy := createdBy d; paidDate := paidDate d;
     confirmedDate := confirmedDate d; confirmedBy := confirmedBy d;
     cancelledDate := cancelledDate d; cancelledBy := cancelledBy d;
     cancellationReason := cancellationReason d |}.

Definition set_totalTax (v : Q) (d : t) : t :=
  {| invoiceNumber := invoiceNumber d; client := client d; quotation := quotation d;
     status := status d; items := items d; totalAEx := totalAEx d; totalB18 := totalB18 d;
     totalTaxA := totalTaxA d; totalTaxB := totalTaxB d; subtotal := subtotal d;
     totalDiscount := totalDiscount d; totalTax := v; grandTotal := grandTotal d;
     roundedAmount := roundedAmount d; amountPaid := amountPaid d; balance := balance d;
     payments := payments d; dueDate := dueDate d; terms := terms d; notes := notes d;
     stockDeducted := stockDeducted d; createdBy := createdBy d; paidDate := paidDate d;
     confirmedDate := confirmedDate d; confirmedBy := confirmedBy d;
     cancelledDate := cancelledDate d; cancelledBy := cancelledBy d;
     cancellationReason := cancellationReason d |}.

Definition set_grandTotal (v : Q) (d : t) : t :=
  {| invoiceNumber := invoiceNumber d; client := client d; quotation := quotation d;
     status := status d; items := items d; totalAEx := totalAEx d; totalB18 := totalB18 d;
     totalTaxA := totalTaxA d; totalTaxB := totalTaxB d; subtotal := subtotal d;
     totalDiscount := totalDiscount d; totalTax := totalTax d; grandTotal := v;
     roundedAmount := roundedAmount d; amountPaid := amountPaid d; balance := balance d;
     payments := payments d; dueDate := dueDate d; terms := terms d; notes := notes d;
     stockDeducted := stockDeducted d; createdBy := createdBy d; paidDate := paidDate d;
     confirmedDate := confirmedDate d; confirmedBy := confirmedBy d;
     cancelledDate := cancelledDate d; cancelledBy := cancelledBy d;
     cancellationReason := cancellationReason d |}.

Definition set_roundedAmount (v : Q) (d : t) : t :=
  {| invoiceNumber := invoiceNumber d; client := client d; quotation := quotation d;
     status := status d; items := items d; totalAEx := totalAEx d; totalB18 := totalB18 d;
     totalTaxA := totalTaxA d; totalTaxB := totalTaxB d; subtotal := subtotal d;
     totalDiscount := totalDiscount d; totalTax := totalTax d; grandTotal := grandTotal d;
     roundedAmount := v; amountPaid := amountPaid d; balance := balance d;
     payments := payments d; dueDate := dueDate d; terms := terms d; notes := notes d;
     stockDeducted := stockDeducted d; createdBy := createdBy d; paidDate := paidDate d;
     confirmedDate := confirmedDate d; confirmedBy := confirmedBy d;
     cancelledDate := cancelledDate d; cancelledBy := cancelledBy d;
     cancellationReason := cancellationReason d |}.

Definition set_amountPaid (v : Q) (d : t) : t :=
  {| invoiceNumber := invoiceNumber d; client := client d; quotation := quotation d;
     status := status d; items := items d; totalAEx := totalAEx d; totalB18 := totalB18 d;
     totalTaxA := totalTaxA d; totalTaxB := totalTaxB d; subtotal := subtotal d;
     totalDiscount := totalDiscount d; totalTax := totalTax d; grandTotal := grandTotal d;
     roundedAmount := roundedAmount d; amountPaid := v; balance := balance d;
     payments := payments d; dueDate := dueDate d; terms := terms d; notes := notes d;
     stockDeducted := stockDeducted d; createdBy := createdBy d; paidDate := paidDate d;
     confirmedDate := confirmedDate d; confirmedBy := confirmedBy d;
     cancelledDate := cancelledDate d; cancelledBy := cancelledBy d;
     cancellationReason := cancellationReason d |}.

Definition set_balance (v : Q) (d : t) : t :=
  {| invoiceNumber := invoiceNumber d; client := client d; quotation := quotation d;
     status := status d; items := items d; totalAEx := totalAEx d; totalB18 := totalB18 d;
     totalTaxA := totalTaxA d; totalTaxB := totalTaxB d; subtotal := subtotal d;
     totalDiscount := totalDiscount d; totalTax := totalTax d; grandTotal := grandTotal d;
     roundedAmount := roundedAmount d; amountPaid := amountPaid d; balance := v;
     payments := payments d; dueDate := dueDate d; terms := terms d; notes := notes d;
     stockDeducted := stockDeducted d; createdBy := createdBy d; paidDate := paidDate d;
     confirmedDate := confirmedDate d; confirmedBy := confirmedBy d;
     cancelledDate := cancelledDate d; cancelledBy := cancelledBy d;
     cancellationReason := cancellationReason d |}.

Definition set_payments (v : list Payment) (d : t) : t :=
  {| invoiceNumber := invoiceNumber d; client := client d; quotation := quotation d;
     status := status d; items := items d; totalAEx := totalAEx d; totalB18 := totalB18 d;
     totalTaxA := totalTaxA d; totalTaxB := totalTaxB d; subtotal := subtotal d;
     totalDiscount := totalDiscount d; totalTax := totalTax d; grandTotal := grandTotal d;
     roundedAmount := roundedAmount d; amountPaid := amountPaid d; balance := balance d;
     payments := v; dueDate := dueDate d; terms := terms d; notes := notes d;
     stockDeducted := stockDeducted d; createdBy := createdBy d; paidDate := paidDate d;
     confirmedDate := confirmedDate d; confirmedBy := confirmedBy d;
     cancelledDate := cancelledDate d; cancelledBy := cancelledBy d;
     cancellationReason := cancellationReason d |}.

Definition set_stockDeducted (v : bool) (d : t) : t :=
  {| invoiceNumber := invoiceNumber d; client := client d; quotation := quotation d;
     status := status d; items := items d; totalAEx := totalAEx d; totalB18 := totalB18 d;
     totalTaxA := totalTaxA d; totalTaxB := totalTaxB d; subtotal := subtotal d;
     totalDiscount := totalDiscount d; totalTax := totalTax d; grandTotal := grandTotal d;
     roundedAmount := roundedAmount d; amountPaid := amountPaid d; balance := balance d;
     payments := payments d; dueDate := dueDate d; terms := terms d; notes := notes d;
     stockDeducted := v; createdBy := createdBy d; paidDate := paidDate d;
     confirmedDate := confirmedDate d; confirmedBy := confirmedBy d;
     cancelledDate := cancelledDate d; cancelledBy := cancelledBy d;
     cancellationReason := cancellationReason d |}.

Definition set_paidDate (v : option Date) (d : t) : t :=
  {| invoiceNumber := invoiceNumber d; client := client d; quotation := quotation d;
     status := status d; items := items d; totalAEx := totalAEx d; totalB18 := totalB18 d;
     totalTaxA := totalTaxA d; totalTaxB := totalTaxB d; subtotal := subtotal d;
     totalDiscount := totalDiscount d; totalTax := totalTax d; grandTotal := grandTotal d;
     roundedAmount := roundedAmount d; amountPaid := amountPaid d; balance := balance d;
     payments := payments d; dueDate := dueDate d; terms := terms d; notes := notes d;
     stockDeducted := stockDeducted d; createdBy := createdBy d; paidDate := v;
     confirmedDate := confirmedDate d; confirmedBy := confirmedBy d;
     cancelledDate := cancelledDate d; cancelledBy := cancelledBy d;
     cancellationReason := cancellationReason d |}.

Definition set_confirmedDate (v : option Date) (d : t) : t :=
  {| invoiceNumber := invoiceNumber d; client := client d; quotation := quotation d;
     status := status d; items := items d; totalAEx := totalAEx d; totalB18 := totalB18 d;
     totalTaxA := totalTaxA d; totalTaxB := totalTaxB d; subtotal := subtotal d;
     totalDiscount := totalDiscount d; totalTax := totalTax d; grandTotal := grandTotal d;
     roundedAmount := roundedAmount d; amountPaid := amountPaid d; balance := balance d;
     payments := payments d; dueDate := dueDate d; terms := terms d; notes := notes d;
     stockDeducted := stockDeducted d; createdBy := createdBy d; paidDate := paidDate d;
     confirmedDate := v; confirmedBy := confirmedBy d; cancelledDate := cancelledDate d;
     cancelledBy := cancelledBy d; cancellationReason := cancellationReason d |}.

Definition set_confirmedBy (v : option ObjectId) (d : t) : t :=
  {| invoiceNumber := invoiceNumber d; client := client d; quotation := quotation d;
     status := status d; items := items d; totalAEx := totalAEx d; totalB18 := totalB18 d;
     totalTaxA := totalTaxA d; totalTaxB := totalTaxB d; subtotal := subtotal d;
     totalDiscount := totalDiscount d; totalTax := totalTax d; grandTotal := grandTotal d;
     roundedAmount := roundedAmount d; amountPaid := amountPaid d; balance := balance d;
     payments := payments d; dueDate := dueDate d; terms := terms d; notes := notes d;
     stockDeducted := stockDeducted d; createdBy := createdBy d; paidDate := paidDate d;
     confirmedDate := confirmedDate d; confirmedBy := v; cancelledDate := cancelledDate d;
     cancelledBy := cancelledBy d; cancellationReason := cancellationReason d |}.

Definition set_cancelledDate (v : option Date) (d : t) : t :=
  {| invoiceNumber := invoiceNumber d; client := client d; quotation := quotation d;
     status := status d; items := items d; totalAEx := totalAEx d; totalB18 := totalB18 d;
     totalTaxA := totalTaxA d; totalTaxB := totalTaxB d; subtotal := subtotal d;
     totalDiscount := totalDiscount d; totalTax := totalTax d; grandTotal := grandTotal d;
     roundedAmount := roundedAmount d; amountPaid := amountPaid d; balance := balance d;
     payments := payments d; dueDate := dueDate d; terms := terms d; notes := notes d;
     stockDeducted := stockDeducted d; createdBy := createdBy d; paidDate := paidDate d;
     confirmedDate := confirmedDate d; confirmedBy := confirmedBy d; cancelledDate := v;
     cancelledBy := cancelledBy d; cancellationReason := cancellationReason d |}.

Definition set_cancelledBy (v : option ObjectId) (d : t) : t :=
  {| invoiceNumber := invoiceNumber d; client := client d; quotation := quotation d;
     status := status d; items := items d; totalAEx := totalAEx d; totalB18 := totalB18 d;
     totalTaxA := totalTaxA d; totalTaxB := totalTaxB d; subtotal := subtotal d;
     totalDiscount := totalDiscount d; totalTax := totalTax d; grandTotal := grandTotal d;
     roundedAmount := roundedAmount d; amountPaid := amountPaid d; balance := balance d;
     payments := payments d; dueDate := dueDate d; terms := terms d; notes := notes d;
     stockDeducted := stockDeducted d; createdBy := createdBy d; paidDate := paidDate d;
     confirmedDate := confirmedDate d; confirmedBy := confirmedBy d;
     cancelledDate := cancelledDate d; cancelledBy := v;
     cancellationReason := cancellationReason d |}.

Definition set_cancellationReason (v : option string) (d : t) : t :=
  {| invoiceNumber := invoiceNumber d; client := client d; quotation := quotation d;
     status := status d; items := items d; totalAEx := totalAEx d; totalB18 := totalB18 d;
     totalTaxA := totalTaxA d; totalTaxB := totalTaxB d; subtotal := subtotal d;
     totalDiscount := totalDiscount d; totalTax := totalTax d; grandTotal := grandTotal d;
     roundedAmount := roundedAmount d; amountPaid := amountPaid d; balance := balance d;
     payments := payments d; dueDate := dueDate d; terms := terms d; notes := notes d;
     stockDeducted := stockDeducted d; createdBy := createdBy d; paidDate := paidDate d;
     confirmedDate := confirmedDate d; confirmedBy := confirmedBy d;
     cancelledDate := cancelledDate d; cancelledBy := cancelledBy d; cancellationReason := v
     |}.


(** The totals hook, [invoiceSchema.pre('save')]. *)

Record TaxTotals : Type := mkTaxTotals {
  accAEx : Q; accB18 : Q; accTaxA : Q; accTaxB : Q
}.

Definition netAmount (item : InvoiceItem.t) : Q :=
  InvoiceItem.quantity item * InvoiceItem.unitPrice item - InvoiceItem.discount item.

(* the tax-bucket part of the [forEach] body *)
Definition accumulate (acc : TaxTotals) (item : InvoiceItem.t) : TaxTotals :=
  match InvoiceItem.taxCode item with
  | TaxA => mkTaxTotals (accAEx acc + netAmount item) (accB18 acc)
              (accTaxA acc + netAmount item * (InvoiceItem.taxRate item / 100)) (accTaxB acc)
  | TaxB => mkTaxTotals (accAEx acc) (accB18 acc + netAmount item)
              (accTaxA acc) (accTaxB acc + netAmount item * (InvoiceItem.taxRate item / 100))
  | TaxNone => acc
  end.

(* the item-update part of the [forEach] body *)
Definition recalcItem (item : InvoiceItem.t) : InvoiceItem.t :=
  let item1 := InvoiceItem.set_subtotal (InvoiceItem.quantity item * InvoiceItem.unitPrice item) item in
  let item2 := InvoiceItem.set_taxAmount (netAmount item * (InvoiceItem.taxRate item / 100)) item1 in
  InvoiceItem.set_totalWithTax (netAmount item + InvoiceItem.taxAmount item2) item2.

Definition calculateTotals (d : t) : t :=
  match items d with
  | [] => d
  | _ :: _ =>
    let acc := fold_left accumulate (items d) (mkTaxTotals 0 0 0 0) in
    let d := set_items (map recalcItem (items d)) d in
    let d := set_totalAEx (accAEx acc) d in
    let d := set_totalB18 (accB18 acc) d in
    let d := set_totalTaxA (accTaxA acc) d in
    let d := set_totalTaxB (accTaxB acc) d in
    let d := set_subtotal
               (fold_left (fun sum item => sum + InvoiceItem.subtotal item) (items d) 0) d in
    let d := set_totalDiscount
               (fold_left (fun sum item => sum + InvoiceItem.discount item) (items d) 0) d in
    let d := set_totalTax (accTaxA acc + accTaxB acc) d in
    let d := set_grandTotal (subtotal d - totalDiscount d + totalTax d) d in
    let d := set_roundedAmount (Math_round (grandTotal d * 100) / 100) d in
    set_balance (roundedAmount d - amountPaid d) d
  end.

(* "Update status based on payment" *)
Definition updateStatus (today : Date) (d : t) : t :=
  if Qgeb (amountPaid d) (roundedAmount d) && Qgtb (roundedAmount d) 0 then
    let d := set_status paid d in
    match paidDate d with
    | None => set_paidDate (Some today) d
    | Some _ => d
    end
  else if Qgtb (amountPaid d) 0 && Qltb (amountPaid d) (roundedAmount d) then
    set_status partial d
  else d.

Definition pre_save (today : Date) (d : t) : t :=
  updateStatus today (calculateTotals d).

#[global] Instance InvoiceStatus_eq_dec : EqDecision Status.
Proof. solve_decision. Defined.
End Invoice.

(** ** models/Purchase.js *)
Module PurchaseItem.
Record t : Type := mk {
  product : ObjectId;
  quantity : Q;
  unitCost : Q;
  discount : Q;
  taxCode : TaxCode;
  taxRate : Q;
  taxAmount : Q;
  subtotal : Q;
  totalWithTax : Q
}.

Definition set_taxAmount (v : Q) (d : t) : t :=
  {| product := product d; quantity := quantity d; unitCost := unitCost d;
     discount := discount d; taxCode := taxCode d; taxRate := taxRate d; taxAmount := v;
     subtotal := subtotal d; totalWithTax := totalWithTax d |}.

Definition set_subtotal (v : Q) (d : t) : t :=
  {| product := product d; quantity := quantity d; unitCost := unitCost d;
     discount := discount d; taxCode := taxCode d; taxRate := taxRate d;
     taxAmount := taxAmount d; subtotal := v; totalWithTax := totalWithTax d |}.

Definition set_totalWithTax (v : Q) (d : t) : t :=
  {| product := product d; quantity := quantity d; unitCost := unitCost d;
     discount := discount d; taxCode := taxCode d; taxRate := taxRate d;
     taxAmount := taxAmount d; subtotal := subtotal d; totalWithTax := v |}.

End PurchaseItem.

Module Purchase.
Inductive Status := draft | ordered | received | partial | paid | cancelled.

Record t : Type := mk {
  purchaseNumber : string;
  supplier : ObjectId;
  status : Status;
  items : list PurchaseItem.t;
  totalAEx : Q;
  totalB18 : Q;
  totalTaxA : Q;
  totalTaxB : Q;
  subtotal : Q;
  totalDiscount : Q;
  totalTax : Q;
  grandTotal : Q;
  roundedAmount : Q;
  amountPaid : Q;
  balance : Q;
  payments : list Payment;
  receivedDate : option Date;
  terms : option string;
  notes : option string;
  stockAdded : bool;
  createdBy : ObjectId;
  paidDate : option Date;
  confirmedDate : option Date;
  confirmedBy : option ObjectId;
  cancelledDate : option Date;
  cancelledBy : option ObjectId;
  cancellationReason : option string
}.

Definition set_status (v : Status) (d : t) : t :=
  {| purchaseNumber := purchaseNumber d; supplier := supplier d; status := v;
     items := items d; totalAEx := totalAEx d; totalB18 := totalB18 d;
     totalTaxA := totalTaxA d; totalTaxB := totalTaxB d; subtotal := subtotal d;
     totalDiscount := totalDiscount d; totalTax := totalTax d; grandTotal := grandTotal d;
     roundedAmount := roundedAmount d; amountPaid := amountPaid d; balance := balance d;
     payments := payments d; receivedDate := receivedDate d; terms := terms d;
     notes := notes d; stockAdded := stockAdded d; createdBy := createdBy d;
     paidDate := paidDate d; confirmedDate := confirmedDate d; confirmedBy := confirmedBy d;
     cancelledDate := cancelledDate d; cancelledBy := cancelledBy d;
     cancellationReason := cancellationReason d |}.

Definition set_items (v : list PurchaseItem.t) (d : t) : t :=
  {| purchaseNumber := purchaseNumber d; supplier := supplier d; status := status d;
     items := v; totalAEx := totalAEx d; totalB18 := totalB18 d; totalTaxA := totalTaxA d;
     totalTaxB := totalTaxB d; subtotal := subtotal d; totalDiscount := totalDiscount d;
     totalTax := totalTax d; grandTotal := grandTotal d; roundedAmount := roundedAmount d;
     amountPaid := amountPaid d; balance := balance d; payments := payments d;
     receivedDate := receivedDate d; terms := terms d; notes := notes d;
     stockAdded := stockAdded d; createdBy := createdBy d; paidDate := paidDate d;
     confirmedDate := confirmedDate d; confirmedBy := confirmedBy d;
     cancelledDate := cancelledDate d; cancelledBy := cancelledBy d;
     cancellationReason := cancellationReason d |}.

Definition set_totalAEx (v : Q) (d : t) : t :=
  {| purchaseNumber := purchaseNumber d; supplier := supplier d; status := status d;
     items := items d; totalAEx := v; totalB18 := totalB18 d; totalTaxA := totalTaxA d;
     totalTaxB := totalTaxB d; subtotal := subtotal d; totalDiscount := totalDiscount d;
     totalTax := totalTax d; grandTotal := grandTotal d; roundedAmount := roundedAmount d;
     amountPaid := amountPaid d; balance := balance d; payments := payments d;
     receivedDate := receivedDate d; terms := terms d; notes := notes d;
     stockAdded := stockAdded d; createdBy := createdBy d; paidDate := paidDate d;
     confirmedDate := confirmedDate d; confirmedBy := confirmedBy d;
     cancelledDate := cancelledDate d; cancelledBy := cancelledBy d;
     cancellationReason := cancellationReason d |}.

Definition set_totalB18 (v : Q) (d : t) : t :=
  {| purchaseNumber := purchaseNumber d; supplier := supplier d; status := status d;
     items := items d; totalAEx := totalAEx d; totalB18 := v; totalTaxA := totalTaxA d;
     totalTaxB := totalTaxB d; subtotal := subtotal d; totalDiscount := totalDiscount d;
     totalTax := totalTax d; grandTotal := grandTotal d; roundedAmount := roundedAmount d;
     amountPaid := amountPaid d; balance := balance d; payments := payments d;
     receivedDate := receivedDate d; terms := terms d; notes := notes d;
     stockAdded := stockAdded d; createdBy := createdBy d; paidDate := paidDate d;
     confirmedDate := confirmedDate d; confirmedBy := confirmedBy d;
     cancelledDate := cancelledDate d; cancelledBy := cancelledBy d;
     cancellationReason := cancellationReason d |}.

Definition set_totalTaxA (v : Q) (d : t) : t :=
  {| purchaseNumber := purchaseNumber d; supplier := supplier d; status := status d;
     items := items d; totalAEx := totalAEx d; totalB18 := totalB18 d; totalTaxA := v;
     totalTaxB := totalTaxB d; subtotal := subtotal d; totalDiscount := totalDiscount d;
     totalTax := totalTax d; grandTotal := grandTotal d; roundedAmount := roundedAmount d;
     amountPaid := amountPaid d; balance := balance d; payments := payments d;
     receivedDate := receivedDate d; terms := terms d; notes := notes d;
     stockAdded := stockAdded d; createdBy := createdBy d; paidDate := paidDate d;
     confirmedDate := confirmedDate d; confirmedBy := confirmedBy d;
     cancelledDate := cancelledDate d; cancelledBy := cancelledBy d;
     cancellationReason := cancellationReason d |}.

Definition set_totalTaxB (v : Q) (d : t) : t :=
  {| purchaseNumber := purchaseNumber d; supplier := supplier d; status := status d;
     items := items d; totalAEx := totalAEx d; totalB18 := totalB18 d;
     totalTaxA := totalTaxA d; totalTaxB := v; subtotal := subtotal d;
     totalDiscount := totalDiscount d; totalTax := totalTax d; grandTotal := grandTotal d;
     roundedAmount := roundedAmount d; amountPaid := amountPaid d; balance := balance d;
     payments := payments d; receivedDate := receivedDate d; terms := terms d;
     notes := notes d; stockAdded := stockAdded d; createdBy := createdBy d;
     paidDate := paidDate d; confirmedDate := confirmedDate d; confirmedBy := confirmedBy d;
     cancelledDate := cancelledDate d; cancelledBy := cancelledBy d;
     cancellationReason := cancellationReason d |}.

Definition set_subtotal (v : Q) (d : t) : t :=
  {| purchaseNumber := purchaseNumber d; supplier := supplier d; status := status d;
     items := items d; totalAEx := totalAEx d; totalB18 := totalB18 d;
     totalTaxA := totalTaxA d; totalTaxB := totalTaxB d; subtotal := v;
     totalDiscount := totalDiscount d; totalTax := totalTax d; grandTotal := grandTotal d;
     roundedAmount := roundedAmount d; amountPaid := amountPaid d; balance := balance d;
     payments := payments d; receivedDate := receivedDate d; terms := terms d;
     notes := notes d; stockAdded := stockAdded d; createdBy := createdBy d;
     paidDate := paidDate d; confirmedDate := confirmedDate d; confirmedBy := confirmedBy d;
     cancelledDate := cancelledDate d; cancelledBy := cancelledBy d;
     cancellationReason := cancellationReason d |}.

Definition set_totalDiscount (v : Q) (d : t) : t :=
  {| purchaseNumber := purchaseNumber d; supplier := supplier d; status := status d;
     items := items d; totalAEx := totalAEx d; totalB18 := totalB18 d;
     totalTaxA := totalTaxA d; totalTaxB := totalTaxB d; subtotal := subtotal d;
     totalDiscount := v; totalTax := totalTax d; grandTotal := grandTotal d;
     roundedAmount := roundedAmount d; amountPaid := amountPaid d; balance := balance d;
     payments := payments d; receivedDate := receivedDate d; terms := terms d;
     notes := notes d; stockAdded := stockAdded d; createdBy := createdBy d;
     paidDate := paidDate d; confirmedDate := confirmedDate d; confirmedBy := confirmedBy d;
     cancelledDate := cancelledDate d; cancelledBy := cancelledBy d;
     cancellationReason := cancellationReason d |}.

Definition set_totalTax (v : Q) (d : t) : t :=
  {| purchaseNumber := purchaseNumber d; supplier := supplier d; status := status d;
     items := items d; totalAEx := totalAEx d; totalB18 := totalB18 d;
     totalTaxA := totalTaxA d; totalTaxB := totalTaxB d; subtotal := subtotal d;
     totalDiscount := totalDiscount d; totalTax := v; grandTotal := grandTotal d;
     roundedAmount := roundedAmount d; amountPaid := amountPaid d; balance := balance d;
     payments := payments d; receivedDate := receivedDate d; terms := terms d;
     notes := notes d; stockAdded := stockAdded d; createdBy := createdBy d;
     paidDate := paidDate d; confirmedDate := confirmedDate d; confirmedBy := confirmedBy d;
     cancelledDate := cancelledDate d; cancelledBy := cancelledBy d;
     cancellationReason := cancellationReason d |}.

Definition set_grandTotal (v : Q) (d : t) : t :=
  {| purchaseNumber := purchaseNumber d; supplier := supplier d; status := status d;
     items := items d; totalAEx := totalAEx d; totalB18 := totalB18 d;
     totalTaxA := totalTaxA d; totalTaxB := totalTaxB d; subtotal := subtotal d;
     totalDiscount := totalDiscount d; totalTax := totalTax d; grandTotal := v;
     roundedAmount := roundedAmount d; amountPaid := amountPaid d; balance := balance d;
     payments := payments d; receivedDate := receivedDate d; terms := terms d;
     notes := notes d; stockAdded := stockAdded d; createdBy := createdBy d;
     paidDate := paidDate d; confirmedDate := confirmedDate d; confirmedBy := confirmedBy d;
     cancelledDate := cancelledDate d; cancelledBy := cancelledBy d;
     cancellationReason := cancellationReason d |}.

Definition set_roundedAmount (v : Q) (d : t) : t :=
  {| purchaseNumber := purchaseNumber d; supplier := supplier d; status := status d;
     items := items d; totalAEx := totalAEx d; totalB18 := totalB18 d;
     totalTaxA := totalTaxA d; totalTaxB := totalTaxB d; subtotal := subtotal d;
     totalDiscount := totalDiscount d; totalTax := totalTax d; grandTotal := grandTotal d;
     roundedAmount := v; amountPaid := amountPaid d; balance := balance d;
     payments := payments d; receivedDate := receivedDate d; terms := terms d;
     notes := notes d; stockAdded := stockAdded d; createdBy := createdBy d;
     paidDate := paidDate d; confirmedDate := confirmedDate d; confirmedBy := confirmedBy d;
     cancelledDate := cancelledDate d; cancelledBy := cancelledBy d;
     cancellationReason := cancellationReason d |}.

Definition set_amountPaid (v : Q) (d : t) : t :=
  {| purchaseNumber := purchaseNumber d; supplier := supplier d; status := status d;
     items := items d; totalAEx := totalAEx d; totalB18 := totalB18 d;
     totalTaxA := totalTaxA d; totalTaxB := totalTaxB d; subtotal := subtotal d;
     totalDiscount := totalDiscount d; totalTax := totalTax d; grandTotal := grandTotal d;
     roundedAmount := roundedAmount d; amountPaid := v; balance := balance d;
     payments := payments d; receivedDate := receivedDate d; terms := terms d;
     notes := notes d; stockAdded := stockAdded d; createdBy := createdBy d;
     paidDate := paidDate d; confirmedDate := confirmedDate d; confirmedBy := confirmedBy d;
     cancelledDate := cancelledDate d; cancelledBy := cancelledBy d;
     cancellationReason := cancellationReason d |}.

Definition set_balance (v : Q) (d : t) : t :=
  {| purchaseNumber := purchaseNumber d; supplier := supplier d; status := status d;
     items := items d; totalAEx := totalAEx d; totalB18 := totalB18 d;
     totalTaxA := totalTaxA d; totalTaxB := totalTaxB d; subtotal := subtotal d;
     totalDiscount := totalDiscount d; totalTax := totalTax d; grandTotal := grandTotal d;
     roundedAmount := roundedAmount d; amountPaid := amountPaid d; balance := v;
     payments := payments d; receivedDate := receivedDate d; terms := terms d;
     notes := notes d; stockAdded := stockAdded d; createdBy := createdBy d;
     paidDate := paidDate d; confirmedDate := confirmedDate d; confirmedBy := confirmedBy d;
     cancelledDate := cancelledDate d; cancelledBy := cancelledBy d;
     cancellationReason := cancellationReason d |}.

Definition set_payments (v : list Payment) (d : t) : t :=
  {| purchaseNumber := purchaseNumber d; supplier := supplier d; status := status d;
     items := items d; totalAEx := totalAEx d; totalB18 := totalB18 d;
     totalTaxA := totalTaxA d; totalTaxB := totalTaxB d; subtotal := subtotal d;
     totalDiscount := totalDiscount d; totalTax := totalTax d; grandTotal := grandTotal d;
     roundedAmount := roundedAmount d; amountPaid := amountPaid d; balance := balance d;
     payments := v; receivedDate := receivedDate d; terms := terms d; notes := notes d;
     stockAdded := stockAdded d; createdBy := createdBy d; paidDate := paidDate d;
     confirmedDate := confirmedDate d; confirmedBy := confirmedBy d;
     cancelledDate := cancelledDate d; cancelledBy := cancelledBy d;
     cancellationReason := cancellationReason d |}.

Definition set_receivedDate (v : option Date) (d : t) : t :=
  {| purchaseNumber := purchaseNumber d; supplier := supplier d; status := status d;
     items := items d; totalAEx := totalAEx d; totalB18 := totalB18 d;
     totalTaxA := totalTaxA d; totalTaxB := totalTaxB d; subtotal := subtotal d;
     totalDiscount := totalDiscount d; totalTax := totalTax d; grandTotal := grandTotal d;
     roundedAmount := roundedAmount d; amountPaid := amountPaid d; balance := balance d;
     payments := payments d; receivedDate := v; terms := terms d; notes := notes d;
     stockAdded := stockAdded d; createdBy := createdBy d; paidDate := paidDate d;
     confirmedDate := confirmedDate d; confirmedBy := confirmedBy d;
     cancelledDate := cancelledDate d; cancelledBy := cancelledBy d;
     cancellationReason := cancellationReason d |}.

Definition set_stockAdded (v : bool) (d : t) : t :=
  {| purchaseNumber := purchaseNumber d; supplier := supplier d; status := status d;
     items := items d; totalAEx := totalAEx d; totalB18 := totalB18 d;
     totalTaxA := totalTaxA d; totalTaxB := totalTaxB d; subtotal := subtotal d;
     totalDiscount := totalDiscount d; totalTax := totalTax d; grandTotal := grandTotal d;
     roundedAmount := roundedAmount d; amountPaid := amountPaid d; balance := balance d;
     payments := payments d; receivedDate := receivedDate d; terms := terms d;
     notes := notes d; stockAdded := v; createdBy := createdBy d; paidDate := paidDate d;
     confirmedDate := confirmedDate d; confirmedBy := confirmedBy d;
     cancelledDate := cancelledDate d; cancelledBy := cancelledBy d;
     cancellationReason := cancellationReason d |}.

Definition set_paidDate (v : option Date) (d : t) : t :=
  {| purchaseNumber := purchaseNumber d; supplier := supplier d; status := status d;
     items := items d; totalAEx := totalAEx d; totalB18 := totalB18 d;
     totalTaxA := totalTaxA d; totalTaxB := totalTaxB d; subtotal := subtotal d;
     totalDiscount := totalDiscount d; totalTax := totalTax d; grandTotal := grandTotal d;
     roundedAmount := roundedAmount d; amountPaid := amountPaid d; balance := balance d;
     payments := payments d; receivedDate := receivedDate d; terms := terms d;
     notes := notes d; stockAdded := stockAdded d; createdBy := createdBy d; paidDate := v;
     confirmedDate := confirmedDate d; confirmedBy := confirmedBy d;
     cancelledDate := cancelledDate d; cancelledBy := cancelledBy d;
     cancellationReason := cancellationReason d |}.

Definition set_confirmedDate (v : option Date) (d : t) : t :=
  {| purchaseNumber := purchaseNumber d; supplier := supplier d; status := status d;
     items := items d; totalAEx := totalAEx d; totalB18 := totalB18 d;
     totalTaxA := totalTaxA d; totalTaxB := totalTaxB d; subtotal := subtotal d;
     totalDiscount := totalDiscount d; totalTax := totalTax d; grandTotal := grandTotal d;
     roundedAmount := roundedAmount d; amountPaid := amountPaid d; balance := balance d;
     payments := payments d; receivedDate := receivedDate d; terms := terms d;
     notes := notes d; stockAdded := stockAdded d; createdBy := createdBy d;
     paidDate := paidDate d; confirmedDate := v; confirmedBy := confirmedBy d;
     cancelledDate := cancelledDate d; cancelledBy := cancelledBy d;
     cancellationReason := cancellationReason d |}.

Definition set_confirmedBy (v : option ObjectId) (d : t) : t :=
  {| purchaseNumber := purchaseNumber d; supplier := supplier d; status := status d;
     items := items d; totalAEx := totalAEx d; totalB18 := totalB18 d;
     totalTaxA := totalTaxA d; totalTaxB := totalTaxB d; subtotal := subtotal d;
     totalDiscount := totalDiscount d; totalTax := totalTax d; grandTotal := grandTotal d;
     roundedAmount := roundedAmount d; amountPaid := amountPaid d; balance := balance d;
     payments := payments d; receivedDate := receivedDate d; terms := terms d;
     notes := notes d; stockAdded := stockAdded d; createdBy := createdBy d;
     paidDate := paidDate d; confirmedDate := confirmedDate d; confirmedBy := v;
     cancelledDate := cancelledDate d; cancelledBy := cancelledBy d;
     cancellationReason := cancellationReason d |}.

Definition set_cancelledDate (v : option Date) (d : t) : t :=
  {| purchaseNumber := purchaseNumber d; supplier := supplier d; status := status d;
     items := items d; totalAEx := totalAEx d; totalB18 := totalB18 d;
     totalTaxA := totalTaxA d; totalTaxB := totalTaxB d; subtotal := subtotal d;
     totalDiscount := totalDiscount d; totalTax := totalTax d; grandTotal := grandTotal d;
     roundedAmount := roundedAmount d; amountPaid := amountPaid d; balance := balance d;
     payments := payments d; receivedDate := receivedDate d; terms := terms d;
     notes := notes d; stockAdded := stockAdded d; createdBy := createdBy d;
     paidDate := paidDate d; confirmedDate := confirmedDate d; confirmedBy := confirmedBy d;
     cancelledDate := v; cancelledBy := cancelledBy d;
     cancellationReason := cancellationReason d |}.

Definition set_cancelledBy (v : option ObjectId) (d : t) : t :=
  {| purchaseNumber := purchaseNumber d; supplier := supplier d; status := status d;
     items := items d; totalAEx := totalAEx d; totalB18 := totalB18 d;
     totalTaxA := totalTaxA d; totalTaxB := totalTaxB d; subtotal := subtotal d;
     totalDiscount := totalDiscount d; totalTax := totalTax d; grandTotal := grandTotal d;
     roundedAmount := roundedAmount d; amountPaid := amountPaid d; balance := balance d;
     payments := payments d; receivedDate := receivedDate d; terms := terms d;
     notes := notes d; stockAdded := stockAdded d; createdBy := createdBy d;
     paidDate := paidDate d; confirmedDate := confirmedDate d; confirmedBy := confirmedBy d;
     cancelledDate := cancelledDate d; cancelledBy := v;
     cancellationReason := cancellationReason d |}.

Definition set_cancellationReason (v : option string) (d : t) : t :=
  {| purchaseNumber := purchaseNumber d; supplier := supplier d; status := status d;
     items := items d; totalAEx := totalAEx d; totalB18 := totalB18 d;
     totalTaxA := totalTaxA d; totalTaxB := totalTaxB d; subtotal := subtotal d;
     totalDiscount := totalDiscount d; totalTax := totalTax d; grandTotal := grandTotal d;
     roundedAmount := roundedAmount d; amountPaid := amountPaid d; balance := balance d;
     payments := payments d; receivedDate := receivedDate d; terms := terms d;
     notes := notes d; stockAdded := stockAdded d; createdBy := createdBy d;
     paidDate := paidDate d; confirmedDate := confirmedDate d; confirmedBy := confirmedBy d;
     cancelledDate := cancelledDate d; cancelledBy := cancelledBy d; cancellationReason := v
     |}.


(** The totals hook, [purchaseSchema.pre('save')]. *)

Record TaxTotals : Type := mkTaxTotals {
  accAEx : Q; accB18 : Q; accTaxA : Q; accTaxB : Q
}.

Definition netAmount (item : PurchaseItem.t) : Q :=
  PurchaseItem.quantity item * PurchaseItem.unitCost item - PurchaseItem.discount item.

(* the tax-bucket part of the [forEach] body *)
Definition accumulate (acc : TaxTotals) (item : PurchaseItem.t) : TaxTotals :=
  match PurchaseItem.taxCode item with
  | TaxA => mkTaxTotals (accAEx acc + netAmount item) (accB18 acc)
              (accTaxA acc + netAmount item * (PurchaseItem.taxRate item / 100)) (accTaxB acc)
  | TaxB => mkTaxTotals (accAEx acc) (accB18 acc + netAmount item)
              (accTaxA acc) (accTaxB acc + netAmount item * (PurchaseItem.taxRate item / 100))
  | TaxNone => acc
  end.

(* the item-update part of the [forEach] body *)
Definition recalcItem (item : PurchaseItem.t) : PurchaseItem.t :=
  let item1 := PurchaseItem.set_subtotal (PurchaseItem.quantity item * PurchaseItem.unitCost item) item in
  let item2 := PurchaseItem.set_taxAmount (netAmount item * (PurchaseItem.taxRate item / 100)) item1 in
  PurchaseItem.set_totalWithTax (netAmount item + PurchaseItem.taxAmount item2) item2.

Definition calculateTotals (d : t) : t :=
  match items d with
  | [] => d
  | _ :: _ =>
    let acc := fold_left accumulate (items d) (mkTaxTotals 0 0 0 0) in
    let d := set_items (map recalcItem (items d)) d in
    let d := set_totalAEx (accAEx acc) d in
    let d := set_totalB18 (accB18 acc) d in
    let d := set_totalTaxA (accTaxA acc) d in
    let d := set_totalTaxB (accTaxB acc) d in
    let d := set_subtotal
               (fold_left (fun sum item => sum + PurchaseItem.subtotal item) (items d) 0) d in
    let d := set_totalDiscount
               (fold_left (fun sum item => sum + PurchaseItem.discount item) (items d) 0) d in
    let d := set_totalTax (accTaxA acc + accTaxB acc) d in
    let d := set_grandTotal (subtotal d - totalDiscount d + totalTax d) d in
    let d := set_roundedAmount (Math_round (grandTotal d * 100) / 100) d in
    set_balance (roundedAmount d - amountPaid d) d
  end.

(* "Update status based on payment" *)
Definition updateStatus (today : Date) (d : t) : t :=
  if Qgeb (amountPaid d) (roundedAmount d) && Qgtb (roundedAmount d) 0 then
    let d := set_status paid d in
    match paidDate d with
    | None => set_paidDate (Some today) d
    | Some _ => d
    end
  else if Qgtb (amountPaid d) 0 && Qltb (amountPaid d) (roundedAmount d) then
    set_status partial d
  else d.

Definition pre_save (today : Date) (d : t) : t :=
  updateStatus today (calculateTotals d).

#[global] Instance PurchaseStatus_eq_dec : EqDecision Status.
Proof. solve_decision. Defined.
End Purchase.

(** ** models/Quotation.js *)
Module QuotationItem.
Record t : Type := mk {
  product : ObjectId;
  quantity : Q;
  unitPrice : Q;
  discount : Q;
  taxRate : Q;
  subtotal : Q;
  total : Q
}.

End QuotationItem.

Module Quotation.
Inductive Status := draft | sent | approved | rejected | converted | expired.

Record t : Type := mk {
  quotationNumber : string;
  client : ObjectId;
  status : Status;
  items : list QuotationItem.t;
  subtotal : Q;
  totalDiscount : Q;
  totalTax : Q;
  grandTotal : Q;
  terms : option string;
  notes : option string;
  createdBy : ObjectId;
  approvedBy : option ObjectId;
  approvedDate : option Date;
  convertedToInvoice : option ObjectId;
  conversionDate : option Date
}.

Definition set_status (v : Status) (d : t) : t :=
  {| quotationNumber := quotationNumber d; client := client d; status := v;
     items := items d; subtotal := subtotal d; totalDiscount := totalDiscount d;
     totalTax := totalTax d; grandTotal := grandTotal d; terms := terms d; notes := notes d;
     createdBy := createdBy d; approvedBy := approvedBy d; approvedDate := approvedDate d;
     convertedToInvoice := convertedToInvoice d; conversionDate := conversionDate d |}.

Definition set_subtotal (v : Q) (d : t) : t :=
  {| quotationNumber := quotationNumber d; client := client d; status := status d;
     items := items d; subtotal := v; totalDiscount := totalDiscount d;
     totalTax := totalTax d; grandTotal := grandTotal d; terms := terms d; notes := notes d;
     createdBy := createdBy d; approvedBy := approvedBy d; approvedDate := approvedDate d;
     convertedToInvoice := convertedToInvoice d; conversionDate := conversionDate d |}.

Definition set_totalDiscount (v : Q) (d : t) : t :=
  {| quotationNumber := quotationNumber d; client := client d; status := status d;
     items := items d; subtotal := subtotal d; totalDiscount := v; totalTax := totalTax d;
     grandTotal := grandTotal d; terms := terms d; notes := notes d;
     createdBy := createdBy d; approvedBy := approvedBy d; approvedDate := approvedDate d;
     convertedToInvoice := convertedToInvoice d; conversionDate := conversionDate d |}.

Definition set_totalTax (v : Q) (d : t) : t :=
  {| quotationNumber := quotationNumber d; client := client d; status := status d;
     items := items d; subtotal := subtotal d; totalDiscount := totalDiscount d;
     totalTax := v; grandTotal := grandTotal d; terms := terms d; notes := notes d;
     createdBy := createdBy d; approvedBy := approvedBy d; approvedDate := approvedDate d;
     convertedToInvoice := convertedToInvoice d; conversionDate := conversionDate d |}.

Definition set_grandTotal (v : Q) (d : t) : t :=
  {| quotationNumber := quotationNumber d; client := client d; status := status d;
     items := items d; subtotal := subtotal d; totalDiscount := totalDiscount d;
     totalTax := totalTax d; grandTotal := v; terms := terms d; notes := notes d;
     createdBy := createdBy d; approvedBy := approvedBy d; approvedDate := approvedDate d;
     convertedToInvoice := convertedToInvoice d; conversionDate := conversionDate d |}.

Definition set_approvedBy (v : option ObjectId) (d : t) : t :=
  {| quotationNumber := quotationNumber d; client := client d; status := status d;
     items := items d; subtotal := subtotal d; totalDiscount := totalDiscount d;
     totalTax := totalTax d; grandTotal := grandTotal d; terms := terms d; notes := notes d;
     createdBy := createdBy d; approvedBy := v; approvedDate := approvedDate d;
     convertedToInvoice := convertedToInvoice d; conversionDate := conversionDate d |}.

Definition set_approvedDate (v : option Date) (d : t) : t :=
  {| quotationNumber := quotationNumber d; client := client d; status := status d;
     items := items d; subtotal := subtotal d; totalDiscount := totalDiscount d;
     totalTax := totalTax d; grandTotal := grandTotal d; terms := terms d; notes := notes d;
     createdBy := createdBy d; approvedBy := approvedBy d; approvedDate := v;
     convertedToInvoice := convertedToInvoice d; conversionDate := conversionDate d |}.

Definition set_convertedToInvoice (v : option ObjectId) (d : t) : t :=
  {| quotationNumber := quotationNumber d; client := client d; status := status d;
     items := items d; subtotal := subtotal d; totalDiscount := totalDiscount d;
     totalTax := totalTax d; grandTotal := grandTotal d; terms := terms d; notes := notes d;
     createdBy := createdBy d; approvedBy := approvedBy d; approvedDate := approvedDate d;
     convertedToInvoice := v; conversionDate := conversionDate d |}.

Definition set_conversionDate (v : option Date) (d : t) : t :=
  {| quotationNumber := quotationNumber d; client := client d; status := status d;
     items := items d; subtotal := subtotal d; totalDiscount := totalDiscount d;
     totalTax := totalTax d; grandTotal := grandTotal d; terms := terms d; notes := notes d;
     createdBy := createdBy d; approvedBy := approvedBy d; approvedDate := approvedDate d;
     convertedToInvoice := convertedToInvoice d; conversionDate := v |}.


(** The totals hook, [quotationSchema.pre('save')]. *)
Definition pre_save (d : t) : t :=
  match items d with
  | [] => d
  | _ :: _ =>
    let d := set_subtotal
               (fold_left (fun sum item => sum + QuotationItem.subtotal item) (items d) 0) d in
    let d := set_totalDiscount
               (fold_left (fun sum item => sum + QuotationItem.discount item) (items d) 0) d in
    let d := set_totalTax
               (fold_left (fun sum item =>
                  let itemTotal := QuotationItem.subtotal item - QuotationItem.discount item in
                  sum + itemTotal * QuotationItem.taxRate item / 100) (items d) 0) d in
    set_grandTotal (subtotal d - totalDiscount d + totalTax d) d
  end.

#[global] Instance QuotationStatus_eq_dec : EqDecision Status.
Proof. solve_decision. Defined.
End Quotation.

(** ** The store *)
Record State : Type := mkState {
  products : gmap ObjectId Product.t;
  movements : list StockMovement.t;
  invoices : gmap ObjectId Invoice.t;
  purchases : gmap ObjectId Purchase.t;
  quotations : gmap ObjectId Quotation.t;
  clients : gmap ObjectId Client.t;
  suppliers : gmap ObjectId Supplier.t;
  nextId : ObjectId
}.

Definition set_products (v : gmap ObjectId Product.t) (d : State) : State :=
  {| products := v; movements := movements d; invoices := invoices d;
     purchases := purchases d; quotations := quotations d; clients := clients d;
     suppliers := suppliers d; nextId := nextId d |}.

Definition set_movements (v : list StockMovement.t) (d : State) : State :=
  {| products := products d; movements := v; invoices := invoices d;
     purchases := purchases d; quotations := quotations d; clients := clients d;
     suppliers := suppliers d; nextId := nextId d |}.

Definition set_invoices (v : gmap ObjectId Invoice.t) (d : State) : State :=
  {| products := products d; movements := movements d; invoices := v;
     purchases := purchases d; quotations := quotations d; clients := clients d;
     suppliers := suppliers d; nextId := nextId d |}.

Definition set_purchases (v : gmap ObjectId Purchase.t) (d : State) : State :=
  {| products := products d; movements := movements d; invoices := invoices d;
     purchases := v; quotations := quotations d; clients := clients d;
     suppliers := suppliers d; nextId := nextId d |}.

Definition set_quotations (v : gmap ObjectId Quotation.t) (d : State) : State :=
  {| products := products d; movements := movements d; invoices := invoices d;
     purchases := purchases d; quotations := v; clients := clients d;
     suppliers := suppliers d; nextId := nextId d |}.

Definition set_clients (v : gmap ObjectId Client.t) (d : State) : State :=
  {| products := products d; movements := movements d; invoices := invoices d;
     purchases := purchases d; quotations := quotations d; clients := v;
     suppliers := suppliers d; nextId := nextId d |}.

Definition set_suppliers (v : gmap ObjectId Supplier.t) (d : State) : State :=
  {| products := products d; movements := movements d; invoices := invoices d;
     purchases := purchases d; quotations := quotations d; clients := clients d;
     suppliers := v; nextId := nextId d |}.

Definition set_nextId (v : ObjectId) (d : State) : State :=
  {| products := products d; movements := movements d; invoices := invoices d;
     purchases := purchases d; quotations := quotations d; clients := clients d;
     suppliers := suppliers d; nextId := v |}.


(** ** Responses *)

Inductive Error :=
| NotFound (what : string)                       (* 404 "<what> not found" *)
| InvalidState (message : string)                (* 400, wrong status for the transition *)
| ProductNotFound (product : ObjectId)           (* 400 "Product not found: ..." *)
| InsufficientStock (product : ObjectId) (available required : Q)
| PaymentExceedsBalance                          (* 400 "Payment amount exceeds ... balance" *)
| CannotCancelPaidDocument                       (* 400 "Cannot cancel fully paid ..." *)
| AlreadyConverted                               (* 400 "Quotation has already been converted to invoice" *)
| ValidationError (message : string).            (* 400, stock adjustment inputs *)

Inductive Response := ok | fail (e : Error).

(** ** Persistence helpers *)

(* StockMovement.create: the ledger is append-only, the store picks the [_id] *)
Definition StockMovement_create (m : StockMovement.t) (st : State) : State :=
  set_nextId (S (nextId st))
    (set_movements (movements st ++ [StockMovement.set__id (nextId st) m]) st).

(* product.save() *)
Definition Product_save (id : ObjectId) (p : Product.t) (st : State) : State :=
  set_products (<[id := p]> (products st)) st.

(* client.save() *)
Definition Client_save (id : ObjectId) (c : Client.t) (st : State) : State :=
  set_clients (<[id := c]> (clients st)) st.

(* A [for (const x of xs)] loop whose body may [return res.status(...)]. *)
Fixpoint for_of {A : Type} (body : State -> A -> State * option Error)
    (st : State) (xs : list A) : State * option Error :=
  match xs with
  | [] => (st, None)
  | x :: xs' =>
    match body st x with
    | (st', None) => for_of body st' xs'
    | (st', Some e) => (st', Some e)
    end
  end.

(** ** controllers/invoiceController.js *)
Module invoiceController.
Import Invoice.

Record PaymentBody : Type := mkPaymentBody {
  body_amount : Q;
  body_paymentMethod : PaymentMethod;
  body_reference : option string;
  body_notes : option string
}.

(* the ledger entry written for one line item; [ty]/[why] are 'out'/'sale' on
   confirmation and payment, 'in'/'return' on cancellation *)
Definition item_movement (rq : Req) (id : ObjectId) (invoice : Invoice.t)
    (item : InvoiceItem.t) (ty : MovementType) (why : Reason)
    (previousStock newStock : Q) (notes : string) : StockMovement.t :=
  {| StockMovement._id := 0%nat;
     StockMovement.product := InvoiceItem.product item;
     StockMovement.type := ty;
     StockMovement.reason := why;
     StockMovement.quantity := InvoiceItem.quantity item;
     StockMovement.previousStock := previousStock;
     StockMovement.newStock := newStock;
     StockMovement.unitCost := Some (InvoiceItem.unitPrice item);
     StockMovement.totalCost := Some (InvoiceItem.totalWithTax item);
     StockMovement.supplier := None;
     StockMovement.batchNumber := None;
     StockMovement.lotNumber := None;
     StockMovement.expiryDate := None;
     StockMovement.referenceType := Some "invoice"%string;
     StockMovement.referenceNumber := Some (invoiceNumber invoice);
     StockMovement.referenceDocument := Some id;
     StockMovement.referenceModel := Some "Invoice"%string;
     StockMovement.notes := Some notes;
     StockMovement.performedBy := user_id rq;
     StockMovement.movementDate := now rq |}.

(* body of the loop "Validate stock and deduct" of confirmInvoice *)
Definition confirm_item (rq : Req) (id : ObjectId) (invoice : Invoice.t)
    (st : State) (item : InvoiceItem.t) : State * option Error :=
  match products st !! InvoiceItem.product item with
  | None => (st, Some (ProductNotFound (InvoiceItem.product item)))
  | Some product =>
    if Qltb (Product.currentStock product) (InvoiceItem.quantity item) then
      (st, Some (InsufficientStock (InvoiceItem.product item)
                   (Product.currentStock product) (InvoiceItem.quantity item)))
    else
      let previousStock := Product.currentStock product in
      let newStock := previousStock - InvoiceItem.quantity item in
      let st := StockMovement_create
                  (item_movement rq id invoice item mt_out sale previousStock newStock
                     ("Invoice " +:+ invoiceNumber invoice +:+ " - Sale")) st in
      let product := Product.set_currentStock newStock product in
      let product := Product.set_lastSaleDate (Some (now rq)) product in
      (Product_save (InvoiceItem.product item) product st, None)
  end.

(* "Update client stats" *)
Definition confirm_client (invoice : Invoice.t) (c : Client.t) : Client.t :=
  Client.set_outstandingBalance (Client.outstandingBalance c + roundedAmount invoice) c.

(* "Update linked quotation if exists" *)
Definition link_quotation (rq : Req) (id : ObjectId) (q : Quotation.t) : Quotation.t :=
  let q := Quotation.set_status Quotation.converted q in
  let q := Quotation.set_convertedToInvoice (Some id) q in
  Quotation.set_conversionDate (Some (now rq)) q.

(* "Update invoice status" *)
Definition mark_confirmed (rq : Req) (invoice : Invoice.t) : Invoice.t :=
  let invoice := set_status confirmed invoice in
  let invoice := set_stockDeducted true invoice in
  let invoice := set_confirmedDate (Some (now rq)) invoice in
  set_confirmedBy (Some (user_id rq)) invoice.

Definition confirmInvoice (rq : Req) (id : ObjectId) (st : State) : State * Response :=
  match invoices st !! id with
  | None => (st, fail (NotFound "Invoice"))
  | Some invoice =>
    if decide (status invoice <> draft) then
      (st, fail (InvalidState "Only draft invoices can be confirmed"))
    else
      match for_of (confirm_item rq id invoice) st (items invoice) with
      | (st, Some e) => (st, fail e)
      | (st, None) =>
        let invoice := pre_save (now rq) (mark_confirmed rq invoice) in
        let st := set_invoices (<[id := invoice]> (invoices st)) st in
        (* Update linked quotation if exists *)
        let st :=
          match quotation invoice with
          | Some qid =>
            match quotations st !! qid with
            | Some q => set_quotations (<[qid := link_quotation rq id q]> (quotations st)) st
            | None => st
            end
          | None => st
          end in
        (* Update client stats *)
        let st :=
          match clients st !! client invoice with
          | Some c => Client_save (client invoice) (confirm_client invoice c) st
          | None => st
          end in
        (st, ok)
      end
  end.

(* body of the loop "Deduct stock on first payment" of recordPayment *)
Definition deduct_item (rq : Req) (id : ObjectId) (invoice : Invoice.t)
    (st : State) (item : InvoiceItem.t) : State :=
  match products st !! InvoiceItem.product item with
  | Some product =>
    if Qgeb (Product.currentStock product) (InvoiceItem.quantity item) then
      let previousStock := Product.currentStock product in
      let newStock := previousStock - InvoiceItem.quantity item in
      let st := StockMovement_create
                  (item_movement rq id invoice item mt_out sale previousStock newStock
                     ("Sale via invoice " +:+ invoiceNumber invoice)) st in
      let product := Product.set_currentStock newStock product in
      let product := Product.set_lastSaleDate (Some (now rq)) product in
      Product_save (InvoiceItem.product item) product st
    else st
  | None => st
  end.

(* "Add payment" *)
Definition add_payment (rq : Req) (body : PaymentBody) (invoice : Invoice.t) : Invoice.t :=
  let invoice :=
    set_payments (payments invoice ++
      [mkPayment (body_amount body) (body_paymentMethod body) (body_reference body)
         (body_notes body) (user_id rq) (now rq)]) invoice in
  set_amountPaid (amountPaid invoice + body_amount body) invoice.

(* the status part of the auto-confirmation *)
Definition auto_confirmed (rq : Req) (invoice : Invoice.t) : Invoice.t :=
  let invoice := set_stockDeducted true invoice in
  let invoice := set_status confirmed invoice in
  let invoice := set_confirmedDate (Some (now rq)) invoice in
  set_confirmedBy (Some (user_id rq)) invoice.

(* "Update client stats whenever a payment is recorded" *)
Definition payment_client (rq : Req) (body : PaymentBody) (c : Client.t) : Client.t :=
  let c := Client.set_totalPurchases (Client.totalPurchases c + body_amount body) c in
  let c := Client.set_outstandingBalance (Client.outstandingBalance c - body_amount body) c in
  let c := if Qltb (Client.outstandingBalance c) 0
           then Client.set_outstandingBalance 0 c else c in
  Client.set_lastPurchaseDate (Some (now rq)) c.

Definition recordPayment (rq : Req) (id : ObjectId) (body : PaymentBody) (st : State)
    : State * Response :=
  match invoices st !! id with
  | None => (st, fail (NotFound "Invoice"))
  | Some invoice =>
    if decide (status invoice = cancelled) then
      (st, fail (InvalidState "Cannot record payment for cancelled invoice"))
    else if Qgtb (body_amount body) (balance invoice) then
      (st, fail PaymentExceedsBalance)
    else
      let invoice := add_payment rq body invoice in
      (* Auto-confirm if stock not yet deducted and payment is made *)
      let '(st, invoice) :=
        if negb (stockDeducted invoice) && bool_decide (status invoice = draft) then
          (* Deduct stock on first payment *)
          let st := fold_left (deduct_item rq id invoice) (items invoice) st in
          (st, auto_confirmed rq invoice)
        else (st, invoice) in
      (* Update client stats whenever a payment is recorded *)
      let st :=
        match clients st !! client invoice with
        | Some c => Client_save (client invoice) (payment_client rq body c) st
        | None => st
        end in
      let st := set_invoices (<[id := pre_save (now rq) invoice]> (invoices st)) st in
      (st, ok)
  end.

(* body of the loop "Reverse stock if it was deducted" of cancelInvoice *)
Definition reverse_item (rq : Req) (id : ObjectId) (invoice : Invoice.t)
    (st : State) (item : InvoiceItem.t) : State :=
  match products st !! InvoiceItem.product item with
  | Some product =>
    let previousStock := Product.currentStock product in
    let newStock := previousStock + InvoiceItem.quantity item in
    let st := StockMovement_create
                (item_movement rq id invoice item mt_in return_ previousStock newStock
                   ("Invoice " +:+ invoiceNumber invoice +:+ " cancelled - Stock reversal")) st in
    let product := Product.set_currentStock newStock product in
    Product_save (InvoiceItem.product item) product st
  | None => st
  end.

(* "Update client outstanding balance" *)
Definition cancel_client (invoice : Invoice.t) (c : Client.t) : Client.t :=
  let unpaidAmount := roundedAmount invoice - amountPaid invoice in
  let c := Client.set_outstandingBalance (Client.outstandingBalance c - unpaidAmount) c in
  if Qltb (Client.outstandingBalance c) 0 then Client.set_outstandingBalance 0 c else c.

Definition mark_cancelled (rq : Req) (why : option string) (invoice : Invoice.t)
    : Invoice.t :=
  let invoice := set_status cancelled invoice in
  let invoice := set_cancelledDate (Some (now rq)) invoice in
  let invoice := set_cancelledBy (Some (user_id rq)) invoice in
  set_cancellationReason why invoice.

Definition cancelInvoice (rq : Req) (id : ObjectId) (why : option string) (st : State)
    : State * Response :=
  match invoices st !! id with
  | None => (st, fail (NotFound "Invoice"))
  | Some invoice =>
    if decide (status invoice = paid) then (st, fail CannotCancelPaidDocument)
    else
      (* Reverse stock if it was deducted *)
      let st :=
        if stockDeducted invoice
        then fold_left (reverse_item rq id invoice) (items invoice) st
        else st in
      (* Update client outstanding balance *)
      let st :=
        match clients st !! client invoice with
        | Some c => Client_save (client invoice) (cancel_client invoice c) st
        | None => st
        end in
      let invoice := mark_cancelled rq why invoice in
      let st := set_invoices (<[id := pre_save (now rq) invoice]> (invoices st)) st in
      (st, ok)
  end.

End invoiceController.

(** ** controllers/purchaseController.js *)

(** A property that the schema does not declare lives only on the in-memory
    document: reading it before any assignment gives [undefined], arithmetic
    on [undefined] gives [NaN], and [save()] writes the declared paths only. *)
Inductive JSNumber := js_undefined | js_NaN | js_num (q : Q).

Definition js_add (v : JSNumber) (x : Q) : JSNumber :=
  match v with js_num q => js_num (q + x) | _ => js_NaN end.

Definition js_sub (v : JSNumber) (x : Q) : JSNumber :=
  match v with js_num q => js_num (q - x) | _ => js_NaN end.

Definition js_ltb (v : JSNumber) (x : Q) : bool :=
  match v with js_num q => Qltb q x | _ => false end.

Record SupplierDoc : Type := mkSupplierDoc {
  fields : Supplier.t;                 (* the paths of supplierSchema *)
  outstandingBalance : JSNumber        (* supplier.outstandingBalance, not in the schema *)
}.

(* Supplier.findById *)
Definition Supplier_findById (id : ObjectId) (st : State) : option SupplierDoc :=
  match suppliers st !! id with
  | Some s => Some (mkSupplierDoc s js_undefined)
  | None => None
  end.

(* supplier.save() *)
Definition Supplier_save (id : ObjectId) (doc : SupplierDoc) (st : State) : State :=
  set_suppliers (<[id := fields doc]> (suppliers st)) st.

(* reading a numeric path of a stored supplier document *)
Definition Supplier_get (path : string) (s : Supplier.t) : option Q :=
  if String.eqb path "totalPurchases" then Some (Supplier.totalPurchases s) else None.

Module purchaseController.
Import Purchase.

Record PaymentBody : Type := mkPaymentBody {
  body_amount : Q;
  body_paymentMethod : PaymentMethod;
  body_reference : option string;
  body_notes : option string
}.

Definition item_movement (rq : Req) (id : ObjectId) (purchase : Purchase.t)
    (item : PurchaseItem.t) (ty : MovementType) (why : Reason)
    (previousStock newStock : Q) (notes : string) : StockMovement.t :=
  {| StockMovement._id := 0%nat;
     StockMovement.product := PurchaseItem.product item;
     StockMovement.type := ty;
     StockMovement.reason := why;
     StockMovement.quantity := PurchaseItem.quantity item;
     StockMovement.previousStock := previousStock;
     StockMovement.newStock := newStock;
     StockMovement.unitCost := Some (PurchaseItem.unitCost item);
     StockMovement.totalCost := Some (PurchaseItem.totalWithTax item);
     StockMovement.supplier := Some (supplier purchase);
     StockMovement.batchNumber := None;
     StockMovement.lotNumber := None;
     StockMovement.expiryDate := None;
     StockMovement.referenceType := Some "purchase"%string;
     StockMovement.referenceNumber := Some (purchaseNumber purchase);
     StockMovement.referenceDocument := Some id;
     StockMovement.referenceModel := Some "Purchase"%string;
     StockMovement.notes := Some notes;
     StockMovement.performedBy := user_id rq;
     StockMovement.movementDate := now rq |}.

(* body of the loop "Add stock for each item" of receivePurchase *)
Definition receive_item (rq : Req) (id : ObjectId) (purchase : Purchase.t)
    (st : State) (item : PurchaseItem.t) : State :=
  match products st !! PurchaseItem.product item with
  | Some product =>
    let previousStock := Product.currentStock product in
    let newStock := previousStock + PurchaseItem.quantity item in
    let st := StockMovement_create
                (item_movement rq id purchase item mt_in purchase_reason previousStock newStock
                   ("Purchase " +:+ purchaseNumber purchase +:+ " - " +:+ Product.name product))
                st in
    let product := Product.set_currentStock newStock product in
    (* Update average cost if needed *)
    let product :=
      if Qeq_bool (Product.averageCost product) 0 then
        Product.set_averageCost (PurchaseItem.unitCost item) product
      else
        let totalValue := Product.averageCost product * previousStock
                          + PurchaseItem.unitCost item * PurchaseItem.quantity item in
        Product.set_averageCost (totalValue / newStock) product in
    Product_save (PurchaseItem.product item) product st
  | None => st
  end.

(* "Update supplier stats" of receivePurchase, on the in-memory document *)
Definition receive_supplier (rq : Req) (purchase : Purchase.t) (doc : SupplierDoc)
    : SupplierDoc :=
  let s := Supplier.set_totalPurchases
             (Supplier.totalPurchases (fields doc) + roundedAmount purchase) (fields doc) in
  let ob := js_add (outstandingBalance doc) (roundedAmount purchase) in
  let s := Supplier.set_lastPurchaseDate (Some (now rq)) s in
  mkSupplierDoc s ob.

(* "Update purchase status" *)
Definition mark_received (rq : Req) (purchase : Purchase.t) : Purchase.t :=
  let purchase := set_status received purchase in
  let purchase := set_stockAdded true purchase in
  let purchase := set_receivedDate (Some (now rq)) purchase in
  let purchase := set_confirmedDate (Some (now rq)) purchase in
  set_confirmedBy (Some (user_id rq)) purchase.

Definition receivePurchase (rq : Req) (id : ObjectId) (st : State) : State * Response :=
  match purchases st !! id with
  | None => (st, fail (NotFound "Purchase"))
  | Some purchase =>
    if decide (status purchase <> draft /\ status purchase <> ordered) then
      (st, fail (InvalidState "Only draft or ordered purchases can be received"))
    else
      let st := fold_left (receive_item rq id purchase) (items purchase) st in
      let purchase := pre_save (now rq) (mark_received rq purchase) in
      let st := set_purchases (<[id := purchase]> (purchases st)) st in
      (* Update supplier stats *)
      let st :=
        match Supplier_findById (supplier purchase) st with
        | Some doc => Supplier_save (supplier purchase) (receive_supplier rq purchase doc) st
        | None => st
        end in
      (st, ok)
  end.

(* body of the loop "Add stock" of recordPayment *)
Definition add_item (rq : Req) (id : ObjectId) (purchase : Purchase.t)
    (st : State) (item : PurchaseItem.t) : State :=
  match products st !! PurchaseItem.product item with
  | Some product =>
    let previousStock := Product.currentStock product in
    let newStock := previousStock + PurchaseItem.quantity item in
    let st := StockMovement_create
                (item_movement rq id purchase item mt_in purchase_reason previousStock newStock
                   ("Purchase " +:+ purchaseNumber purchase)) st in
    let product := Product.set_currentStock newStock product in
    let product :=
      if Qeq_bool (Product.averageCost product) 0 then
        Product.set_averageCost (PurchaseItem.unitCost item) product
      else product in
    Product_save (PurchaseItem.product item) product st
  | None => st
  end.

Definition cash_or_card (m : PaymentMethod) : bool :=
  match m with cash | card => true | _ => false end.

(* "Update supplier stats" of recordPayment, on the in-memory document *)
Definition payment_supplier (rq : Req) (purchase : Purchase.t) (body : PaymentBody)
    (doc : SupplierDoc) : SupplierDoc :=
  let ob := js_sub (outstandingBalance doc) (body_amount body) in
  let ob := if js_ltb ob 0 then js_num 0 else ob in
  let s :=
    if stockAdded purchase
       || (negb (stockAdded purchase) && bool_decide (status purchase = draft)
           && cash_or_card (body_paymentMethod body))
    then Supplier.set_lastPurchaseDate (Some (now rq)) (fields doc)
    else fields doc in
  mkSupplierDoc s ob.

(* "Add payment" *)
Definition add_payment (rq : Req) (body : PaymentBody) (purchase : Purchase.t)
    : Purchase.t :=
  let purchase :=
    set_payments (payments purchase ++
      [mkPayment (body_amount body) (body_paymentMethod body) (body_reference body)
         (body_notes body) (user_id rq) (now rq)]) purchase in
  set_amountPaid (amountPaid purchase + body_amount body) purchase.

(* the status part of the auto-receive *)
Definition auto_received (rq : Req) (purchase : Purchase.t) : Purchase.t :=
  let purchase := set_stockAdded true purchase in
  let purchase := set_status received purchase in
  set_receivedDate (Some (now rq)) purchase.

Definition recordPayment (rq : Req) (id : ObjectId) (body : PaymentBody) (st : State)
    : State * Response :=
  match purchases st !! id with
  | None => (st, fail (NotFound "Purchase"))
  | Some purchase =>
    if decide (status purchase = cancelled) then
      (st, fail (InvalidState "Cannot record payment for cancelled purchase"))
    else if Qgtb (body_amount body) (balance purchase) then
      (st, fail PaymentExceedsBalance)
    else
      let purchase := add_payment rq body purchase in
      (* Auto-receive if stock not yet added and payment is made *)
      let '(st, purchase) :=
        if negb (stockAdded purchase) && bool_decide (status purchase = draft)
           && cash_or_card (body_paymentMethod body) then
          let st := fold_left (add_item rq id purchase) (items purchase) st in
          (st, auto_received rq purchase)
        else (st, purchase) in
      (* Update supplier stats *)
      let st :=
        match Supplier_findById (supplier purchase) st with
        | Some doc =>
          Supplier_save (supplier purchase) (payment_supplier rq purchase body doc) st
        | None => st
        end in
      let st := set_purchases (<[id := pre_save (now rq) purchase]> (purchases st)) st in
      (st, ok)
  end.

(* body of the loop "Reverse stock if it was added" of cancelPurchase *)
Definition reverse_item (rq : Req) (id : ObjectId) (purchase : Purchase.t)
    (st : State) (item : PurchaseItem.t) : State :=
  match products st !! PurchaseItem.product item with
  | Some product =>
    let previousStock := Product.currentStock product in
    let newStock := Math_max 0 (previousStock - PurchaseItem.quantity item) in
    let st := StockMovement_create
                (item_movement rq id purchase item mt_out return_ previousStock newStock
                   ("Purchase " +:+ purchaseNumber purchase +:+ " cancelled - Stock reversal"))
                st in
    let product := Product.set_currentStock newStock product in
    Product_save (PurchaseItem.product item) product st
  | None => st
  end.

(* "Update supplier outstanding balance" of cancelPurchase *)
Definition cancel_supplier (purchase : Purchase.t) (doc : SupplierDoc) : SupplierDoc :=
  let unpaidAmount := roundedAmount purchase - amountPaid purchase in
  let ob := js_sub (outstandingBalance doc) unpaidAmount in
  let ob := if js_ltb ob 0 then js_num 0 else ob in
  mkSupplierDoc (fields doc) ob.

Definition mark_cancelled (rq : Req) (why : option string) (purchase : Purchase.t)
    : Purchase.t :=
  let purchase := set_status cancelled purchase in
  let purchase := set_cancelledDate (Some (now rq)) purchase in
  let purchase := set_cancelledBy (Some (user_id rq)) purchase in
  set_cancellationReason why purchase.

Definition cancelPurchase (rq : Req) (id : ObjectId) (why : option string) (st : State)
    : State * Response :=
  match purchases st !! id with
  | None => (st, fail (NotFound "Purchase"))
  | Some purchase =>
    if decide (status purchase = paid) then (st, fail CannotCancelPaidDocument)
    else
      let st :=
        if stockAdded purchase
        then fold_left (reverse_item rq id purchase) (items purchase) st
        else st in
      let st :=
        match Supplier_findById (supplier purchase) st with
        | Some doc => Supplier_save (supplier purchase) (cancel_supplier purchase doc) st
        | None => st
        end in
      let purchase := mark_cancelled rq why purchase in
      let st := set_purchases (<[id := pre_save (now rq) purchase]> (purchases st)) st in
      (st, ok)
  end.

End purchaseController.

(** ** controllers/stockController.js *)
Module stockController.

Record ReceiveBody : Type := mkReceiveBody {
  rb_product : ObjectId;
  rb_quantity : Q;
  rb_unitCost : Q;
  rb_supplier : option ObjectId;
  rb_batchNumber : option string;
  rb_lotNumber : option string;
  rb_expiryDate : option Date;
  rb_notes : option string
}.

(* the ledger entry of a receipt *)
Definition receipt (rq : Req) (body : ReceiveBody) (previousStock newStock : Q)
    : StockMovement.t :=
  {| StockMovement._id := 0%nat;
     StockMovement.product := rb_product body;
     StockMovement.type := mt_in;
     StockMovement.reason := purchase_reason;
     StockMovement.quantity := rb_quantity body;
     StockMovement.previousStock := previousStock;
     StockMovement.newStock := newStock;
     StockMovement.unitCost := Some (rb_unitCost body);
     StockMovement.totalCost := Some (rb_quantity body * rb_unitCost body);
     StockMovement.supplier := rb_supplier body;
     StockMovement.batchNumber := rb_batchNumber body;
     StockMovement.lotNumber := rb_lotNumber body;
     StockMovement.expiryDate := rb_expiryDate body;
     StockMovement.referenceType := Some "purchase_order"%string;
     StockMovement.referenceNumber := None;
     StockMovement.referenceDocument := None;
     StockMovement.referenceModel := None;
     StockMovement.notes := rb_notes body;
     StockMovement.performedBy := user_id rq;
     StockMovement.movementDate := now rq |}.

(* "Update product stock and average cost", "Link product to supplier" *)
Definition received_product (rq : Req) (body : ReceiveBody) (newStock : Q)
    (product : Product.t) : Product.t :=
  let totalValue := Product.currentStock product * Product.averageCost product
                    + rb_quantity body * rb_unitCost body in
  let product := Product.set_currentStock newStock product in
  let product := Product.set_averageCost (totalValue / newStock) product in
  let product := Product.set_lastSupplyDate (Some (now rq)) product in
  match rb_supplier body with
  | Some sid => Product.set_supplier (Some sid) product
  | None => product
  end.

(* "Update supplier if provided" *)
Definition supplying (rq : Req) (body : ReceiveBody) (s : Supplier.t) : Supplier.t :=
  let s :=
    if existsb (Nat.eqb (rb_product body)) (Supplier.productsSupplied s) then s
    else Supplier.set_productsSupplied (Supplier.productsSupplied s ++ [rb_product body]) s in
  let s := Supplier.set_totalPurchases
             (Supplier.totalPurchases s + rb_quantity body * rb_unitCost body) s in
  Supplier.set_lastPurchaseDate (Some (now rq)) s.

Definition receiveStock (rq : Req) (body : ReceiveBody) (st : State) : State * Response :=
  match products st !! rb_product body with
  | None => (st, fail (NotFound "Product"))
  | Some product =>
    let previousStock := Product.currentStock product in
    let newStock := previousStock + rb_quantity body in
    let st := StockMovement_create (receipt rq body previousStock newStock) st in
    let st := Product_save (rb_product body) (received_product rq body newStock product) st in
    let st :=
      match rb_supplier body with
      | Some sid =>
        match suppliers st !! sid with
        | Some s => set_suppliers (<[sid := supplying rq body s]> (suppliers st)) st
        | None => st
        end
      | None => st
      end in
    (st, ok)
  end.

Record AdjustBody : Type := mkAdjustBody {
  ab_product : ObjectId;
  ab_quantity : Q;
  ab_reason : Reason;
  ab_type : string;
  ab_notes : option string
}.

Definition validReasons : list Reason :=
  [damage; loss; theft; expired; correction; transfer].

#[global] Instance Reason_eq_dec : EqDecision Reason.
Proof. solve_decision. Defined.

(* the ledger entry of an adjustment *)
Definition adjustment (rq : Req) (body : AdjustBody) (previousStock newStock : Q)
    : StockMovement.t :=
  {| StockMovement._id := 0%nat;
     StockMovement.product := ab_product body;
     StockMovement.type := mt_adjustment;
     StockMovement.reason := ab_reason body;
     StockMovement.quantity := ab_quantity body;
     StockMovement.previousStock := previousStock;
     StockMovement.newStock := newStock;
     StockMovement.unitCost := None;
     StockMovement.totalCost := None;
     StockMovement.supplier := None;
     StockMovement.batchNumber := None;
     StockMovement.lotNumber := None;
     StockMovement.expiryDate := None;
     StockMovement.referenceType := Some "adjustment"%string;
     StockMovement.referenceNumber := None;
     StockMovement.referenceDocument := None;
     StockMovement.referenceModel := None;
     StockMovement.notes := ab_notes body;
     StockMovement.performedBy := user_id rq;
     StockMovement.movementDate := now rq |}.

Definition adjustStock (rq : Req) (body : AdjustBody) (st : State) : State * Response :=
  if negb (bool_decide (ab_reason body ∈ validReasons)) then
    (st, fail (ValidationError "Invalid adjustment reason"))
  else
    match products st !! ab_product body with
    | None => (st, fail (NotFound "Product"))
    | Some product =>
      let previousStock := Product.currentStock product in
      let newStock : Q + Error :=
        if String.eqb (ab_type body) "in" then inl (previousStock + ab_quantity body)
        else if String.eqb (ab_type body) "out" then
          if Qgtb (ab_quantity body) previousStock
          then inr (ValidationError "Adjustment quantity exceeds current stock")
          else inl (previousStock - ab_quantity body)
        else inr (ValidationError "Invalid adjustment type") in
      match newStock with
      | inr e => (st, fail e)
      | inl newStock =>
        let st := StockMovement_create (adjustment rq body previousStock newStock) st in
        (* Update product stock *)
        let product := Product.set_currentStock newStock product in
        (Product_save (ab_product body) product st, ok)
      end
    end.

(* StockMovement.findById *)
Definition StockMovement_findById (id : ObjectId) (st : State) : option StockMovement.t :=
  find (fun m => Nat.eqb (StockMovement._id m) id) (movements st).

Definition deleteStockMovement (id : ObjectId) (st : State) : State * Response :=
  match StockMovement_findById id st with
  | None => (st, fail (NotFound "Stock movement"))
  | Some movement =>
    (* Revert product stock if possible *)
    let st :=
      match products st !! StockMovement.product movement with
      | Some product =>
        Product_save (StockMovement.product movement)
          (Product.set_currentStock (StockMovement.previousStock movement) product) st
      | None => st
      end in
    (* movement.deleteOne() *)
    let st := set_movements
                (filter (fun m => StockMovement._id m <> id) (movements st)) st in
    (st, ok)
  end.

(* req.body of updateStockMovement: any field of a movement may be sent *)
Record UpdateBody : Type := mkUpdateBody {
  ub_notes : option string;
  ub_referenceNumber : option string;
  ub_referenceType : option string;
  ub_batchNumber : option string;
  ub_lotNumber : option string;
  ub_expiryDate : option Date;
  ub_unitCost : option Q;
  ub_totalCost : option Q;
  ub_supplier : option ObjectId;
  ub_movementDate : option Date;
  ub_product : option ObjectId;
  ub_type : option MovementType;
  ub_reason : option Reason;
  ub_quantity : option Q;
  ub_previousStock : option Q;
  ub_newStock : option Q;
  ub_performedBy : option ObjectId
}.

(* [if (req.body[field] !== undefined) movement[field] = req.body[field]] *)
Definition assign {A : Type} (sent : option A) (set : option A -> StockMovement.t -> StockMovement.t)
    (movement : StockMovement.t) : StockMovement.t :=
  match sent with
  | Some v => set (Some v) movement
  | None => movement
  end.

(* the [allowed.forEach] of updateStockMovement, in the order of [allowed] *)
Definition apply_allowed (body : UpdateBody) (movement : StockMovement.t) : StockMovement.t :=
  let movement := assign (ub_notes body) StockMovement.set_notes movement in
  let movement := assign (ub_referenceNumber body) StockMovement.set_referenceNumber movement in
  let movement := assign (ub_referenceType body) StockMovement.set_referenceType movement in
  let movement := assign (ub_batchNumber body) StockMovement.set_batchNumber movement in
  let movement := assign (ub_lotNumber body) StockMovement.set_lotNumber movement in
  let movement := assign (ub_expiryDate body) StockMovement.set_expiryDate movement in
  let movement := assign (ub_unitCost body) StockMovement.set_unitCost movement in
  let movement := assign (ub_totalCost body) StockMovement.set_totalCost movement in
  let movement := assign (ub_supplier body) StockMovement.set_supplier movement in
  match ub_movementDate body with
  | Some d => StockMovement.set_movementDate d movement
  | None => movement
  end.

(* movement.save(): the stored document found by [findById] is overwritten *)
Fixpoint replace_first (id : ObjectId) (movement : StockMovement.t)
    (ms : list StockMovement.t) : list StockMovement.t :=
  match ms with
  | [] => []
  | m :: ms' =>
    if Nat.eqb (StockMovement._id m) id then movement :: ms'
    else m :: replace_first id movement ms'
  end.

Definition st_replace (id : ObjectId) (movement : StockMovement.t) (st : State) : State :=
  set_movements (replace_first id movement (movements st)) st.

Definition updateStockMovement (id : ObjectId) (body : UpdateBody) (st : State)
    : State * Response :=
  match StockMovement_findById id st with
  | None => (st, fail (NotFound "Stock movement"))
  | Some movement =>
    let movement := apply_allowed body movement in
    (st_replace id movement st, ok)
  end.

End stockController.

(** ** controllers/quotationController.js *)
Module quotationController.
Import Quotation.

Definition mark_approved (rq : Req) (quotation : Quotation.t) : Quotation.t :=
  let quotation := set_status approved quotation in
  let quotation := set_approvedBy (Some (user_id rq)) quotation in
  set_approvedDate (Some (now rq)) quotation.

Definition approveQuotation (rq : Req) (id : ObjectId) (st : State) : State * Response :=
  match quotations st !! id with
  | None => (st, fail (NotFound "Quotation"))
  | Some quotation =>
    if decide (status quotation <> sent) then
      (st, fail (InvalidState "Only sent quotations can be approved"))
    else
      (set_quotations (<[id := pre_save (mark_approved rq quotation)]> (quotations st)) st,
       ok)
  end.

(* a quotation line read through invoiceItemSchema: shared paths are kept,
   [taxCode] and [taxAmount] take their defaults, [total] is not a path of
   the invoice item; [totalWithTax] is filled by the totals hook *)
Definition cast_item (item : QuotationItem.t) : InvoiceItem.t :=
  {| InvoiceItem.product := QuotationItem.product item;
     InvoiceItem.quantity := QuotationItem.quantity item;
     InvoiceItem.unitPrice := QuotationItem.unitPrice item;
     InvoiceItem.discount := QuotationItem.discount item;
     InvoiceItem.taxCode := TaxA;
     InvoiceItem.taxRate := QuotationItem.taxRate item;
     InvoiceItem.taxAmount := 0;
     InvoiceItem.subtotal := QuotationItem.subtotal item;
     InvoiceItem.totalWithTax := 0 |}.

(* String(n).padStart(width, '0') *)
Definition padStart0 (width : nat) (s : string) : string :=
  String.concat "" (replicate (width - String.length s) "0"%string) +:+ s.

(* "Auto-generate invoice number", the first pre('save') hook of a new invoice *)
Definition invoice_number (rq : Req) (st : State) : string :=
  "INV-" +:+ pretty (year rq) +:+ "-" +:+ padStart0 5 (pretty (S (size (invoices st)))).

(* "Create invoice from quotation": the document handed to Invoice.create, the
   remaining paths at their schema defaults *)
Definition new_invoice (rq : Req) (id : ObjectId) (dueDate : option Date)
    (quotation : Quotation.t) (st : State) : Invoice.t :=
  {| Invoice.invoiceNumber := invoice_number rq st;
     Invoice.client := client quotation;
     Invoice.quotation := Some id;
     Invoice.status := Invoice.draft;
     Invoice.items := map cast_item (items quotation);
     Invoice.totalAEx := 0; Invoice.totalB18 := 0;
     Invoice.totalTaxA := 0; Invoice.totalTaxB := 0;
     Invoice.subtotal := 0; Invoice.totalDiscount := 0; Invoice.totalTax := 0;
     Invoice.grandTotal := 0; Invoice.roundedAmount := 0;
     Invoice.amountPaid := 0; Invoice.balance := 0; Invoice.payments := [];
     Invoice.dueDate :=
       Some (match dueDate with
             | Some d => d
             | None => (now rq + 30 * 24 * 60 * 60 * 1000)%Z
             end);
     Invoice.terms := terms quotation;
     Invoice.notes := notes quotation;
     Invoice.stockDeducted := false;
     Invoice.createdBy := user_id rq;
     Invoice.paidDate := None;
     Invoice.confirmedDate := None; Invoice.confirmedBy := None;
     Invoice.cancelledDate := None; Invoice.cancelledBy := None;
     Invoice.cancellationReason := None |}.

(* "Update quotation" *)
Definition mark_converted (rq : Req) (invoice_id : ObjectId) (quotation : Quotation.t)
    : Quotation.t :=
  let quotation := set_status converted quotation in
  let quotation := set_convertedToInvoice (Some invoice_id) quotation in
  set_conversionDate (Some (now rq)) quotation.

Definition convertToInvoice (rq : Req) (id : ObjectId) (dueDate : option Date) (st : State)
    : State * Response :=
  match quotations st !! id with
  | None => (st, fail (NotFound "Quotation"))
  | Some quotation =>
    if decide (status quotation <> approved) then
      (st, fail (InvalidState "Only approved quotations can be converted to invoice"))
    else if bool_decide (is_Some (convertedToInvoice quotation)) then
      (st, fail AlreadyConverted)
    else
      let invoice := Invoice.pre_save (now rq) (new_invoice rq id dueDate quotation st) in
      let invoice_id := nextId st in
      let st := set_nextId (S (nextId st))
                  (set_invoices (<[invoice_id := invoice]> (invoices st)) st) in
      let quotation := mark_converted rq invoice_id quotation in
      (set_quotations (<[id := pre_save quotation]> (quotations st)) st, ok)
  end.

End quotationController.

(** ** Requests *)

Inductive Op :=
| ReceiveStock (body : stockController.ReceiveBody)
| AdjustStock (body : stockController.AdjustBody)
| DeleteStockMovement (id : ObjectId)
| UpdateStockMovement (id : ObjectId) (body : stockController.UpdateBody)
| ConfirmInvoice (id : ObjectId)
| InvoicePayment (id : ObjectId) (body : invoiceController.PaymentBody)
| CancelInvoice (id : ObjectId) (why : option string)
| ReceivePurchase (id : ObjectId)
| PurchasePayment (id : ObjectId) (body : purchaseController.PaymentBody)
| CancelPurchase (id : ObjectId) (why : option string)
| ApproveQuotation (id : ObjectId)
| ConvertToInvoice (id : ObjectId) (dueDate : option Date).

Definition handle (rq : Req) (op : Op) (st : State) : State * Response :=
  match op with
  | ReceiveStock body => stockController.receiveStock rq body st
  | AdjustStock body => stockController.adjustStock rq body st
  | DeleteStockMovement id => stockController.deleteStockMovement id st
  | UpdateStockMovement id body => stockController.updateStockMovement id body st
  | ConfirmInvoice id => invoiceController.confirmInvoice rq id st
  | InvoicePayment id body => invoiceController.recordPayment rq id body st
  | CancelInvoice id why => invoiceController.cancelInvoice rq id why st
  | ReceivePurchase id => purchaseController.receivePurchase rq id st
  | PurchasePayment id body => purchaseController.recordPayment rq id body st
  | CancelPurchase id why => purchaseController.cancelPurchase rq id why st
  | ApproveQuotation id => quotationController.approveQuotation rq id st
  | ConvertToInvoice id dueDate => quotationController.convertToInvoice rq id dueDate st
  end.

(** * Specification vocabulary *)






(** ** Sample data

    Documents as [createInvoice] / [createPurchase] store them: line totals
    computed by the controller, every other path at its schema default, then
    the [pre('save')] hook. *)
Module Sample.

Definition rq : Req := mkReq 1 1000 2026%nat.

Definition line (product : ObjectId) (quantity unitPrice discount : Q) (code : TaxCode)
    (taxRate : Q) : InvoiceItem.t :=
  let subtotal := quantity * unitPrice in
  let netAmount := subtotal - discount in
  let taxAmount := netAmount * (taxRate / 100) in
  InvoiceItem.mk product quantity unitPrice discount code taxRate taxAmount subtotal
    (netAmount + taxAmount).

Definition invoice (number : string) (client : ObjectId) (items : list InvoiceItem.t)
    : Invoice.t :=
  Invoice.pre_save 0
    {| Invoice.invoiceNumber := number; Invoice.client := client;
       Invoice.quotation := None; Invoice.status := Invoice.draft;
       Invoice.items := items;
       Invoice.totalAEx := 0; Invoice.totalB18 := 0;
       Invoice.totalTaxA := 0; Invoice.totalTaxB := 0;
       Invoice.subtotal := 0; Invoice.totalDiscount := 0; Invoice.totalTax := 0;
       Invoice.grandTotal := 0; Invoice.roundedAmount := 0;
       Invoice.amountPaid := 0; Invoice.balance := 0; Invoice.payments := [];
       Invoice.dueDate := None; Invoice.terms := None; Invoice.notes := None;
       Invoice.stockDeducted := false; Invoice.createdBy := 1%nat;
       Invoice.paidDate := None;
       Invoice.confirmedDate := None; Invoice.confirmedBy := None;
       Invoice.cancelledDate := None; Invoice.cancelledBy := None;
       Invoice.cancellationReason := None |}.

Definition pline (product : ObjectId) (quantity unitCost discount : Q) (code : TaxCode)
    (taxRate : Q) : PurchaseItem.t :=
  let subtotal := quantity * unitCost in
  let netAmount := subtotal - discount in
  let taxAmount := netAmount * (taxRate / 100) in
  PurchaseItem.mk product quantity unitCost discount code taxRate taxAmount subtotal
    (netAmount + taxAmount).

Definition purchase (number : string) (supplier : ObjectId) (items : list PurchaseItem.t)
    : Purchase.t :=
  Purchase.pre_save 0
    {| Purchase.purchaseNumber := number; Purchase.supplier := supplier;
       Purchase.status := Purchase.draft;
       Purchase.items := items;
       Purchase.totalAEx := 0; Purchase.totalB18 := 0;
       Purchase.totalTaxA := 0; Purchase.totalTaxB := 0;
       Purchase.subtotal := 0; Purchase.totalDiscount := 0; Purchase.totalTax := 0;
       Purchase.grandTotal := 0; Purchase.roundedAmount := 0;
       Purchase.amountPaid := 0; Purchase.balance := 0; Purchase.payments := [];
       Purchase.receivedDate := None; Purchase.terms := None; Purchase.notes := None;
       Purchase.stockAdded := false; Purchase.createdBy := 1%nat;
       Purchase.paidDate := None;
       Purchase.confirmedDate := None; Purchase.confirmedBy := None;
       Purchase.cancelledDate := None; Purchase.cancelledBy := None;
       Purchase.cancellationReason := None |}.

Definition product (name : string) (currentStock averageCost : Q) : Product.t :=
  Product.mk name currentStock averageCost None None None.

Definition empty : State :=
  {| products := ∅; movements := []; invoices := ∅; purchases := ∅; quotations := ∅;
     clients := ∅; suppliers := ∅; nextId := 100%nat |}.

(* one product in stock, one client, one draft invoice *)
Definition shop (stock cost : Q) (items : list InvoiceItem.t) : State :=
  set_invoices {[ 10%nat := invoice "INV-2026-00001" 7%nat items ]}
    (set_clients {[ 7%nat := Client.mk "XYZ Construction" 0 0 None ]}
       (set_products {[ 1%nat := product "Portland Cement 50kg" stock cost ]} empty)).



(* 20 units at average cost 6 and a draft invoice for 5 units, total 1000 *)
Definition stocked : State := shop 20 6 [line 1%nat 5 200 0 TaxA 0].

Definition pay (amount : Q) : invoiceController.PaymentBody :=
  invoiceController.mkPaymentBody amount cash None None.

(* one product, one supplier, one draft purchase *)
Definition depot (stock cost : Q) (items : list PurchaseItem.t) : State :=
  set_purchases {[ 20%nat := purchase "PO-2026-00001" 3%nat items ]}
    (set_suppliers {[ 3%nat := Supplier.mk "ABC Building Supplies" [] 0 None ]}
       (set_products {[ 1%nat := product "Portland Cement 50kg" stock cost ]} empty)).

(* 10 units at average cost 5 in stock, 10 more ordered at cost 7 *)
Definition supplied : State := depot 10 5 [pline 1%nat 10 7 0 TaxA 0].

Definition ppay (amount : Q) (method : PaymentMethod) : purchaseController.PaymentBody :=
  purchaseController.mkPaymentBody amount method None None.

Definition qline (product : ObjectId) (quantity unitPrice discount taxRate : Q)
    : QuotationItem.t :=
  let subtotal := quantity * unitPrice in
  QuotationItem.mk product quantity unitPrice discount taxRate subtotal
    (subtotal - discount + subtotal * taxRate / 100).

(* an approved quotation for 5 units at 200 *)
Definition quotation : Quotation.t :=
  Quotation.pre_save
    {| Quotation.quotationNumber := "QUO-2026-00001"; Quotation.client := 7%nat;
       Quotation.status := Quotation.approved;
       Quotation.items := [qline 1%nat 5 200 0 0];
       Quotation.subtotal := 0; Quotation.totalDiscount := 0; Quotation.totalTax := 0;
       Quotation.grandTotal := 0; Quotation.terms := None; Quotation.notes := None;
       Quotation.createdBy := 1%nat; Quotation.approvedBy := Some 1%nat;
       Quotation.approvedDate := Some 900%Z;
       Quotation.convertedToInvoice := None; Quotation.conversionDate := None |}.

Definition quoted : State := set_quotations {[ 30%nat := quotation ]} (shop 20 6 []).

End Sample.


(** The part of a ledger entry that [updateStockMovement] must not touch. *)
Definition frozen (m : StockMovement.t) :=
  (StockMovement._id m, StockMovement.product m, StockMovement.type m,
   StockMovement.reason m, StockMovement.quantity m, StockMovement.previousStock m,
   StockMovement.newStock m, StockMovement.performedBy m,
   StockMovement.referenceDocument m, StockMovement.referenceModel m).




(** ** The ledger as a chain

    A ledger entry links a product's stock before to its stock after.  The
    entries of one product are chained when each starts where the previous one
    ended, and the ledger is consistent with the products when, in addition,
    the last entry of each product ends at its [currentStock]. *)
Definition link (m : StockMovement.t) : ObjectId * Q * Q :=
  (StockMovement.product m, StockMovement.previousStock m, StockMovement.newStock m).

Definition last_newStock (pid : ObjectId) (ls : list (ObjectId * Q * Q)) : option Q :=
  snd <$> last (filter (fun l => fst (fst l) = pid) ls).

Inductive chained : list (ObjectId * Q * Q) -> Prop :=
| chained_nil : chained []
| chained_snoc ls pid previousStock newStock :
    chained ls ->
    (forall s, last_newStock pid ls = Some s -> previousStock = s) ->
    chained (ls ++ [(pid, previousStock, newStock)]).

Definition ledger_consistent (st : State) : Prop :=
  chained (map link (movements st))
  /\ forall pid p s,
       products st !! pid = Some p ->
       last_newStock pid (map link (movements st)) = Some s ->
       Product.currentStock p = s.

(** The arithmetic of one entry, by direction.  An outbound 'return' is the
    reversal written by [cancelPurchase], which floors at zero; an
    'adjustment' goes either way. *)
Definition arithmetic (m : StockMovement.t) : Prop :=
  let previousStock := StockMovement.previousStock m in
  let quantity := StockMovement.quantity m in
  match StockMovement.type m, StockMovement.reason m with
  | mt_in, _ => StockMovement.newStock m = previousStock + quantity
  | mt_out, return_ => StockMovement.newStock m = Math_max 0 (previousStock - quantity)
  | mt_out, _ => StockMovement.newStock m = previousStock - quantity
  | mt_adjustment, _ =>
    StockMovement.newStock m = previousStock + quantity
    \/ StockMovement.newStock m = previousStock - quantity
  end.

(** [st'] is [st] with ledger entries appended (the frozen part of the old
    entries untouched), each with the right arithmetic, and consistency kept. *)
Definition grows (st st' : State) : Prop :=
  (exists new,
     map frozen (movements st') = map frozen (movements st) ++ map frozen new
     /\ Forall arithmetic new)
  /\ (ledger_consistent st -> ledger_consistent st').


(** Stock on hand per product, as far as two stores can be compared on it. *)
Definition stock_of (st : State) (pid : ObjectId) : option Q :=
  Product.currentStock <$> products st !! pid.


(** * Further vocabulary *)

(** Sum of a numeric column over a list, from the right. *)
Definition Qsum {A : Type} (f : A -> Q) (xs : list A) : Q :=
  fold_right (fun x acc => f x + acc) 0 xs.



(** The books of a document agree when its [amountPaid] is the sum of the
    payments recorded on it; the books of a store agree when those of every
    invoice and every purchase do. *)
Definition Invoice_books (d : Invoice.t) : Prop :=
  Invoice.amountPaid d == Qsum amount (Invoice.payments d).

Definition Purchase_books (d : Purchase.t) : Prop :=
  Purchase.amountPaid d == Qsum amount (Purchase.payments d).

Definition books_agree (st : State) : Prop :=
  map_Forall (fun _ d => Invoice_books d) (invoices st)
  /\ map_Forall (fun _ d => Purchase_books d) (purchases st).

(** * Drafts: create, update, delete

    Further modelling conventions.
    - A request body is a record of optional paths: [None] is a path the
      client did not send.  Paths that the schema does not declare are
      dropped by Mongoose and have no field here.
    - [Model.create] and [findByIdAndUpdate] read the body through the
      schema: on creation a path that was not sent takes its schema default,
      on update it keeps its stored value.  [findByIdAndUpdate] runs no
      [pre('save')] hook.
    - The unique index on document numbers belongs, like the validators, to
      the persistence layer and is not modelled. *)

(** A path of an optional field: written when sent, kept otherwise. *)
Definition sent_or {A : Type} (v stored : option A) : option A :=
  match v with
  | Some _ => v
  | None => stored
  end.

(** [uppercase: true] of a String path, on the letters a to z. *)
Definition upper (c : Ascii.ascii) : Ascii.ascii :=
  let n := Ascii.nat_of_ascii c in
  if (97 <=? n)%nat && (n <=? 122)%nat then Ascii.ascii_of_nat (n - 32) else c.

Fixpoint toUpperCase (s : string) : string :=
  match s with
  | EmptyString => EmptyString
  | String c s' => String (upper c) (toUpperCase s')
  end.

(** ** controllers/invoiceController.js: createInvoice, updateInvoice, deleteInvoice *)
Module invoiceDrafts.
Import Invoice.

(* one element of req.body.items *)
Record ItemBody : Type := mkItemBody {
  ib_product : ObjectId;
  ib_quantity : Q;
  ib_unitPrice : Q;
  ib_discount : option Q;
  ib_taxCode : option TaxCode;
  ib_taxRate : option Q
}.

(* req.body without its items *)
Record Body : Type := mkBody {
  b_invoiceNumber : option string;
  b_client : option ObjectId;
  b_quotation : option ObjectId;
  b_status : option Status;
  b_totalAEx : option Q;
  b_totalB18 : option Q;
  b_totalTaxA : option Q;
  b_totalTaxB : option Q;
  b_subtotal : option Q;
  b_totalDiscount : option Q;
  b_totalTax : option Q;
  b_grandTotal : option Q;
  b_roundedAmount : option Q;
  b_amountPaid : option Q;
  b_balance : option Q;
  b_payments : option (list Payment);
  b_dueDate : option Date;
  b_terms : option string;
  b_notes : option string;
  b_stockDeducted : option bool;
  b_createdBy : option ObjectId;
  b_paidDate : option Date;
  b_confirmedDate : option Date;
  b_confirmedBy : option ObjectId;
  b_cancelledDate : option Date;
  b_cancelledBy : option ObjectId;
  b_cancellationReason : option string
}.

(* body of the loop "Validate stock availability for all items BEFORE
   creating" *)
Definition check_item (st : State) (item : ItemBody) : State * option Error :=
  match products st !! ib_product item with
  | None => (st, Some (ProductNotFound (ib_product item)))
  | Some product =>
    if Qltb (Product.currentStock product) (ib_quantity item) then
      (st, Some (InsufficientStock (ib_product item)
                   (Product.currentStock product) (ib_quantity item)))
    else (st, None)
  end.

(* one step of "Process items with tax codes", read through the item
   schema: [discount], [taxCode] and [taxRate] take their defaults when the
   line does not send them *)
Definition process_item (item : ItemBody) : InvoiceItem.t :=
  let subtotal := ib_quantity item * ib_unitPrice item in
  let discount := default 0 (ib_discount item) in
  let netAmount := subtotal - discount in
  let taxRate := default 0 (ib_taxRate item) in
  let taxAmount := netAmount * (taxRate / 100) in
  let totalWithTax := netAmount + taxAmount in
  {| InvoiceItem.product := ib_product item;
     InvoiceItem.quantity := ib_quantity item;
     InvoiceItem.unitPrice := ib_unitPrice item;
     InvoiceItem.discount := default 0 (ib_discount item);
     InvoiceItem.taxCode := default TaxA (ib_taxCode item);
     InvoiceItem.taxRate := default 0 (ib_taxRate item);
     InvoiceItem.taxAmount := taxAmount;
     InvoiceItem.subtotal := subtotal;
     InvoiceItem.totalWithTax := totalWithTax |}.

Definition processedItems (items : list ItemBody) : list InvoiceItem.t :=
  map process_item items.

(* the sent paths written over a document; [lines] are the processed items,
   when items were sent *)
Definition assign (body : Body) (lines : option (list InvoiceItem.t)) (d : t) : t :=
  {| invoiceNumber := default (invoiceNumber d) (toUpperCase <$> b_invoiceNumber body);
     client := default (client d) (b_client body);
     quotation := sent_or (b_quotation body) (quotation d);
     status := default (status d) (b_status body);
     items := default (items d) lines;
     totalAEx := default (totalAEx d) (b_totalAEx body);
     totalB18 := default (totalB18 d) (b_totalB18 body);
     totalTaxA := default (totalTaxA d) (b_totalTaxA body);
     totalTaxB := default (totalTaxB d) (b_totalTaxB body);
     subtotal := default (subtotal d) (b_subtotal body);
     totalDiscount := default (totalDiscount d) (b_totalDiscount body);
     totalTax := default (totalTax d) (b_totalTax body);
     grandTotal := default (grandTotal d) (b_grandTotal body);
     roundedAmount := default (roundedAmount d) (b_roundedAmount body);
     amountPaid := default (amountPaid d) (b_amountPaid body);
     balance := default (balance d) (b_balance body);
     payments := default (payments d) (b_payments body);
     dueDate := sent_or (b_dueDate body) (dueDate d);
     terms := sent_or (b_terms body) (terms d);
     notes := sent_or (b_notes body) (notes d);
     stockDeducted := default (stockDeducted d) (b_stockDeducted body);
     createdBy := default (createdBy d) (b_createdBy body);
     paidDate := sent_or (b_paidDate body) (paidDate d);
     confirmedDate := sent_or (b_confirmedDate body) (confirmedDate d);
     confirmedBy := sent_or (b_confirmedBy body) (confirmedBy d);
     cancelledDate := sent_or (b_cancelledDate body) (cancelledDate d);
     cancelledBy := sent_or (b_cancelledBy body) (cancelledBy d);
     cancellationReason := sent_or (b_cancellationReason body) (cancellationReason d) |}.

(* a new document of [client], every other path at its schema default *)
Definition blank (client createdBy : ObjectId) : t :=
  {| invoiceNumber := "";
     client := client;
     quotation := None;
     status := draft;
     items := [];
     totalAEx := 0;
     totalB18 := 0;
     totalTaxA := 0;
     totalTaxB := 0;
     subtotal := 0;
     totalDiscount := 0;
     totalTax := 0;
     grandTotal := 0;
     roundedAmount := 0;
     amountPaid := 0;
     balance := 0;
     payments := [];
     dueDate := None;
     terms := None;
     notes := None;
     stockDeducted := false;
     createdBy := createdBy;
     paidDate := None;
     confirmedDate := None;
     confirmedBy := None;
     cancelledDate := None;
     cancelledBy := None;
     cancellationReason := None |}.

(* [createdBy: req.user.id], written after the spread of the body *)
Definition set_createdBy (v : ObjectId) (d : t) : t :=
  {| invoiceNumber := invoiceNumber d;
     client := client d;
     quotation := quotation d;
     status := status d;
     items := items d;
     totalAEx := totalAEx d;
     totalB18 := totalB18 d;
     totalTaxA := totalTaxA d;
     totalTaxB := totalTaxB d;
     subtotal := subtotal d;
     totalDiscount := totalDiscount d;
     totalTax := totalTax d;
     grandTotal := grandTotal d;
     roundedAmount := roundedAmount d;
     amountPaid := amountPaid d;
     balance := balance d;
     payments := payments d;
     dueDate := dueDate d;
     terms := terms d;
     notes := notes d;
     stockDeducted := stockDeducted d;
     createdBy := v;
     paidDate := paidDate d;
     confirmedDate := confirmedDate d;
     confirmedBy := confirmedBy d;
     cancelledDate := cancelledDate d;
     cancelledBy := cancelledBy d;
     cancellationReason := cancellationReason d |}.

(* [{...req.body, items: processedItems, createdBy: req.user.id}] *)
Definition new_invoice (rq : Req) (client : ObjectId) (items : list ItemBody)
    (body : Body) : t :=
  set_createdBy (user_id rq)
    (assign body (Some (processedItems items)) (blank client (user_id rq))).

(* "Auto-generate invoice number", the first pre('save') hook *)
Definition number_hook (rq : Req) (st : State) (d : t) : t :=
  if String.eqb (invoiceNumber d) "" then
    set_invoiceNumber (quotationController.invoice_number rq st) d
  else d.

(* Invoice.create: both hooks, then the insert under a fresh [_id] *)
Definition Invoice_create (rq : Req) (d : t) (st : State) : State :=
  let d := pre_save (now rq) (number_hook rq st d) in
  set_nextId (S (nextId st)) (set_invoices (<[nextId st := d]> (invoices st)) st).

Definition createInvoice (rq : Req) (items : list ItemBody) (body : Body) (st : State)
    : State * Response :=
  match b_client body with
  | None => (st, fail (NotFound "Client"))
  | Some clientId =>
    match clients st !! clientId with
    | None => (st, fail (NotFound "Client"))
    | Some _ =>
      match for_of check_item st items with
      | (_, Some e) => (st, fail e)
      | (_, None) =>
        (Invoice_create rq (new_invoice rq clientId items body) st, ok)
      end
    end
  end.

Definition updateInvoice (id : ObjectId) (items : option (list ItemBody)) (body : Body)
    (st : State) : State * Response :=
  match invoices st !! id with
  | None => (st, fail (NotFound "Invoice"))
  | Some invoice =>
    if decide (status invoice <> draft) then
      (st, fail (InvalidState "Only draft invoices can be updated"))
    else
      (* If items are updated, validate stock *)
      match match items with
            | Some items => snd (for_of check_item st items)
            | None => None
            end with
      | Some e => (st, fail e)
      | None =>
        (* findByIdAndUpdate *)
        let invoice := assign body (processedItems <$> items) invoice in
        (set_invoices (<[id := invoice]> (invoices st)) st, ok)
      end
  end.

Definition deleteInvoice (id : ObjectId) (st : State) : State * Response :=
  match invoices st !! id with
  | None => (st, fail (NotFound "Invoice"))
  | Some invoice =>
    if decide (status invoice <> draft) then
      (st, fail (InvalidState "Only draft invoices can be deleted"))
    else (set_invoices (delete id (invoices st)) st, ok)
  end.

End invoiceDrafts.

(** ** unnamed/part_001 (purchase controller): createPurchase, updatePurchase, deletePurchase *)
Module purchaseDrafts.
Import Purchase.

(* one element of req.body.items *)
Record ItemBody : Type := mkItemBody {
  ib_product : ObjectId;
  ib_quantity : Q;
  ib_unitCost : Q;
  ib_discount : option Q;
  ib_taxCode : option TaxCode;
  ib_taxRate : option Q
}.

(* req.body without its items *)
Record Body : Type := mkBody {
  b_purchaseNumber : option string;
  b_supplier : option ObjectId;
  b_status : option Status;
  b_totalAEx : option Q;
  b_totalB18 : option Q;
  b_totalTaxA : option Q;
  b_totalTaxB : option Q;
  b_subtotal : option Q;
  b_totalDiscount : option Q;
  b_totalTax : option Q;
  b_grandTotal : option Q;
  b_roundedAmount : option Q;
  b_amountPaid : option Q;
  b_balance : option Q;
  b_payments : option (list Payment);
  b_receivedDate : option Date;
  b_terms : option string;
  b_notes : option string;
  b_stockAdded : option bool;
  b_createdBy : option ObjectId;
  b_paidDate : option Date;
  b_confirmedDate : option Date;
  b_confirmedBy : option ObjectId;
  b_cancelledDate : option Date;
  b_cancelledBy : option ObjectId;
  b_cancellationReason : option string
}.

(* one step of "Process items with tax codes", read through the item
   schema: [discount], [taxCode] and [taxRate] take their defaults when the
   line does not send them *)
Definition process_item (item : ItemBody) : PurchaseItem.t :=
  let subtotal := ib_quantity item * ib_unitCost item in
  let discount := default 0 (ib_discount item) in
  let netAmount := subtotal - discount in
  let taxRate := default 0 (ib_taxRate item) in
  let taxAmount := netAmount * (taxRate / 100) in
  let totalWithTax := netAmount + taxAmount in
  {| PurchaseItem.product := ib_product item;
     PurchaseItem.quantity := ib_quantity item;
     PurchaseItem.unitCost := ib_unitCost item;
     PurchaseItem.discount := default 0 (ib_discount item);
     PurchaseItem.taxCode := default TaxA (ib_taxCode item);
     PurchaseItem.taxRate := default 0 (ib_taxRate item);
     PurchaseItem.taxAmount := taxAmount;
     PurchaseItem.subtotal := subtotal;
     PurchaseItem.totalWithTax := totalWithTax |}.

Definition processedItems (items : list ItemBody) : list PurchaseItem.t :=
  map process_item items.

(* the sent paths written over a document; [lines] are the processed items,
   when items were sent *)
Definition assign (body : Body) (lines : option (list PurchaseItem.t)) (d : t) : t :=
  {| purchaseNumber := default (purchaseNumber d) (toUpperCase <$> b_purchaseNumber body);
     supplier := default (supplier d) (b_supplier body);
     status := default (status d) (b_status body);
     items := default (items d) lines;
     totalAEx := default (totalAEx d) (b_totalAEx body);
     totalB18 := default (totalB18 d) (b_totalB18 body);
     totalTaxA := default (totalTaxA d) (b_totalTaxA body);
     totalTaxB := default (totalTaxB d) (b_totalTaxB body);
     subtotal := default (subtotal d) (b_subtotal body);
     totalDiscount := default (totalDiscount d) (b_totalDiscount body);
     totalTax := default (totalTax d) (b_totalTax body);
     grandTotal := default (grandTotal d) (b_grandTotal body);
     roundedAmount := default (roundedAmount d) (b_roundedAmount body);
     amountPaid := default (amountPaid d) (b_amountPaid body);
     balance := default (balance d) (b_balance body);
     payments := default (payments d) (b_payments body);
     receivedDate := sent_or (b_receivedDate body) (receivedDate d);
     terms := sent_or (b_terms body) (terms d);
     notes := sent_or (b_notes body) (notes d);
     stockAdded := default (stockAdded d) (b_stockAdded body);
     createdBy := default (createdBy d) (b_createdBy body);
     paidDate := sent_or (b_paidDate body) (paidDate d);
     confirmedDate := sent_or (b_confirmedDate body) (confirmedDate d);
     confirmedBy := sent_or (b_confirmedBy body) (confirmedBy d);
     cancelledDate := sent_or (b_cancelledDate body) (cancelledDate d);
     cancelledBy := sent_or (b_cancelledBy body) (cancelledBy d);
     cancellationReason := sent_or (b_cancellationReason body) (cancellationReason d) |}.

(* a new document of [supplier], every other path at its schema default *)
Definition blank (supplier createdBy : ObjectId) : t :=
  {| purchaseNumber := "";
     supplier := supplier;
     status := draft;
     items := [];
     totalAEx := 0;
     totalB18 := 0;
     totalTaxA := 0;
     totalTaxB := 0;
     subtotal := 0;
     totalDiscount := 0;
     totalTax := 0;
     grandTotal := 0;
     roundedAmount := 0;
     amountPaid := 0;
     balance := 0;
     payments := [];
     receivedDate := None;
     terms := None;
     notes := None;
     stockAdded := false;
     createdBy := createdBy;
     paidDate := None;
     confirmedDate := None;
     confirmedBy := None;
     cancelledDate := None;
     cancelledBy := None;
     cancellationReason := None |}.

(* [createdBy: req.user.id], written after the spread of the body *)
Definition set_createdBy (v : ObjectId) (d : t) : t :=
  {| purchaseNumber := purchaseNumber d;
     supplier := supplier d;
     status := status d;
     items := items d;
     totalAEx := totalAEx d;
     totalB18 := totalB18 d;
     totalTaxA := totalTaxA d;
     totalTaxB := totalTaxB d;
     subtotal := subtotal d;
     totalDiscount := totalDiscount d;
     totalTax := totalTax d;
     grandTotal := grandTotal d;
     roundedAmount := roundedAmount d;
     amountPaid := amountPaid d;
     balance := balance d;
     payments := payments d;
     receivedDate := receivedDate d;
     terms := terms d;
     notes := notes d;
     stockAdded := stockAdded d;
     createdBy := v;
     paidDate := paidDate d;
     confirmedDate := confirmedDate d;
     confirmedBy := confirmedBy d;
     cancelledDate := cancelledDate d;
     cancelledBy := cancelledBy d;
     cancellationReason := cancellationReason d |}.


(* "Auto-generate purchase number", the first pre('save') hook *)
Definition purchase_number (rq : Req) (st : State) : string :=
  "PO-" +:+ pretty (year rq) +:+ "-"
  +:+ quotationController.padStart0 5 (pretty (S (size (purchases st)))).

Definition set_purchaseNumber (v : string) (d : t) : t :=
  {| purchaseNumber := v;
     supplier := supplier d;
     status := status d;
     items := items d;
     totalAEx := totalAEx d;
     totalB18 := totalB18 d;
     totalTaxA := totalTaxA d;
     totalTaxB := totalTaxB d;
     subtotal := subtotal d;
     totalDiscount := totalDiscount d;
     totalTax := totalTax d;
     grandTotal := grandTotal d;
     roundedAmount := roundedAmount d;
     amountPaid := amountPaid d;
     balance := balance d;
     payments := payments d;
     receivedDate := receivedDate d;
     terms := terms d;
     notes := notes d;
     stockAdded := stockAdded d;
     createdBy := createdBy d;
     paidDate := paidDate d;
     confirmedDate := confirmedDate d;
     confirmedBy := confirmedBy d;
     cancelledDate := cancelledDate d;
     cancelledBy := cancelledBy d;
     cancellationReason := cancellationReason d |}.

Definition number_hook (rq : Req) (st : State) (d : t) : t :=
  if String.eqb (purchaseNumber d) "" then set_purchaseNumber (purchase_number rq st) d
  else d.



Definition updatePurchase (id : ObjectId) (items : option (list ItemBody)) (body : Body)
    (st : State) : State * Response :=
  match purchases st !! id with
  | None => (st, fail (NotFound "Purchase"))
  | Some purchase =>
    if decide (status purchase <> draft) then
      (st, fail (InvalidState "Only draft purchases can be updated"))
    else
      (* findByIdAndUpdate *)
      let purchase := assign body (processedItems <$> items) purchase in
      (set_purchases (<[id := purchase]> (purchases st)) st, ok)
  end.

Definition deletePurchase (id : ObjectId) (st : State) : State * Response :=
  match purchases st !! id with
  | None => (st, fail (NotFound "Purchase"))
  | Some purchase =>
    if decide (status purchase <> draft) then
      (st, fail (InvalidState "Only draft purchases can be deleted"))
    else (set_purchases (delete id (purchases st)) st, ok)
  end.

End purchaseDrafts.

(** ** controllers/quotationController.js: createQuotation, updateQuotation, deleteQuotation *)
Module quotationDrafts.
Import Quotation.

(* one element of req.body.items *)
Record ItemBody : Type := mkItemBody {
  ib_product : ObjectId;
  ib_quantity : Q;
  ib_unitPrice : Q;
  ib_discount : option Q;
  ib_taxRate : option Q
}.

(* req.body without its items *)
Record Body : Type := mkBody {
  b_quotationNumber : option string;
  b_client : option ObjectId;
  b_status : option Status;
  b_subtotal : option Q;
  b_totalDiscount : option Q;
  b_totalTax : option Q;
  b_grandTotal : option Q;
  b_terms : option string;
  b_notes : option string;
  b_createdBy : option ObjectId;
  b_approvedBy : option ObjectId;
  b_approvedDate : option Date;
  b_convertedToInvoice : option ObjectId;
  b_conversionDate : option Date
}.

(* one step of "Calculate item totals", read through quotationItemSchema *)
Definition process_item (item : ItemBody) : QuotationItem.t :=
  let subtotal := ib_quantity item * ib_unitPrice item in
  let total := subtotal - default 0 (ib_discount item)
               + subtotal * default 0 (ib_taxRate item) / 100 in
  {| QuotationItem.product := ib_product item;
     QuotationItem.quantity := ib_quantity item;
     QuotationItem.unitPrice := ib_unitPrice item;
     QuotationItem.discount := default 0 (ib_discount item);
     QuotationItem.taxRate := default 0 (ib_taxRate item);
     QuotationItem.subtotal := subtotal;
     QuotationItem.total := total |}.

Definition processedItems (items : list ItemBody) : list QuotationItem.t :=
  map process_item items.

(* the sent paths written over a document; [lines] are the processed items,
   when items were sent *)
Definition assign (body : Body) (lines : option (list QuotationItem.t)) (d : t) : t :=
  {| quotationNumber := default (quotationNumber d) (toUpperCase <$> b_quotationNumber body);
     client := default (client d) (b_client body);
     status := default (status d) (b_status body);
     items := default (items d) lines;
     subtotal := default (subtotal d) (b_subtotal body);
     totalDiscount := default (totalDiscount d) (b_totalDiscount body);
     totalTax := default (totalTax d) (b_totalTax body);
     grandTotal := default (grandTotal d) (b_grandTotal body);
     terms := sent_or (b_terms body) (terms d);
     notes := sent_or (b_notes body) (notes d);
     createdBy := default (createdBy d) (b_createdBy body);
     approvedBy := sent_or (b_approvedBy body) (approvedBy d);
     approvedDate := sent_or (b_approvedDate body) (approvedDate d);
     convertedToInvoice := sent_or (b_convertedToInvoice body) (convertedToInvoice d);
     conversionDate := sent_or (b_conversionDate body) (conversionDate d) |}.

(* a new document of [client], every other path at its schema default *)
Definition blank (client createdBy : ObjectId) : t :=
  {| quotationNumber := ""; client := client; status := draft; items := [];
     subtotal := 0; totalDiscount := 0; totalTax := 0; grandTotal := 0;
     terms := None; notes := None; createdBy := createdBy;
     approvedBy := None; approvedDate := None;
     convertedToInvoice := None; conversionDate := None |}.

(* [createdBy: req.user.id], written after the spread of the body *)
Definition set_createdBy (v : ObjectId) (d : t) : t :=
  {| quotationNumber := quotationNumber d; client := client d; status := status d;
     items := items d; subtotal := subtotal d; totalDiscount := totalDiscount d;
     totalTax := totalTax d; grandTotal := grandTotal d; terms := terms d;
     notes := notes d; createdBy := v; approvedBy := approvedBy d;
     approvedDate := approvedDate d; convertedToInvoice := convertedToInvoice d;
     conversionDate := conversionDate d |}.

Definition set_quotationNumber (v : string) (d : t) : t :=
  {| quotationNumber := v; client := client d; status := status d;
     items := items d; subtotal := subtotal d; totalDiscount := totalDiscount d;
     totalTax := totalTax d; grandTotal := grandTotal d; terms := terms d;
     notes := notes d; createdBy := createdBy d; approvedBy := approvedBy d;
     approvedDate := approvedDate d; convertedToInvoice := convertedToInvoice d;
     conversionDate := conversionDate d |}.


(* "Auto-generate quotation number", the first pre('save') hook *)
Definition quotation_number (rq : Req) (st : State) : string :=
  "QUO-" +:+ pretty (year rq) +:+ "-"
  +:+ quotationController.padStart0 5 (pretty (S (size (quotations st)))).

Definition number_hook (rq : Req) (st : State) (d : t) : t :=
  if String.eqb (quotationNumber d) "" then set_quotationNumber (quotation_number rq st) d
  else d.



Definition status_name (s : Status) : string :=
  match s with
  | draft => "draft" | sent => "sent" | approved => "approved"
  | rejected => "rejected" | converted => "converted" | expired => "expired"
  end.

Definition updateQuotation (id : ObjectId) (items : option (list ItemBody)) (body : Body)
    (st : State) : State * Response :=
  match quotations st !! id with
  | None => (st, fail (NotFound "Quotation"))
  | Some quotation =>
    (* Only draft and sent quotations can be updated *)
    if negb (bool_decide (status quotation ∈ [draft; sent])) then
      (st, fail (InvalidState ("Cannot update quotation with status: "
                               +:+ status_name (status quotation))))
    else
      (* findByIdAndUpdate *)
      let quotation := assign body (processedItems <$> items) quotation in
      (set_quotations (<[id := quotation]> (quotations st)) st, ok)
  end.

Definition deleteQuotation (id : ObjectId) (st : State) : State * Response :=
  match quotations st !! id with
  | None => (st, fail (NotFound "Quotation"))
  | Some quotation =>
    if decide (status quotation <> draft) then
      (st, fail (InvalidState "Only draft quotations can be deleted"))
    else (set_quotations (delete id (quotations st)) st, ok)
  end.

End quotationDrafts.
(** * Properties *)

(** ** Comparisons on numbers *)

Lemma Qltb_true x y : Qltb x y = true <-> x < y.
Proof.
  unfold Qltb. rewrite negb_true_iff, <- not_true_iff_false, Qle_bool_iff.
  split; [apply Qnot_le_lt | apply Qlt_not_le].
Qed.

Lemma Qltb_false x y : Qltb x y = false <-> y <= x.
Proof. unfold Qltb. rewrite negb_false_iff. apply Qle_bool_iff. Qed.

Lemma Qgtb_true x y : Qgtb x y = true <-> y < x.
Proof. apply Qltb_true. Qed.

Lemma Qgtb_false x y : Qgtb x y = false <-> x <= y.
Proof. apply Qltb_false. Qed.

Lemma Qgeb_true x y : Qgeb x y = true <-> y <= x.
Proof. apply Qle_bool_iff. Qed.

Lemma Qgeb_false x y : Qgeb x y = false <-> x < y.
Proof.
  unfold Qgeb. rewrite <- not_true_iff_false, Qle_bool_iff.
  split; [apply Qnot_le_lt | apply Qlt_not_le].
Qed.

(** ** The totals hook *)


Lemma Invoice_calculateTotals_frame d :
  Invoice.status (Invoice.calculateTotals d) = Invoice.status d
  /\ Invoice.amountPaid (Invoice.calculateTotals d) = Invoice.amountPaid d
  /\ Invoice.stockDeducted (Invoice.calculateTotals d) = Invoice.stockDeducted d
  /\ Invoice.client (Invoice.calculateTotals d) = Invoice.client d
  /\ (Invoice.items d = [] -> Invoice.calculateTotals d = d)
  /\ Invoice.items (Invoice.calculateTotals d) = map Invoice.recalcItem (Invoice.items d).
Proof.
  unfold Invoice.calculateTotals. destruct (Invoice.items d) eqn:E; simpl; rewrite ?E; auto 10.
  repeat split; auto. discriminate.
Qed.


Lemma Invoice_updateStatus_status today d :
  (Invoice.roundedAmount d <= Invoice.amountPaid d -> 0 < Invoice.roundedAmount d ->
   Invoice.status (Invoice.updateStatus today d) = Invoice.paid)
  /\ (0 < Invoice.amountPaid d -> Invoice.amountPaid d < Invoice.roundedAmount d ->
      Invoice.status (Invoice.updateStatus today d) = Invoice.partial)
  /\ (Invoice.amountPaid d <= 0 ->
      Invoice.status (Invoice.updateStatus today d) = Invoice.status d).
Proof.
  unfold Invoice.updateStatus. repeat split; intros.
  - apply Qgeb_true in H. apply Qgtb_true in H0. rewrite H, H0. simpl.
    destruct (Invoice.paidDate d); reflexivity.
  - assert (Qgeb (Invoice.amountPaid d) (Invoice.roundedAmount d) = false) as ->
      by (apply Qgeb_false; assumption).
    apply Qgtb_true in H. apply Qltb_true in H0. rewrite H, H0. reflexivity.
  - destruct (Qgeb _ _ && Qgtb _ _) eqn:E.
    + apply andb_true_iff in E as [E1 E2]. apply Qgeb_true in E1. apply Qgtb_true in E2. lra.
    + assert (Qgtb (Invoice.amountPaid d) 0 = false) as -> by (apply Qgtb_false; assumption).
      reflexivity.
Qed.


(** The same hook on purchases. *)


Lemma Purchase_calculateTotals_frame d :
  Purchase.status (Purchase.calculateTotals d) = Purchase.status d
  /\ Purchase.amountPaid (Purchase.calculateTotals d) = Purchase.amountPaid d
  /\ Purchase.stockAdded (Purchase.calculateTotals d) = Purchase.stockAdded d
  /\ Purchase.supplier (Purchase.calculateTotals d) = Purchase.supplier d
  /\ (Purchase.items d = [] -> Purchase.calculateTotals d = d)
  /\ Purchase.items (Purchase.calculateTotals d) = map Purchase.recalcItem (Purchase.items d).
Proof.
  unfold Purchase.calculateTotals. destruct (Purchase.items d) eqn:E; simpl; rewrite ?E; auto 10.
  repeat split; auto. discriminate.
Qed.




(** ** Every lifecycle request ends in [save()] *)

Ltac store_simpl :=
  unfold Client_save, Product_save, Supplier_save, Supplier_findById,
    StockMovement_create, stockController.st_replace in *;
  cbn [invoices purchases clients suppliers products movements quotations nextId
       set_invoices set_purchases set_clients set_suppliers set_products
       set_movements set_quotations set_nextId] in *.

(* hide the document about to be stored before looking at the store *)
Ltac hide_saved :=
  repeat match goal with
  | |- context [Invoice.pre_save ?t ?d] =>
    let x := fresh "saved" in generalize (Invoice.pre_save t d); intros x
  | |- context [Purchase.pre_save ?t ?d] =>
    let x := fresh "saved" in generalize (Purchase.pre_save t d); intros x
  end.







(** ** C2: balance and status after a lifecycle request *)




(** ** C1: what a rejected request leaves behind *)


Lemma confirm_item_fail rq id invoice st item st' e :
  invoiceController.confirm_item rq id invoice st item = (st', Some e) -> st' = st.
Proof.
  unfold invoiceController.confirm_item. intros H.
  destruct (products st !! _); [destruct (Qltb _ _)|]; congruence.
Qed.

(* the loop of confirmInvoice writes products and ledger entries only *)
Lemma confirm_items_frame rq id invoice xs st st' r :
  for_of (invoiceController.confirm_item rq id invoice) st xs = (st', r) ->
  invoices st' = invoices st /\ clients st' = clients st
  /\ quotations st' = quotations st /\ purchases st' = purchases st
  /\ suppliers st' = suppliers st.
Proof.
  revert st. induction xs as [|x xs IH]; simpl; intros st H.
  - injection H as <- <-. auto.
  - destruct (invoiceController.confirm_item rq id invoice st x) as [st1 [e1|]] eqn:Hx.
    + injection H as <- <-. apply confirm_item_fail in Hx as ->. auto.
    + apply IH in H. unfold invoiceController.confirm_item in Hx.
      destruct (products st !! _); [destruct (Qltb _ _)|]; try discriminate.
      injection Hx as <-. exact H.
Qed.







(** ** C3: weighted-average cost on inbound stock *)

(* one step of the receive loop: the average cost follows the stated rule *)
Lemma receive_item_averageCost rq id purchase st item p :
  products st !! PurchaseItem.product item = Some p ->
  exists p',
    products (purchaseController.receive_item rq id purchase st item)
      !! PurchaseItem.product item = Some p'
    /\ Product.currentStock p' = Product.currentStock p + PurchaseItem.quantity item
    /\ (Product.averageCost p == 0 ->
        Product.averageCost p' = PurchaseItem.unitCost item)
    /\ (~ Product.averageCost p == 0 ->
        Product.averageCost p'
        = (Product.averageCost p * Product.currentStock p
           + PurchaseItem.unitCost item * PurchaseItem.quantity item)
          / (Product.currentStock p + PurchaseItem.quantity item)).
Proof.
  intros Hp. unfold purchaseController.receive_item. rewrite Hp. store_simpl.
  rewrite lookup_insert_eq. eexists. split; [reflexivity|].
  cbn [Product.averageCost Product.currentStock Product.set_currentStock].
  destruct (Qeq_bool (Product.averageCost p) 0) eqn:E.
  - split; [reflexivity|]. split; [intros _; reflexivity|].
    intros N. apply Qeq_bool_iff in E. contradiction.
  - split; [reflexivity|]. split; [|intros _; reflexivity].
    intros Z. apply Qeq_bool_iff in Z. congruence.
Qed.

(* receiveStock always blends, also from a zero average *)
Lemma receiveStock_product rq body st p :
  products st !! stockController.rb_product body = Some p ->
  products (fst (stockController.receiveStock rq body st)) !! stockController.rb_product body
  = Some (stockController.received_product rq body
            (Product.currentStock p + stockController.rb_quantity body) p).
Proof.
  intros Hp. unfold stockController.receiveStock. rewrite Hp.
  generalize (stockController.received_product rq body
                (Product.currentStock p + stockController.rb_quantity body) p).
  generalize (stockController.receipt rq body (Product.currentStock p)
                (Product.currentStock p + stockController.rb_quantity body)).
  intros m p'. store_simpl.
  destruct (stockController.rb_supplier body); [destruct (suppliers st !! _)|];
    simpl; apply lookup_insert_eq.
Qed.


(* the auto-receive loop of recordPayment never blends *)
Lemma add_item_averageCost rq id purchase st item p :
  products st !! PurchaseItem.product item = Some p ->
  exists p',
    products (purchaseController.add_item rq id purchase st item)
      !! PurchaseItem.product item = Some p'
    /\ Product.currentStock p' = Product.currentStock p + PurchaseItem.quantity item
    /\ Product.averageCost p'
       = if Qeq_bool (Product.averageCost p) 0 then PurchaseItem.unitCost item
         else Product.averageCost p.
Proof.
  intros Hp. unfold purchaseController.add_item. rewrite Hp. store_simpl.
  rewrite lookup_insert_eq. eexists. split; [reflexivity|].
  cbn [Product.averageCost Product.currentStock Product.set_currentStock].
  destruct (Qeq_bool (Product.averageCost p) 0); auto.
Qed.

(** C3 on the auto-receive path.  10 units at average cost 5 are in stock; a
    draft purchase of 10 units at cost 7 is paid in cash.  The stock becomes
    20 and the average cost stays 5, where receiving the same purchase makes
    it (10*5 + 10*7) / 20 = 6. *)
Theorem auto_receive_keeps_average_cost :
  let paid := purchaseController.recordPayment Sample.rq 20 (Sample.ppay 70 cash)
                Sample.supplied in
  let received := purchaseController.receivePurchase Sample.rq 20 Sample.supplied in
  snd paid = ok
  /\ Product.currentStock <$> products (fst paid) !! 1%nat = Some 20
  /\ Product.averageCost <$> products (fst paid) !! 1%nat = Some 5
  /\ snd received = ok
  /\ match products (fst received) !! 1%nat with
     | Some p => Product.currentStock p == 20 /\ Product.averageCost p == 6
     | None => False
     end.
Proof. vm_compute. repeat split; reflexivity. Qed.

(* receiveStock from 10 units at average cost 0: 10 more at cost 7 give 3.5 *)
Lemma receiveStock_dilutes_zero_average :
  let body := stockController.mkReceiveBody 1 10 7 None None None None None in
  match products (fst (stockController.receiveStock Sample.rq body
                         (Sample.depot 10 0 []))) !! 1%nat with
  | Some p => Product.averageCost p == 7 # 2
  | None => False
  end.
Proof. vm_compute. reflexivity. Qed.

(** ** C4: confirm, then cancel *)







(* an accepted confirmation, spelled out *)
Lemma confirmInvoice_ok rq id st st1 :
  invoiceController.confirmInvoice rq id st = (st1, ok) ->
  exists invoice sta,
    invoices st !! id = Some invoice
    /\ Invoice.status invoice = Invoice.draft
    /\ for_of (invoiceController.confirm_item rq id invoice) st (Invoice.items invoice)
       = (sta, None)
    /\ let inv1 := Invoice.pre_save (now rq) (invoiceController.mark_confirmed rq invoice) in
       invoices st1 !! id = Some inv1
       /\ products st1 = products sta
       /\ movements st1 = movements sta
       /\ (forall c, clients st !! Invoice.client inv1 = Some c ->
           clients st1 !! Invoice.client inv1
           = Some (invoiceController.confirm_client inv1 c)).
Proof.
  unfold invoiceController.confirmInvoice. intros H.
  destruct (invoices st !! id) as [invoice|] eqn:Hi; [|discriminate].
  destruct (decide _) as [|Hd]; [discriminate|]. apply dec_stable in Hd.
  destruct (for_of _ _ _) as [sta [e|]] eqn:Hl; [discriminate|].
  injection H as <-. exists invoice, sta.
  destruct (confirm_items_frame _ _ _ _ _ _ _ Hl) as (_ & Hc & _).
  split; [reflexivity|]. split; [assumption|]. split; [assumption|].
  cbv zeta. hide_saved. rewrite <- Hc.
  destruct (Invoice.quotation saved) as [qid|]; [destruct (quotations sta !! qid)|];
    store_simpl;
    (destruct (clients sta !! Invoice.client saved) as [c0|] eqn:Hc0; store_simpl;
     repeat split;
     [apply lookup_insert_eq
     |intros c Hcl; injection Hcl as <-; apply lookup_insert_eq
     |apply lookup_insert_eq
     |intros c Hcl; discriminate]).
Qed.











(* the ledger of that scenario: one out/sale entry 20 -> 15, one in/return
   entry 15 -> 20 *)
Lemma confirm_then_cancel_ledger :
  map (fun m => (StockMovement.type m, StockMovement.reason m, StockMovement.quantity m,
                 StockMovement.previousStock m, StockMovement.newStock m))
    (movements (fst (invoiceController.cancelInvoice Sample.rq 10 None
                  (fst (invoiceController.confirmInvoice Sample.rq 10 Sample.stocked)))))
  = [(mt_out, sale, 5, 20, 15); (mt_in, return_, 5, 15, 20)].
Proof. vm_compute. reflexivity. Qed.

(** ** C10: updateStockMovement edits metadata only *)

Lemma assign_frozen {A} (sent : option A) set m :
  (forall v, frozen (set v m) = frozen m) ->
  frozen (stockController.assign sent set m) = frozen m.
Proof. intros H. destruct sent; simpl; auto. Qed.

Lemma apply_allowed_frozen body m :
  frozen (stockController.apply_allowed body m) = frozen m.
Proof.
  unfold stockController.apply_allowed. cbv zeta.
  assert (Hd : forall m', frozen match stockController.ub_movementDate body with
                                 | Some d => StockMovement.set_movementDate d m'
                                 | None => m'
                                 end = frozen m')
    by (intros m'; destruct (stockController.ub_movementDate body); reflexivity).
  rewrite Hd. repeat (rewrite assign_frozen; [|reflexivity]). reflexivity.
Qed.

Lemma replace_first_frozen id m0 m' ms :
  find (fun m => Nat.eqb (StockMovement._id m) id) ms = Some m0 ->
  frozen m' = frozen m0 ->
  map frozen (stockController.replace_first id m' ms) = map frozen ms.
Proof.
  intros Hf Hm. induction ms as [|m ms IH]; simpl in *; [reflexivity|].
  destruct (Nat.eqb (StockMovement._id m) id).
  - injection Hf as ->. simpl. rewrite Hm. reflexivity.
  - simpl. rewrite IH by assumption. reflexivity.
Qed.

Lemma replace_first_others id m' ms i m :
  ms !! i = Some m -> StockMovement._id m <> id ->
  stockController.replace_first id m' ms !! i = Some m.
Proof.
  revert i. induction ms as [|m1 ms IH]; intros i Hi Hne; [discriminate|]. simpl.
  destruct (Nat.eqb_spec (StockMovement._id m1) id) as [Heq|Hneq].
  - destruct i as [|i]; simpl in *; [|assumption]. injection Hi as ->. contradiction.
  - destruct i as [|i]; simpl in *; [assumption|]. apply IH; assumption.
Qed.

(* the ledger after an update, entry by entry *)
Lemma updateStockMovement_ledger id body st :
  let st' := fst (stockController.updateStockMovement id body st) in
  map frozen (movements st') = map frozen (movements st)
  /\ (forall i m, movements st !! i = Some m -> StockMovement._id m <> id ->
        movements st' !! i = Some m)
  /\ products st' = products st.
Proof.
  unfold stockController.updateStockMovement, stockController.StockMovement_findById.
  destruct (find _ (movements st)) as [m0|] eqn:Hf; simpl; [|auto].
  split; [|split; [|reflexivity]].
  - eapply replace_first_frozen; [exact Hf|apply apply_allowed_frozen].
  - intros i m Hi Hne. apply replace_first_others; assumption.
Qed.

(** C10.  Whatever the request body contains, [updateStockMovement] leaves the
    identity, product, type, reason, quantity, previousStock, newStock,
    performedBy and document reference of every ledger entry unchanged, leaves
    every entry other than the addressed one unchanged altogether, and writes
    nothing but the ledger: products (stock and average cost) and all documents
    are as before. *)
Theorem updateStockMovement_metadata_only id body st :
  let st' := fst (stockController.updateStockMovement id body st) in
  map frozen (movements st') = map frozen (movements st)
  /\ (forall i m, movements st !! i = Some m -> StockMovement._id m <> id ->
        movements st' !! i = Some m)
  /\ products st' = products st
  /\ invoices st' = invoices st /\ purchases st' = purchases st
  /\ quotations st' = quotations st /\ clients st' = clients st
  /\ suppliers st' = suppliers st.
Proof.
  destruct (updateStockMovement_ledger id body st) as (Hf & Ho & Hp).
  cbv zeta. split; [exact Hf|]. split; [exact Ho|]. split; [exact Hp|].
  unfold stockController.updateStockMovement.
  destruct (stockController.StockMovement_findById id st); simpl; auto.
Qed.

(* an update that tries to change the quantity and the stock snapshot *)
Lemma updateStockMovement_ignores_quantity :
  let st := fst (stockController.receiveStock Sample.rq
                   (stockController.mkReceiveBody 1 10 7 None None None None None)
                   (Sample.depot 10 5 [])) in
  let body := stockController.mkUpdateBody (Some "recount"%string) None None None None None
                (Some 9) None None None None None None (Some 99) (Some 0) (Some 99) None in
  map (fun m => (StockMovement.quantity m, StockMovement.previousStock m,
                 StockMovement.newStock m, StockMovement.unitCost m, StockMovement.notes m))
    (movements (fst (stockController.updateStockMovement 100 body st)))
  = [(10, 10, 20, Some 9, Some "recount"%string)].
Proof. vm_compute. reflexivity. Qed.

(** ** C9: supplier totals on receipt *)

(* no stored supplier document has an [outstandingBalance] *)
Lemma Supplier_no_outstandingBalance s : Supplier_get "outstandingBalance" s = None.
Proof. reflexivity. Qed.

(* the assignment in receivePurchase works on [undefined] *)
Lemma receive_supplier_NaN rq purchase s :
  outstandingBalance (purchaseController.receive_supplier rq purchase
                        (mkSupplierDoc s js_undefined)) = js_NaN
  /\ Supplier.totalPurchases (fields (purchaseController.receive_supplier rq purchase
                                        (mkSupplierDoc s js_undefined)))
     = Supplier.totalPurchases s + Purchase.roundedAmount purchase.
Proof. split; reflexivity. Qed.

(** C9 on a purchase of 70 from a supplier with no purchases yet: after
    [receivePurchase] the stored supplier has [totalPurchases = 70], and still no
    [outstandingBalance]; the value assigned in memory was [NaN]. *)
Theorem receivePurchase_supplier_balance_not_stored :
  let r := purchaseController.receivePurchase Sample.rq 20 Sample.supplied in
  snd r = ok
  /\ (Purchase.roundedAmount <$> purchases (fst r) !! 20%nat) = Some (7000 # 100)
  /\ (Supplier_get "totalPurchases" <$> suppliers Sample.supplied !! 3%nat) = Some (Some 0)
  /\ (Supplier_get "totalPurchases" <$> suppliers (fst r) !! 3%nat)
     = Some (Some (0 + (7000 # 100)))
  /\ (Supplier_get "outstandingBalance" <$> suppliers (fst r) !! 3%nat) = Some None
  /\ match purchases (fst r) !! 20%nat, Supplier_findById 3 Sample.supplied with
     | Some purchase, Some doc =>
       outstandingBalance (purchaseController.receive_supplier Sample.rq purchase doc)
       = js_NaN
     | _, _ => False
     end.
Proof. vm_compute. repeat split; reflexivity. Qed.

(** ** C5: cancellation *)

(* cancel is rejected exactly on a paid document *)
Lemma cancelInvoice_rejected_iff_paid rq id why st invoice :
  invoices st !! id = Some invoice ->
  (snd (invoiceController.cancelInvoice rq id why st) = fail CannotCancelPaidDocument
   <-> Invoice.status invoice = Invoice.paid)
  /\ (Invoice.status invoice <> Invoice.paid ->
      snd (invoiceController.cancelInvoice rq id why st) = ok).
Proof.
  intros Hi. unfold invoiceController.cancelInvoice. rewrite Hi.
  destruct (decide _) as [Hp|Hp]; simpl; split; try tauto; split; congruence.
Qed.

Lemma cancelPurchase_rejected_iff_paid rq id why st purchase :
  purchases st !! id = Some purchase ->
  (snd (purchaseController.cancelPurchase rq id why st) = fail CannotCancelPaidDocument
   <-> Purchase.status purchase = Purchase.paid)
  /\ (Purchase.status purchase <> Purchase.paid ->
      snd (purchaseController.cancelPurchase rq id why st) = ok).
Proof.
  intros Hi. unfold purchaseController.cancelPurchase. rewrite Hi.
  destruct (decide _) as [Hp|Hp]; simpl; split; try tauto; split; congruence.
Qed.

(* on a document whose stored status is 'cancelled', confirm, receive and
   payment are rejected, and cancel is accepted again *)
Lemma cancelled_invoice_requests rq id body why st invoice :
  invoices st !! id = Some invoice ->
  Invoice.status invoice = Invoice.cancelled ->
  (exists e, invoiceController.confirmInvoice rq id st = (st, fail e))
  /\ (exists e, invoiceController.recordPayment rq id body st = (st, fail e))
  /\ snd (invoiceController.cancelInvoice rq id why st) = ok.
Proof.
  intros Hi Hs. repeat split.
  - unfold invoiceController.confirmInvoice. rewrite Hi.
    destruct (decide _) as [|Hd]; [eauto|]. exfalso. apply Hd. congruence.
  - unfold invoiceController.recordPayment. rewrite Hi.
    destruct (decide _); [eauto|contradiction].
  - unfold invoiceController.cancelInvoice. rewrite Hi.
    destruct (decide _); [congruence|reflexivity].
Qed.

(** C5 on an invoice of 1000 for 5 units, 20 in stock.  Confirmed, paid 400
    and cancelled: the stored status is 'partial', not 'cancelled', and a
    further payment of 600 is accepted and makes it 'paid'.  Confirmed and
    cancelled unpaid: the stored status is 'cancelled', yet a second cancel is
    accepted and returns the 5 units a second time (stock 25). *)
Theorem cancellation_is_not_terminal :
  let confirmed := fst (invoiceController.confirmInvoice Sample.rq 10 Sample.stocked) in
  let part_paid := fst (invoiceController.recordPayment Sample.rq 10 (Sample.pay 400)
                          confirmed) in
  let cancel1 := invoiceController.cancelInvoice Sample.rq 10 (Some "order withdrawn"%string)
                   part_paid in
  let pay2 := invoiceController.recordPayment Sample.rq 10 (Sample.pay 600) (fst cancel1) in
  let cancel2 := invoiceController.cancelInvoice Sample.rq 10 None confirmed in
  let cancel3 := invoiceController.cancelInvoice Sample.rq 10 None (fst cancel2) in
  (Invoice.status <$> invoices part_paid !! 10%nat) = Some Invoice.partial
  /\ snd cancel1 = ok
  /\ (Invoice.status <$> invoices (fst cancel1) !! 10%nat) = Some Invoice.partial
  /\ snd pay2 = ok
  /\ (Invoice.status <$> invoices (fst pay2) !! 10%nat) = Some Invoice.paid
  /\ snd cancel2 = ok
  /\ (Invoice.status <$> invoices (fst cancel2) !! 10%nat) = Some Invoice.cancelled
  /\ (Product.currentStock <$> products (fst cancel2) !! 1%nat) = Some 20
  /\ snd cancel3 = ok
  /\ (Product.currentStock <$> products (fst cancel3) !! 1%nat) = Some 25.
Proof. vm_compute. repeat split; reflexivity. Qed.

(* the same hook overrides the status of a cancelled, partly paid purchase *)
Lemma cancelled_purchase_stays_partial :
  let received := fst (purchaseController.receivePurchase Sample.rq 20 Sample.supplied) in
  let part_paid := fst (purchaseController.recordPayment Sample.rq 20
                          (Sample.ppay 30 bank_transfer) received) in
  let cancel1 := purchaseController.cancelPurchase Sample.rq 20 None part_paid in
  snd cancel1 = ok
  /\ (Purchase.status <$> purchases (fst cancel1) !! 20%nat) = Some Purchase.partial.
Proof. vm_compute. split; reflexivity. Qed.

(** ** C8: converting a quotation *)

Lemma Invoice_pre_save_unpaid today d :
  Invoice.amountPaid d <= 0 ->
  Invoice.status (Invoice.pre_save today d) = Invoice.status d
  /\ Invoice.quotation (Invoice.pre_save today d) = Invoice.quotation d.
Proof.
  intros Hp. unfold Invoice.pre_save. split.
  - destruct (Invoice_updateStatus_status today (Invoice.calculateTotals d)) as (_ & _ & ->).
    + apply Invoice_calculateTotals_frame.
    + destruct (Invoice_calculateTotals_frame d) as (_ & -> & _). exact Hp.
  - unfold Invoice.updateStatus, Invoice.calculateTotals.
    destruct (Invoice.items d);
      (destruct (_ && _); [destruct (Invoice.paidDate _)|destruct (_ && _)]); reflexivity.
Qed.






(** ** C7: ledger entries *)

Lemma link_frozen ms ms' :
  map frozen ms = map frozen ms' -> map link ms = map link ms'.
Proof.
  revert ms'. induction ms as [|m ms IH]; intros [|m' ms'] H; try discriminate;
    [reflexivity|].
  simpl in H. injection H as H1 H2 H3 H4 H5 H6 H7 H8 H9 H10 Hr.
  simpl. rewrite (IH _ Hr). unfold link. congruence.
Qed.

Lemma last_newStock_snoc pid ls pid' previousStock newStock :
  last_newStock pid (ls ++ [(pid', previousStock, newStock)])
  = if decide (pid' = pid) then Some newStock else last_newStock pid ls.
Proof.
  unfold last_newStock. rewrite filter_app.
  destruct (decide (pid' = pid)) as [Heq|Hne].
  - rewrite filter_cons_True by exact Heq. rewrite filter_nil, last_snoc. reflexivity.
  - rewrite filter_cons_False by exact Hne. rewrite filter_nil, app_nil_r. reflexivity.
Qed.

Lemma grows_refl st : grows st st.
Proof. split; [exists []; rewrite app_nil_r; auto|auto]. Qed.

Lemma grows_trans st1 st2 st3 : grows st1 st2 -> grows st2 st3 -> grows st1 st3.
Proof.
  intros [(n1 & H1 & F1) C1] [(n2 & H2 & F2) C2]. split; [|auto].
  exists (n1 ++ n2). rewrite H2, H1, map_app, app_assoc. split; [reflexivity|].
  apply Forall_app; auto.
Qed.

(* writes outside products and ledger *)
Lemma grows_frame st st' :
  products st' = products st -> movements st' = movements st -> grows st st'.
Proof.
  intros Hp Hm. split.
  - exists []. rewrite Hm, app_nil_r. auto.
  - unfold ledger_consistent. rewrite Hp, Hm. auto.
Qed.

(* one ledger entry and the matching product update *)
Lemma grows_record st pid p p' m :
  products st !! pid = Some p ->
  StockMovement.product m = pid ->
  StockMovement.previousStock m = Product.currentStock p ->
  Product.currentStock p' = StockMovement.newStock m ->
  arithmetic m ->
  grows st (Product_save pid p' (StockMovement_create m st)).
Proof.
  intros Hp Hpid Hprev Hnew Ha. split.
  - exists [StockMovement.set__id (nextId st) m]. store_simpl. rewrite map_app.
    split; [reflexivity|]. constructor; [exact Ha|constructor].
  - intros [Hch Htip]. unfold ledger_consistent. store_simpl.
    rewrite map_app. cbn [map].
    assert (Hl : link (StockMovement.set__id (nextId st) m)
                 = (pid, StockMovement.previousStock m, StockMovement.newStock m))
      by (unfold link; simpl; rewrite Hpid; reflexivity).
    rewrite Hl. split.
    + constructor; [exact Hch|]. intros s Hs. rewrite Hprev. eapply Htip; eassumption.
    + intros pid' p'' s Hp'' Hs. rewrite last_newStock_snoc in Hs.
      destruct (decide (pid = pid')) as [<-|Hne].
      * rewrite lookup_insert_eq in Hp''. injection Hp'' as <-. injection Hs as <-.
        exact Hnew.
      * rewrite lookup_insert_ne in Hp'' by exact Hne. eapply Htip; eassumption.
Qed.

Lemma grows_fold {A} (body : State -> A -> State) xs :
  (forall st x, grows st (body st x)) ->
  forall st, grows st (fold_left body xs st).
Proof.
  intros Hb. induction xs as [|x xs IH]; intros st; simpl; [apply grows_refl|].
  eapply grows_trans; [apply Hb|apply IH].
Qed.

Lemma grows_for_of {A} (body : State -> A -> State * option Error) xs :
  (forall st x, grows st (fst (body st x))) ->
  forall st, grows st (fst (for_of body st xs)).
Proof.
  intros Hb. induction xs as [|x xs IH]; intros st; simpl; [apply grows_refl|].
  specialize (Hb st x). destruct (body st x) as [st1 [e|]]; simpl in *; [exact Hb|].
  eapply grows_trans; [exact Hb|apply IH].
Qed.

(* split a request at the end of its loop over the lines *)
Ltac after_loop :=
  match goal with
  | |- grows ?st ?st' =>
    match st' with
    | context [fold_left ?body ?xs st] => apply (grows_trans st (fold_left body xs st))
    end
  end.

(* each loop body writes one entry, or nothing *)
Lemma confirm_item_grows rq id invoice st item :
  grows st (fst (invoiceController.confirm_item rq id invoice st item)).
Proof.
  unfold invoiceController.confirm_item.
  destruct (products st !! _) as [p|] eqn:Hp; [|apply grows_refl].
  destruct (Qltb _ _); [apply grows_refl|].
  simpl. eapply grows_record; [exact Hp|reflexivity..].
Qed.

Lemma deduct_item_grows rq id invoice st item :
  grows st (invoiceController.deduct_item rq id invoice st item).
Proof.
  unfold invoiceController.deduct_item.
  destruct (products st !! _) as [p|] eqn:Hp; [|apply grows_refl].
  destruct (Qgeb _ _); [|apply grows_refl].
  eapply grows_record; [exact Hp|reflexivity..].
Qed.

Lemma invoice_reverse_item_grows rq id invoice st item :
  grows st (invoiceController.reverse_item rq id invoice st item).
Proof.
  unfold invoiceController.reverse_item.
  destruct (products st !! _) as [p|] eqn:Hp; [|apply grows_refl].
  eapply grows_record; [exact Hp|reflexivity..].
Qed.

Lemma receive_item_grows rq id purchase st item :
  grows st (purchaseController.receive_item rq id purchase st item).
Proof.
  unfold purchaseController.receive_item.
  destruct (products st !! _) as [p|] eqn:Hp; [|apply grows_refl].
  eapply grows_record; [exact Hp|reflexivity|reflexivity| |reflexivity].
  destruct (Qeq_bool _ 0); reflexivity.
Qed.

Lemma add_item_grows rq id purchase st item :
  grows st (purchaseController.add_item rq id purchase st item).
Proof.
  unfold purchaseController.add_item.
  destruct (products st !! _) as [p|] eqn:Hp; [|apply grows_refl].
  eapply grows_record; [exact Hp|reflexivity|reflexivity| |reflexivity].
  destruct (Qeq_bool _ 0); reflexivity.
Qed.

Lemma purchase_reverse_item_grows rq id purchase st item :
  grows st (purchaseController.reverse_item rq id purchase st item).
Proof.
  unfold purchaseController.reverse_item.
  destruct (products st !! _) as [p|] eqn:Hp; [|apply grows_refl].
  eapply grows_record; [exact Hp|reflexivity..].
Qed.

Lemma receiveStock_grows rq body st :
  grows st (fst (stockController.receiveStock rq body st)).
Proof.
  unfold stockController.receiveStock.
  destruct (products st !! _) as [p|] eqn:Hp; [|apply grows_refl].
  cbv zeta. eapply grows_trans.
  - eapply (grows_record st _ p
              (stockController.received_product rq body
                 (Product.currentStock p + stockController.rb_quantity body) p)
              (stockController.receipt rq body (Product.currentStock p)
                 (Product.currentStock p + stockController.rb_quantity body)));
      [exact Hp|reflexivity|reflexivity| |reflexivity].
    unfold stockController.received_product.
    destruct (stockController.rb_supplier body); reflexivity.
  - apply grows_frame;
      (destruct (stockController.rb_supplier body); [|reflexivity]; simpl;
       destruct (suppliers _ !! _); reflexivity).
Qed.

Lemma adjustStock_grows rq body st :
  grows st (fst (stockController.adjustStock rq body st)).
Proof.
  unfold stockController.adjustStock.
  destruct (negb _); [apply grows_refl|].
  destruct (products st !! _) as [p|] eqn:Hp; [|apply grows_refl].
  destruct (String.eqb _ "in").
  - simpl. eapply grows_record; [exact Hp|reflexivity..|]. left. reflexivity.
  - destruct (String.eqb _ "out"); [|apply grows_refl].
    destruct (Qgtb _ _); [apply grows_refl|].
    simpl. eapply grows_record; [exact Hp|reflexivity..|]. right. reflexivity.
Qed.

Lemma updateStockMovement_grows id body st :
  grows st (fst (stockController.updateStockMovement id body st)).
Proof.
  destruct (updateStockMovement_ledger id body st) as (Hf & _ & Hp).
  split.
  - exists []. rewrite Hf, app_nil_r. auto.
  - unfold ledger_consistent. rewrite Hp, (link_frozen _ _ Hf). auto.
Qed.

Lemma confirmInvoice_grows rq id st :
  grows st (fst (invoiceController.confirmInvoice rq id st)).
Proof.
  unfold invoiceController.confirmInvoice.
  destruct (invoices st !! id) as [invoice|]; [|apply grows_refl].
  destruct (decide _); [apply grows_refl|].
  pose proof (grows_for_of _ (Invoice.items invoice)
                (confirm_item_grows rq id invoice) st) as Hl.
  destruct (for_of _ _ _) as [sta [e|]]; simpl in Hl; [exact Hl|].
  eapply grows_trans; [exact Hl|]. cbv zeta. hide_saved.
  apply grows_frame;
    (destruct (Invoice.quotation saved) as [qid|]; [destruct (quotations _ !! qid)|];
     simpl; destruct (clients _ !! _); reflexivity).
Qed.

Lemma invoice_recordPayment_grows rq id body st :
  grows st (fst (invoiceController.recordPayment rq id body st)).
Proof.
  unfold invoiceController.recordPayment.
  destruct (invoices st !! id) as [invoice|]; [|apply grows_refl].
  destruct (decide _); [apply grows_refl|].
  destruct (Qgtb _ _); [apply grows_refl|].
  cbv zeta. destruct (_ && _).
  - after_loop; [apply grows_fold; intros; apply deduct_item_grows|].
    hide_saved. apply grows_frame; simpl; destruct (clients _ !! _); reflexivity.
  - hide_saved. apply grows_frame; simpl; destruct (clients _ !! _); reflexivity.
Qed.

Lemma cancelInvoice_grows rq id why st :
  grows st (fst (invoiceController.cancelInvoice rq id why st)).
Proof.
  unfold invoiceController.cancelInvoice.
  destruct (invoices st !! id) as [invoice|]; [|apply grows_refl].
  destruct (decide _); [apply grows_refl|].
  cbv zeta. hide_saved. eapply grows_trans.
  - instantiate (1 := if Invoice.stockDeducted invoice
                      then fold_left (invoiceController.reverse_item rq id invoice)
                             (Invoice.items invoice) st
                      else st).
    destruct (Invoice.stockDeducted invoice);
      [apply grows_fold; intros; apply invoice_reverse_item_grows|apply grows_refl].
  - apply grows_frame; simpl; destruct (clients _ !! _); reflexivity.
Qed.

Lemma receivePurchase_grows rq id st :
  grows st (fst (purchaseController.receivePurchase rq id st)).
Proof.
  unfold purchaseController.receivePurchase.
  destruct (purchases st !! id) as [purchase|]; [|apply grows_refl].
  destruct (decide _); [apply grows_refl|].
  cbv zeta. hide_saved.
  after_loop; [apply grows_fold; intros; apply receive_item_grows|].
  apply grows_frame; unfold Supplier_findById; simpl;
    destruct (suppliers _ !! _); reflexivity.
Qed.

Lemma purchase_recordPayment_grows rq id body st :
  grows st (fst (purchaseController.recordPayment rq id body st)).
Proof.
  unfold purchaseController.recordPayment.
  destruct (purchases st !! id) as [purchase|]; [|apply grows_refl].
  destruct (decide _); [apply grows_refl|].
  destruct (Qgtb _ _); [apply grows_refl|].
  cbv zeta. destruct (_ && _ && _).
  - after_loop; [apply grows_fold; intros; apply add_item_grows|].
    hide_saved. apply grows_frame; unfold Supplier_findById; simpl;
      destruct (suppliers _ !! _); reflexivity.
  - hide_saved. apply grows_frame; unfold Supplier_findById; simpl;
      destruct (suppliers _ !! _); reflexivity.
Qed.

Lemma cancelPurchase_grows rq id why st :
  grows st (fst (purchaseController.cancelPurchase rq id why st)).
Proof.
  unfold purchaseController.cancelPurchase.
  destruct (purchases st !! id) as [purchase|]; [|apply grows_refl].
  destruct (decide _); [apply grows_refl|].
  cbv zeta. hide_saved. eapply grows_trans.
  - instantiate (1 := if Purchase.stockAdded purchase
                      then fold_left (purchaseController.reverse_item rq id purchase)
                             (Purchase.items purchase) st
                      else st).
    destruct (Purchase.stockAdded purchase);
      [apply grows_fold; intros; apply purchase_reverse_item_grows|apply grows_refl].
  - apply grows_frame; unfold Supplier_findById; simpl;
      destruct (suppliers _ !! _); reflexivity.
Qed.

Lemma quotation_requests_grow rq id dueDate st :
  grows st (fst (quotationController.approveQuotation rq id st))
  /\ grows st (fst (quotationController.convertToInvoice rq id dueDate st)).
Proof.
  unfold quotationController.approveQuotation, quotationController.convertToInvoice.
  destruct (quotations st !! id) as [q|]; [|split; apply grows_refl].
  split.
  - destruct (decide _); [apply grows_refl|]. apply grows_frame; reflexivity.
  - destruct (decide _); [apply grows_refl|].
    destruct (bool_decide _); [apply grows_refl|]. apply grows_frame; reflexivity.
Qed.

(** C7, as the code has it.  Every request other than [deleteStockMovement]
    only appends to the ledger (the stock figures of the entries already there
    are untouched), and each entry it appends satisfies: inbound,
    [newStock = previousStock + quantity]; outbound,
    [newStock = previousStock - quantity], except the reversal written by
    [cancelPurchase], where [newStock = max 0 (previousStock - quantity)]; a
    stock adjustment adds or subtracts its quantity.  Such a request keeps the
    ledger consistent: per product, each entry's [previousStock] is the
    [newStock] of the entry before it, and the last [newStock] is the product's
    [currentStock]. *)
Theorem ledger_grows_consistently rq op st :
  (forall id, op <> DeleteStockMovement id) ->
  let st' := fst (handle rq op st) in
  (exists new,
     map frozen (movements st') = map frozen (movements st) ++ map frozen new
     /\ Forall arithmetic new)
  /\ (ledger_consistent st -> ledger_consistent st').
Proof.
  intros Hop. change (grows st (fst (handle rq op st))). destruct op; simpl.
  - apply receiveStock_grows.
  - apply adjustStock_grows.
  - exfalso. eapply Hop. reflexivity.
  - apply updateStockMovement_grows.
  - apply confirmInvoice_grows.
  - apply invoice_recordPayment_grows.
  - apply cancelInvoice_grows.
  - apply receivePurchase_grows.
  - apply purchase_recordPayment_grows.
  - apply cancelPurchase_grows.
  - apply (quotation_requests_grow rq id None st).
  - apply (quotation_requests_grow rq id dueDate st).
Qed.

Lemma empty_ledger_consistent st : movements st = [] -> ledger_consistent st.
Proof.
  intros Hm. unfold ledger_consistent. rewrite Hm. split; [constructor|].
  intros pid p s _ Hs. discriminate.
Qed.

(** C7 as stated fails on the reversal of a purchase.  10 units are received
    on top of 10, 17 are written off, and the purchase is cancelled: the
    outbound entry goes from 3 to 0 with quantity 10. *)
Lemma cancelPurchase_entry_is_floored :
  let received := fst (purchaseController.receivePurchase Sample.rq 20 Sample.supplied) in
  let damaged := fst (stockController.adjustStock Sample.rq
                        (stockController.mkAdjustBody 1 17 damage "out" None) received) in
  let cancelled := purchaseController.cancelPurchase Sample.rq 20 None damaged in
  snd cancelled = ok
  /\ match last (movements (fst cancelled)) with
     | Some m =>
       StockMovement.type m = mt_out
       /\ StockMovement.quantity m = 10
       /\ StockMovement.previousStock m = 3
       /\ StockMovement.newStock m = 0
       /\ ~ StockMovement.newStock m
            == StockMovement.previousStock m - StockMovement.quantity m
     | None => False
     end.
Proof. vm_compute. repeat split; try reflexivity. discriminate. Qed.

(** A confirmation on the sample shop keeps the ledger consistent. *)
Lemma ledger_grows_consistently_witness :
  ledger_consistent (fst (handle Sample.rq (ConfirmInvoice 10) Sample.stocked)).
Proof.
  refine (proj2 (ledger_grows_consistently Sample.rq (ConfirmInvoice 10) Sample.stocked _) _).
  - intros id. discriminate.
  - apply empty_ledger_consistent. reflexivity.
Defined.

(* deleteStockMovement is the exception: deleting the first of two receipts
   sets the stock back to 10 while the remaining entry ends at 30 *)
Lemma deleteStockMovement_breaks_chain :
  let receive := stockController.receiveStock Sample.rq
                   (stockController.mkReceiveBody 1 10 7 None None None None None) in
  let st2 := fst (receive (fst (receive (Sample.depot 10 5 [])))) in
  let st3 := fst (stockController.deleteStockMovement 100 st2) in
  ledger_consistent st2
  /\ (Product.currentStock <$> products st3 !! 1%nat) = Some 10
  /\ map link (movements st3) = [(1%nat, 20, 30)]
  /\ ~ ledger_consistent st3.
Proof.
  cbv zeta. split; [|split; [|split]].
  - apply (proj2 (receiveStock_grows _ _ _)), (proj2 (receiveStock_grows _ _ _)).
    apply empty_ledger_consistent. reflexivity.
  - vm_compute. reflexivity.
  - vm_compute. reflexivity.
  - intros [_ Htip].
    specialize (Htip 1%nat (Product.set_currentStock 10
                              (stockController.received_product Sample.rq
                                 (stockController.mkReceiveBody 1 10 7 None None None None None)
                                 30
                                 (stockController.received_product Sample.rq
                                 (stockController.mkReceiveBody 1 10 7 None None None None None)
                                 20 (Sample.product "Portland Cement 50kg" 10 5)))) 30).
    assert (H : 10 = 30); [|discriminate].
    apply Htip; vm_compute; reflexivity.
Qed.

(** ** C6: stock moved by the first payment *)






(* one pass of the payment loop: one entry when the line finds stock, nothing
   otherwise *)
Lemma deduct_item_cases rq id invoice st item :
  let st' := invoiceController.deduct_item rq id invoice st item in
  match products st !! InvoiceItem.product item with
  | Some p =>
    if Qle_bool (InvoiceItem.quantity item) (Product.currentStock p)
    then length (movements st') = S (length (movements st))
         /\ stock_of st' (InvoiceItem.product item)
            = Some (Product.currentStock p - InvoiceItem.quantity item)
    else st' = st
  | None => st' = st
  end.
Proof.
  unfold invoiceController.deduct_item, Qgeb, stock_of.
  destruct (products st !! InvoiceItem.product item) as [p|]; [|reflexivity].
  destruct (Qle_bool _ _); [|reflexivity]. store_simpl.
  rewrite length_app, lookup_insert_eq. simpl. split; [lia|reflexivity].
Qed.




(** ** The scenarios of the specification *)

(* stock 0; receive 10 at cost 5, then 10 at cost 7; sell 5; cancel the sale *)
Lemma scenario_stock :
  let receive q c := stockController.receiveStock Sample.rq
                       (stockController.mkReceiveBody 1 q c None None None None None) in
  let st1 := fst (receive 10 5 (Sample.shop 0 0 [Sample.line 1 5 200 0 TaxA 0])) in
  let st2 := fst (receive 10 7 st1) in
  let st3 := fst (invoiceController.confirmInvoice Sample.rq 10 st2) in
  let st4 := fst (invoiceController.cancelInvoice Sample.rq 10 None st3) in
  let avg st := match products st !! 1%nat with
                | Some p => Qred (Product.averageCost p)
                | None => 0
                end in
  stock_of st1 1 = Some 10 /\ avg st1 = 5
  /\ stock_of st2 1 = Some 20 /\ avg st2 = 6
  /\ stock_of st3 1 = Some 15
  /\ map (fun m => (StockMovement.type m, StockMovement.reason m,
                    StockMovement.previousStock m, StockMovement.newStock m))
       (drop 2 (movements st3)) = [(mt_out, sale, 20, 15)]
  /\ stock_of st4 1 = Some 20
  /\ map (fun m => (StockMovement.type m, StockMovement.reason m,
                    StockMovement.previousStock m, StockMovement.newStock m))
       (drop 3 (movements st4)) = [(mt_in, return_, 15, 20)].
Proof. vm_compute. repeat split; reflexivity. Qed.

(* an invoice of 1000: pay 400, pay 600, then try to pay 1 more *)
Lemma scenario_payments :
  let st0 := fst (invoiceController.confirmInvoice Sample.rq 10 Sample.stocked) in
  let st1 := fst (invoiceController.recordPayment Sample.rq 10 (Sample.pay 400) st0) in
  let st2 := fst (invoiceController.recordPayment Sample.rq 10 (Sample.pay 600) st1) in
  let third := invoiceController.recordPayment Sample.rq 10 (Sample.pay 1) st2 in
  let view st := match invoices st !! 10%nat with
                 | Some d => Some (Invoice.status d, Qred (Invoice.balance d))
                 | None => None
                 end in
  view st1 = Some (Invoice.partial, 600)
  /\ view st2 = Some (Invoice.paid, 0)
  /\ third = (st2, fail PaymentExceedsBalance).
Proof. vm_compute. repeat split; reflexivity. Qed.

(** * Further properties *)

(* compute the record operations of a document, and nothing else *)
Ltac invoice_fields :=
  cbv beta iota zeta delta
      [Invoice.calculateTotals
       Invoice.invoiceNumber Invoice.client Invoice.quotation Invoice.status
       Invoice.items Invoice.totalAEx Invoice.totalB18 Invoice.totalTaxA
       Invoice.totalTaxB Invoice.subtotal Invoice.totalDiscount Invoice.totalTax
       Invoice.grandTotal Invoice.roundedAmount Invoice.amountPaid Invoice.balance
       Invoice.payments Invoice.dueDate Invoice.terms Invoice.notes
       Invoice.stockDeducted Invoice.createdBy Invoice.paidDate Invoice.confirmedDate
       Invoice.confirmedBy Invoice.cancelledDate Invoice.cancelledBy
       Invoice.cancellationReason Invoice.set_invoiceNumber Invoice.set_status
       Invoice.set_items Invoice.set_totalAEx Invoice.set_totalB18 Invoice.set_totalTaxA
       Invoice.set_totalTaxB Invoice.set_subtotal Invoice.set_totalDiscount
       Invoice.set_totalTax Invoice.set_grandTotal Invoice.set_roundedAmount
       Invoice.set_amountPaid Invoice.set_balance Invoice.set_payments
       Invoice.set_stockDeducted Invoice.set_paidDate Invoice.set_confirmedDate
       Invoice.set_confirmedBy Invoice.set_cancelledDate Invoice.set_cancelledBy
       Invoice.set_cancellationReason].

Ltac purchase_fields :=
  cbv beta iota zeta delta
      [Purchase.calculateTotals
       Purchase.purchaseNumber Purchase.supplier Purchase.status Purchase.items
       Purchase.totalAEx Purchase.totalB18 Purchase.totalTaxA Purchase.totalTaxB
       Purchase.subtotal Purchase.totalDiscount Purchase.totalTax Purchase.grandTotal
       Purchase.roundedAmount Purchase.amountPaid Purchase.balance Purchase.payments
       Purchase.receivedDate Purchase.terms Purchase.notes Purchase.stockAdded
       Purchase.createdBy Purchase.paidDate Purchase.confirmedDate Purchase.confirmedBy
       Purchase.cancelledDate Purchase.cancelledBy Purchase.cancellationReason
       Purchase.set_status Purchase.set_items Purchase.set_totalAEx
       Purchase.set_totalB18 Purchase.set_totalTaxA Purchase.set_totalTaxB
       Purchase.set_subtotal Purchase.set_totalDiscount Purchase.set_totalTax
       Purchase.set_grandTotal Purchase.set_roundedAmount Purchase.set_amountPaid
       Purchase.set_balance Purchase.set_payments Purchase.set_receivedDate
       Purchase.set_stockAdded Purchase.set_paidDate Purchase.set_confirmedDate
       Purchase.set_confirmedBy Purchase.set_cancelledDate Purchase.set_cancelledBy
       Purchase.set_cancellationReason].

(** ** The totals hooks, on their own *)

Lemma Invoice_accumulate_recalc items : forall acc,
  fold_left Invoice.accumulate (map Invoice.recalcItem items) acc
  = fold_left Invoice.accumulate items acc.
Proof.
  induction items as [|x xs IH]; intros acc; [reflexivity|]. simpl. rewrite <- IH.
  reflexivity.
Qed.

Lemma Invoice_recalc_recalc items :
  map Invoice.recalcItem (map Invoice.recalcItem items) = map Invoice.recalcItem items.
Proof. induction items as [|x xs IH]; simpl; [reflexivity|]. rewrite IH. reflexivity. Qed.

(* the assignments of the totals hook, field by field *)
Lemma Invoice_calculateTotals_fields d :
  Invoice.items d <> [] ->
  let d' := Invoice.calculateTotals d in
  let acc := fold_left Invoice.accumulate (Invoice.items d) (Invoice.mkTaxTotals 0 0 0 0) in
  Invoice.items d' = map Invoice.recalcItem (Invoice.items d)
  /\ Invoice.totalAEx d' = Invoice.accAEx acc /\ Invoice.totalB18 d' = Invoice.accB18 acc
  /\ Invoice.totalTaxA d' = Invoice.accTaxA acc /\ Invoice.totalTaxB d' = Invoice.accTaxB acc
  /\ Invoice.subtotal d'
     = fold_left (fun sum item => sum + InvoiceItem.subtotal item) (Invoice.items d') 0
  /\ Invoice.totalDiscount d'
     = fold_left (fun sum item => sum + InvoiceItem.discount item) (Invoice.items d') 0
  /\ Invoice.totalTax d' = Invoice.totalTaxA d' + Invoice.totalTaxB d'
  /\ Invoice.grandTotal d' = Invoice.subtotal d' - Invoice.totalDiscount d' + Invoice.totalTax d'
  /\ Invoice.roundedAmount d' = Math_round (Invoice.grandTotal d' * 100) / 100
  /\ Invoice.balance d' = Invoice.roundedAmount d' - Invoice.amountPaid d
  /\ Invoice.amountPaid d' = Invoice.amountPaid d
  /\ Invoice.payments d' = Invoice.payments d
  /\ Invoice.status d' = Invoice.status d.
Proof.
  destruct d as [? ? ? ? items ? ? ? ? ? ? ? ? ? ? ? ? ? ? ? ? ? ? ? ? ? ? ?].
  destruct items as [|x xs]; [intros H; contradiction|]. intros _.
  invoice_fields. repeat split; reflexivity.
Qed.

(* the totals depend on the lines only *)
Lemma Invoice_calculateTotals_idem d :
  Invoice.calculateTotals (Invoice.calculateTotals d) = Invoice.calculateTotals d.
Proof.
  destruct d as [? ? ? ? items ? ? ? ? ? ? ? ? ? ? ? ? ? ? ? ? ? ? ? ? ? ? ?].
  destruct items as [|x xs]; [reflexivity|].
  invoice_fields. cbn [map]. rewrite <- !map_cons.
  rewrite Invoice_recalc_recalc, Invoice_accumulate_recalc. reflexivity.
Qed.

Lemma Invoice_calculateTotals_set_status s d :
  Invoice.calculateTotals (Invoice.set_status s d) = Invoice.set_status s (Invoice.calculateTotals d).
Proof.
  destruct d as [? ? ? ? items ? ? ? ? ? ? ? ? ? ? ? ? ? ? ? ? ? ? ? ? ? ? ?].
  destruct items; reflexivity.
Qed.

Lemma Invoice_calculateTotals_set_paidDate o d :
  Invoice.calculateTotals (Invoice.set_paidDate o d) = Invoice.set_paidDate o (Invoice.calculateTotals d).
Proof.
  destruct d as [? ? ? ? items ? ? ? ? ? ? ? ? ? ? ? ? ? ? ? ? ? ? ? ? ? ? ?].
  destruct items; reflexivity.
Qed.

Lemma Invoice_calculateTotals_updateStatus today d :
  Invoice.calculateTotals d = d ->
  Invoice.calculateTotals (Invoice.updateStatus today d) = Invoice.updateStatus today d.
Proof.
  intros H. unfold Invoice.updateStatus.
  destruct (_ && _); [cbv zeta; destruct (Invoice.paidDate _)|destruct (_ && _)];
    rewrite ?Invoice_calculateTotals_set_paidDate, ?Invoice_calculateTotals_set_status, ?H;
    reflexivity.
Qed.

Lemma Invoice_updateStatus_idem today later d :
  Invoice.updateStatus later (Invoice.updateStatus today d) = Invoice.updateStatus today d.
Proof.
  destruct d as [? ? ? ? items ? ? ? ? ? ? ? ? ? ? ? ? ? ? ? ? ? ? ? ? ? ? ?].
  unfold Invoice.updateStatus. invoice_fields.
  destruct (Qgeb amountPaid roundedAmount && Qgtb roundedAmount 0) eqn:E1.
  - destruct paidDate; invoice_fields; rewrite E1; reflexivity.
  - destruct (Qgtb amountPaid 0 && Qltb amountPaid roundedAmount) eqn:E2;
      invoice_fields; rewrite E1, ?E2; reflexivity.
Qed.

(** X1.  Saving a stored document again changes nothing: the hook applied to
    its own result, at any later time, returns that result. *)
Theorem Invoice_pre_save_idempotent today later d :
  Invoice.pre_save later (Invoice.pre_save today d) = Invoice.pre_save today d.
Proof.
  unfold Invoice.pre_save.
  rewrite Invoice_calculateTotals_updateStatus by apply Invoice_calculateTotals_idem.
  apply Invoice_updateStatus_idem.
Qed.

Lemma Purchase_accumulate_recalc items : forall acc,
  fold_left Purchase.accumulate (map Purchase.recalcItem items) acc
  = fold_left Purchase.accumulate items acc.
Proof.
  induction items as [|x xs IH]; intros acc; [reflexivity|]. simpl. rewrite <- IH.
  reflexivity.
Qed.

Lemma Purchase_recalc_recalc items :
  map Purchase.recalcItem (map Purchase.recalcItem items) = map Purchase.recalcItem items.
Proof. induction items as [|x xs IH]; simpl; [reflexivity|]. rewrite IH. reflexivity. Qed.

(* the assignments of the totals hook, field by field *)
Lemma Purchase_calculateTotals_fields d :
  Purchase.items d <> [] ->
  let d' := Purchase.calculateTotals d in
  let acc := fold_left Purchase.accumulate (Purchase.items d) (Purchase.mkTaxTotals 0 0 0 0) in
  Purchase.items d' = map Purchase.recalcItem (Purchase.items d)
  /\ Purchase.totalAEx d' = Purchase.accAEx acc /\ Purchase.totalB18 d' = Purchase.accB18 acc
  /\ Purchase.totalTaxA d' = Purchase.accTaxA acc /\ Purchase.totalTaxB d' = Purchase.accTaxB acc
  /\ Purchase.subtotal d'
     = fold_left (fun sum item => sum + PurchaseItem.subtotal item) (Purchase.items d') 0
  /\ Purchase.totalDiscount d'
     = fold_left (fun sum item => sum + PurchaseItem.discount item) (Purchase.items d') 0
  /\ Purchase.totalTax d' = Purchase.totalTaxA d' + Purchase.totalTaxB d'
  /\ Purchase.grandTotal d' = Purchase.subtotal d' - Purchase.totalDiscount d' + Purchase.totalTax d'
  /\ Purchase.roundedAmount d' = Math_round (Purchase.grandTotal d' * 100) / 100
  /\ Purchase.balance d' = Purchase.roundedAmount d' - Purchase.amountPaid d
  /\ Purchase.amountPaid d' = Purchase.amountPaid d
  /\ Purchase.payments d' = Purchase.payments d
  /\ Purchase.status d' = Purchase.status d.
Proof.
  destruct d as [? ? ? items ? ? ? ? ? ? ? ? ? ? ? ? ? ? ? ? ? ? ? ? ? ? ?].
  destruct items as [|x xs]; [intros H; contradiction|]. intros _.
  purchase_fields. repeat split; reflexivity.
Qed.

(* the totals depend on the lines only *)
Lemma Purchase_calculateTotals_idem d :
  Purchase.calculateTotals (Purchase.calculateTotals d) = Purchase.calculateTotals d.
Proof.
  destruct d as [? ? ? items ? ? ? ? ? ? ? ? ? ? ? ? ? ? ? ? ? ? ? ? ? ? ?].
  destruct items as [|x xs]; [reflexivity|].
  purchase_fields. cbn [map]. rewrite <- !map_cons.
  rewrite Purchase_recalc_recalc, Purchase_accumulate_recalc. reflexivity.
Qed.

Lemma Purchase_calculateTotals_set_status s d :
  Purchase.calculateTotals (Purchase.set_status s d) = Purchase.set_status s (Purchase.calculateTotals d).
Proof.
  destruct d as [? ? ? items ? ? ? ? ? ? ? ? ? ? ? ? ? ? ? ? ? ? ? ? ? ? ?].
  destruct items; reflexivity.
Qed.

Lemma Purchase_calculateTotals_set_paidDate o d :
  Purchase.calculateTotals (Purchase.set_paidDate o d) = Purchase.set_paidDate o (Purchase.calculateTotals d).
Proof.
  destruct d as [? ? ? items ? ? ? ? ? ? ? ? ? ? ? ? ? ? ? ? ? ? ? ? ? ? ?].
  destruct items; reflexivity.
Qed.

Lemma Purchase_calculateTotals_updateStatus today d :
  Purchase.calculateTotals d = d ->
  Purchase.calculateTotals (Purchase.updateStatus today d) = Purchase.updateStatus today d.
Proof.
  intros H. unfold Purchase.updateStatus.
  destruct (_ && _); [cbv zeta; destruct (Purchase.paidDate _)|destruct (_ && _)];
    rewrite ?Purchase_calculateTotals_set_paidDate, ?Purchase_calculateTotals_set_status, ?H;
    reflexivity.
Qed.

Lemma Purchase_updateStatus_idem today later d :
  Purchase.updateStatus later (Purchase.updateStatus today d) = Purchase.updateStatus today d.
Proof.
  destruct d as [? ? ? items ? ? ? ? ? ? ? ? ? ? ? ? ? ? ? ? ? ? ? ? ? ? ?].
  unfold Purchase.updateStatus. purchase_fields.
  destruct (Qgeb amountPaid roundedAmount && Qgtb roundedAmount 0) eqn:E1.
  - destruct paidDate; purchase_fields; rewrite E1; reflexivity.
  - destruct (Qgtb amountPaid 0 && Qltb amountPaid roundedAmount) eqn:E2;
      purchase_fields; rewrite E1, ?E2; reflexivity.
Qed.

(** X2.  Saving a stored document again changes nothing: the hook applied to
    its own result, at any later time, returns that result. *)
Theorem Purchase_pre_save_idempotent today later d :
  Purchase.pre_save later (Purchase.pre_save today d) = Purchase.pre_save today d.
Proof.
  unfold Purchase.pre_save.
  rewrite Purchase_calculateTotals_updateStatus by apply Purchase_calculateTotals_idem.
  apply Purchase_updateStatus_idem.
Qed.

(** ** Sums over the lines *)

Lemma Qsum_nil {A} (f : A -> Q) : Qsum f [] = 0.
Proof. reflexivity. Qed.

Lemma Qsum_cons {A} (f : A -> Q) x xs : Qsum f (x :: xs) = f x + Qsum f xs.
Proof. reflexivity. Qed.

Lemma Qsum_app {A} (f : A -> Q) xs ys : Qsum f (xs ++ ys) == Qsum f xs + Qsum f ys.
Proof.
  induction xs as [|x xs IH]; rewrite ?app_nil_l, <- ?app_comm_cons, ?Qsum_cons, ?Qsum_nil.
  - ring.
  - rewrite IH. ring.
Qed.


(** ** The totals, line by line *)

Lemma Invoice_updateStatus_keeps today d :
  let d' := Invoice.updateStatus today d in
  Invoice.items d' = Invoice.items d
  /\ Invoice.totalAEx d' = Invoice.totalAEx d /\ Invoice.totalB18 d' = Invoice.totalB18 d
  /\ Invoice.totalTaxA d' = Invoice.totalTaxA d /\ Invoice.totalTaxB d' = Invoice.totalTaxB d
  /\ Invoice.subtotal d' = Invoice.subtotal d /\ Invoice.totalDiscount d' = Invoice.totalDiscount d
  /\ Invoice.totalTax d' = Invoice.totalTax d /\ Invoice.grandTotal d' = Invoice.grandTotal d
  /\ Invoice.roundedAmount d' = Invoice.roundedAmount d /\ Invoice.balance d' = Invoice.balance d
  /\ Invoice.amountPaid d' = Invoice.amountPaid d /\ Invoice.payments d' = Invoice.payments d.
Proof.
  unfold Invoice.updateStatus.
  destruct (_ && _); [cbv zeta; destruct (Invoice.paidDate _)|destruct (_ && _)];
    repeat split; reflexivity.
Qed.





Lemma Purchase_updateStatus_keeps today d :
  let d' := Purchase.updateStatus today d in
  Purchase.items d' = Purchase.items d
  /\ Purchase.totalAEx d' = Purchase.totalAEx d /\ Purchase.totalB18 d' = Purchase.totalB18 d
  /\ Purchase.totalTaxA d' = Purchase.totalTaxA d /\ Purchase.totalTaxB d' = Purchase.totalTaxB d
  /\ Purchase.subtotal d' = Purchase.subtotal d /\ Purchase.totalDiscount d' = Purchase.totalDiscount d
  /\ Purchase.totalTax d' = Purchase.totalTax d /\ Purchase.grandTotal d' = Purchase.grandTotal d
  /\ Purchase.roundedAmount d' = Purchase.roundedAmount d /\ Purchase.balance d' = Purchase.balance d
  /\ Purchase.amountPaid d' = Purchase.amountPaid d /\ Purchase.payments d' = Purchase.payments d.
Proof.
  unfold Purchase.updateStatus.
  destruct (_ && _); [cbv zeta; destruct (Purchase.paidDate _)|destruct (_ && _)];
    repeat split; reflexivity.
Qed.




(** ** Stock received from a supplier *)




(* the entry just created is the one [findById] returns, and the only one
   [deleteOne] removes, when the store never gave its [_id] out before *)
Lemma find_fresh id m ms :
  Forall (fun m' => StockMovement._id m' <> id) ms ->
  StockMovement._id m = id ->
  find (fun m' => Nat.eqb (StockMovement._id m') id) (ms ++ [m]) = Some m.
Proof.
  intros Hf Hm. induction Hf as [|x xs Hx _ IH]; simpl.
  - rewrite Hm, Nat.eqb_refl. reflexivity.
  - destruct (Nat.eqb_spec (StockMovement._id x) id); [contradiction|exact IH].
Qed.

Lemma filter_fresh id m ms :
  Forall (fun m' => StockMovement._id m' <> id) ms ->
  StockMovement._id m = id ->
  filter (fun m' => StockMovement._id m' <> id) (ms ++ [m]) = ms.
Proof.
  intros Hf Hm. rewrite filter_app, filter_cons_False, filter_nil, app_nil_r.
  - induction Hf as [|x xs Hx _ IH]; [reflexivity|].
    rewrite filter_cons_True by exact Hx. rewrite IH. reflexivity.
  - intros H. apply H. exact Hm.
Qed.

(** X8.  Deleting the ledger entry of a receipt right after the receipt is
    accepted, takes the entry out of the ledger again and puts the stock of
    the product back to what it was; the average cost stays at the value the
    receipt blended, and the suppliers stay as the receipt left them.  (The
    [_id] the store hands out is assumed not to be in the ledger yet.) *)
Theorem receiveStock_then_delete rq body st p :
  products st !! stockController.rb_product body = Some p ->
  Forall (fun m => StockMovement._id m <> nextId st) (movements st) ->
  let st1 := fst (stockController.receiveStock rq body st) in
  let r := stockController.deleteStockMovement (nextId st) st1 in
  snd r = ok
  /\ movements (fst r) = movements st
  /\ suppliers (fst r) = suppliers st1
  /\ exists p',
       products (fst r) !! stockController.rb_product body = Some p'
       /\ Product.currentStock p' = Product.currentStock p
       /\ Product.averageCost p'
          = (Product.currentStock p * Product.averageCost p
             + stockController.rb_quantity body * stockController.rb_unitCost body)
            / (Product.currentStock p + stockController.rb_quantity body).
Proof.
  intros Hp Hfresh. cbv zeta.
  set (m := StockMovement.set__id (nextId st)
              (stockController.receipt rq body (Product.currentStock p)
                 (Product.currentStock p + stockController.rb_quantity body))).
  assert (Hm : movements (fst (stockController.receiveStock rq body st))
               = movements st ++ [m]).
  { unfold stockController.receiveStock. rewrite Hp. store_simpl.
    destruct (stockController.rb_supplier body); [destruct (suppliers st !! _)|];
      reflexivity. }
  pose proof (receiveStock_product rq body st p Hp) as Hp1.
  generalize dependent (fst (stockController.receiveStock rq body st)). intros st1 Hm Hp1.
  unfold stockController.deleteStockMovement, stockController.StockMovement_findById.
  rewrite Hm, (find_fresh _ m _ Hfresh eq_refl).
  change (StockMovement.product m) with (stockController.rb_product body).
  rewrite Hp1. store_simpl. rewrite Hm, (filter_fresh _ m _ Hfresh eq_refl).
  split; [reflexivity|]. split; [reflexivity|]. split; [reflexivity|].
  eexists. split; [apply lookup_insert_eq|].
  unfold stockController.received_product.
  destruct (stockController.rb_supplier body); split; reflexivity.
Qed.

Lemma receiveStock_then_delete_witness :
  let body := stockController.mkReceiveBody 1 10 7 None None None None None in
  let st1 := fst (stockController.receiveStock Sample.rq body (Sample.depot 10 5 [])) in
  let r := stockController.deleteStockMovement 100 st1 in
  snd r = ok
  /\ movements (fst r) = []
  /\ suppliers (fst r) = suppliers st1
  /\ exists p',
       products (fst r) !! 1%nat = Some p'
       /\ Product.currentStock p' = 10
       /\ Product.averageCost p' = (10 * 5 + 10 * 7) / (10 + 10).
Proof.
  refine (receiveStock_then_delete Sample.rq
            (stockController.mkReceiveBody 1 10 7 None None None None None)
            (Sample.depot 10 5 []) (Sample.product "Portland Cement 50kg" 10 5) _ _).
  - vm_compute. reflexivity.
  - constructor.
Defined.

(** X9.  A receipt that names a stored supplier links the two: the product
    is in the supplier's [productsSupplied] afterwards, once if the list had
    no duplicates, every product linked before is still linked, the
    supplier's [totalPurchases] rises by quantity times unit cost, and the
    product names the supplier. *)
Theorem receiveStock_links_supplier rq body st p sid s :
  products st !! stockController.rb_product body = Some p ->
  stockController.rb_supplier body = Some sid ->
  suppliers st !! sid = Some s ->
  let st' := fst (stockController.receiveStock rq body st) in
  exists s' p',
    suppliers st' !! sid = Some s'
    /\ products st' !! stockController.rb_product body = Some p'
    /\ Product.supplier p' = Some sid
    /\ stockController.rb_product body ∈ Supplier.productsSupplied s'
    /\ (forall pid, pid ∈ Supplier.productsSupplied s -> pid ∈ Supplier.productsSupplied s')
    /\ (NoDup (Supplier.productsSupplied s) -> NoDup (Supplier.productsSupplied s'))
    /\ Supplier.totalPurchases s'
       = Supplier.totalPurchases s
         + stockController.rb_quantity body * stockController.rb_unitCost body.
Proof.
  intros Hp Hsid Hs. cbv zeta.
  exists (stockController.supplying rq body s).
  exists (stockController.received_product rq body
            (Product.currentStock p + stockController.rb_quantity body) p).
  split; [|split; [apply receiveStock_product; exact Hp|]].
  { unfold stockController.receiveStock. rewrite Hp, Hsid. store_simpl.
    rewrite Hs. simpl. apply lookup_insert_eq. }
  split; [unfold stockController.received_product; rewrite Hsid; reflexivity|].
  unfold stockController.supplying.
  destruct (existsb _ _) eqn:E; simpl.
  - apply existsb_exists in E as (x & Hx & Heq). apply Nat.eqb_eq in Heq. subst x.
    repeat split; auto. apply list_elem_of_In. exact Hx.
  - repeat split.
    + apply elem_of_app. right. apply list_elem_of_singleton. reflexivity.
    + intros pid H. apply elem_of_app. left. exact H.
    + intros Hnd. apply NoDup_app. split; [exact Hnd|].
      split; [|apply NoDup_singleton].
      intros x Hx Hx'. apply list_elem_of_singleton in Hx'. subst x.
      apply list_elem_of_In in Hx.
      assert (existsb (Nat.eqb (stockController.rb_product body))
                (Supplier.productsSupplied s) = true); [|congruence].
      apply existsb_exists. exists (stockController.rb_product body).
      split; [exact Hx|apply Nat.eqb_refl].
Qed.

Lemma receiveStock_links_supplier_witness :
  let body := stockController.mkReceiveBody 1 10 7 (Some 3%nat) None None None None in
  let st' := fst (stockController.receiveStock Sample.rq body (Sample.depot 10 5 [])) in
  exists s' p',
    suppliers st' !! 3%nat = Some s'
    /\ products st' !! 1%nat = Some p'
    /\ Product.supplier p' = Some 3%nat
    /\ 1%nat ∈ Supplier.productsSupplied s'
    /\ (forall pid, pid ∈ @nil ObjectId -> pid ∈ Supplier.productsSupplied s')
    /\ (NoDup (@nil ObjectId) -> NoDup (Supplier.productsSupplied s'))
    /\ Supplier.totalPurchases s' = 0 + 10 * 7.
Proof.
  refine (receiveStock_links_supplier Sample.rq
            (stockController.mkReceiveBody 1 10 7 (Some 3%nat) None None None None)
            (Sample.depot 10 5 []) (Sample.product "Portland Cement 50kg" 10 5) 3%nat
            (Supplier.mk "ABC Building Supplies" [] 0 None) _ _ _).
  - vm_compute. reflexivity.
  - reflexivity.
  - vm_compute. reflexivity.
Defined.

(** ** Stock adjustments *)

(** X10.  An accepted adjustment of type 'out' takes the quantity off the
    stock and never leaves the stock below zero; it writes one ledger entry
    of type 'adjustment' that carries the quantity as sent, and touches
    neither the average cost nor any other product. *)
Theorem adjustStock_out_within_stock rq body st st' :
  stockController.adjustStock rq body st = (st', ok) ->
  stockController.ab_type body = "out"%string ->
  exists p,
    products st !! stockController.ab_product body = Some p
    /\ stockController.ab_quantity body <= Product.currentStock p
    /\ products st'
       = <[stockController.ab_product body :=
             Product.set_currentStock
               (Product.currentStock p - stockController.ab_quantity body) p]> (products st)
    /\ 0 <= Product.currentStock p - stockController.ab_quantity body
    /\ movements st'
       = movements st
         ++ [StockMovement.set__id (nextId st)
               (stockController.adjustment rq body (Product.currentStock p)
                  (Product.currentStock p - stockController.ab_quantity body))].
Proof.
  unfold stockController.adjustStock. intros H Ht. rewrite Ht in H.
  destruct (negb _); [discriminate|].
  destruct (products st !! _) as [p|]; [|discriminate].
  change (String.eqb "out" "in") with false in H.
  change (String.eqb "out" "out") with true in H. cbv iota in H.
  destruct (Qgtb _ _) eqn:E; [discriminate|]. apply Qgtb_false in E.
  injection H as <-. exists p. store_simpl.
  repeat split; [exact E|lra].
Qed.

Lemma adjustStock_out_within_stock_witness :
  let body := stockController.mkAdjustBody 1 4 damage "out" None in
  exists p,
    products (Sample.depot 10 5 []) !! 1%nat = Some p
    /\ 4 <= Product.currentStock p
    /\ products (fst (stockController.adjustStock Sample.rq body (Sample.depot 10 5 [])))
       = <[1%nat := Product.set_currentStock (Product.currentStock p - 4) p]>
           (products (Sample.depot 10 5 []))
    /\ 0 <= Product.currentStock p - 4
    /\ movements (fst (stockController.adjustStock Sample.rq body (Sample.depot 10 5 [])))
       = movements (Sample.depot 10 5 [])
         ++ [StockMovement.set__id 100%nat
               (stockController.adjustment Sample.rq body (Product.currentStock p)
                  (Product.currentStock p - 4))].
Proof.
  refine (adjustStock_out_within_stock Sample.rq
            (stockController.mkAdjustBody 1 4 damage "out" None)
            (Sample.depot 10 5 []) _ _ _).
  - vm_compute. reflexivity.
  - reflexivity.
Defined.





(** ** Payments against the rounded amount *)



Lemma Invoice_recordPayment_accepted rq id body st st' d :
  invoices st !! id = Some d ->
  invoiceController.recordPayment rq id body st = (st', ok) ->
  Invoice.status d <> Invoice.cancelled /\ invoiceController.body_amount body <= Invoice.balance d.
Proof.
  intros Hi. unfold invoiceController.recordPayment. rewrite Hi.
  destruct (decide _) as [|Hs]; [discriminate|].
  destruct (Qgtb _ _) eqn:E; [discriminate|]. intros _.
  split; [exact Hs|apply Qgtb_false; exact E].
Qed.






(** ** Amount paid and the payments on record *)

Lemma Invoice_pre_save_payments today d :
  Invoice.amountPaid (Invoice.pre_save today d) = Invoice.amountPaid d
  /\ Invoice.payments (Invoice.pre_save today d) = Invoice.payments d.
Proof.
  unfold Invoice.pre_save.
  destruct (Invoice_updateStatus_keeps today (Invoice.calculateTotals d))
    as (_ & _ & _ & _ & _ & _ & _ & _ & _ & _ & _ & -> & ->).
  destruct (Invoice.items d) eqn:E.
  - unfold Invoice.calculateTotals. rewrite E. auto.
  - destruct (Invoice_calculateTotals_fields d) as (_ & _ & _ & _ & _ & _ & _ & _ & _ & _ & _ & -> & -> & _);
      [rewrite E; discriminate|auto].
Qed.

Lemma Purchase_pre_save_payments today d :
  Purchase.amountPaid (Purchase.pre_save today d) = Purchase.amountPaid d
  /\ Purchase.payments (Purchase.pre_save today d) = Purchase.payments d.
Proof.
  unfold Purchase.pre_save.
  destruct (Purchase_updateStatus_keeps today (Purchase.calculateTotals d))
    as (_ & _ & _ & _ & _ & _ & _ & _ & _ & _ & _ & -> & ->).
  destruct (Purchase.items d) eqn:E.
  - unfold Purchase.calculateTotals. rewrite E. auto.
  - destruct (Purchase_calculateTotals_fields d) as (_ & _ & _ & _ & _ & _ & _ & _ & _ & _ & _ & -> & -> & _);
      [rewrite E; discriminate|auto].
Qed.

Lemma Invoice_books_saved today d d1 :
  Invoice_books d ->
  Invoice.amountPaid d1 = Invoice.amountPaid d ->
  Invoice.payments d1 = Invoice.payments d ->
  Invoice_books (Invoice.pre_save today d1).
Proof.
  unfold Invoice_books. intros H Ha Hp.
  destruct (Invoice_pre_save_payments today d1) as (-> & ->). rewrite Ha, Hp. exact H.
Qed.

Lemma Purchase_books_saved today d d1 :
  Purchase_books d ->
  Purchase.amountPaid d1 = Purchase.amountPaid d ->
  Purchase.payments d1 = Purchase.payments d ->
  Purchase_books (Purchase.pre_save today d1).
Proof.
  unfold Purchase_books. intros H Ha Hp.
  destruct (Purchase_pre_save_payments today d1) as (-> & ->). rewrite Ha, Hp. exact H.
Qed.

Lemma Invoice_books_paid today d d1 p :
  Invoice_books d ->
  Invoice.amountPaid d1 = Invoice.amountPaid d + amount p ->
  Invoice.payments d1 = Invoice.payments d ++ [p] ->
  Invoice_books (Invoice.pre_save today d1).
Proof.
  unfold Invoice_books. intros H Ha Hp.
  destruct (Invoice_pre_save_payments today d1) as (-> & ->).
  rewrite Ha, Hp, Qsum_app, H, Qsum_cons, Qsum_nil. ring.
Qed.

Lemma Purchase_books_paid today d d1 p :
  Purchase_books d ->
  Purchase.amountPaid d1 = Purchase.amountPaid d + amount p ->
  Purchase.payments d1 = Purchase.payments d ++ [p] ->
  Purchase_books (Purchase.pre_save today d1).
Proof.
  unfold Purchase_books. intros H Ha Hp.
  destruct (Purchase_pre_save_payments today d1) as (-> & ->).
  rewrite Ha, Hp, Qsum_app, H, Qsum_cons, Qsum_nil. ring.
Qed.

(* requests and loops that write neither invoices nor purchases *)
Lemma books_frame st st' :
  invoices st' = invoices st -> purchases st' = purchases st ->
  books_agree st -> books_agree st'.
Proof. unfold books_agree. intros -> ->. auto. Qed.

Lemma books_fold {A} (body : State -> A -> State) xs :
  (forall st x, invoices (body st x) = invoices st
                /\ purchases (body st x) = purchases st) ->
  forall st, invoices (fold_left body xs st) = invoices st
             /\ purchases (fold_left body xs st) = purchases st.
Proof.
  intros Hb. induction xs as [|x xs IH]; intros st; simpl; [auto|].
  destruct (IH (body st x)) as (-> & ->). apply Hb.
Qed.

Lemma books_put_invoice st id d :
  books_agree st -> Invoice_books d ->
  forall st', invoices st' = <[id := d]> (invoices st) ->
              purchases st' = purchases st -> books_agree st'.
Proof.
  intros [Hi Hp] Hd st' Ei Ep. split; [|rewrite Ep; exact Hp].
  rewrite Ei. apply map_Forall_insert_2; assumption.
Qed.

Lemma books_put_purchase st id d :
  books_agree st -> Purchase_books d ->
  forall st', purchases st' = <[id := d]> (purchases st) ->
              invoices st' = invoices st -> books_agree st'.
Proof.
  intros [Hi Hp] Hd st' Ep Ei. split; [rewrite Ei; exact Hi|].
  rewrite Ep. apply map_Forall_insert_2; assumption.
Qed.

Lemma confirmInvoice_books rq id st :
  books_agree st -> books_agree (fst (invoiceController.confirmInvoice rq id st)).
Proof.
  intros Hb. unfold invoiceController.confirmInvoice.
  destruct (invoices st !! id) as [invoice|] eqn:Hi; [|exact Hb].
  destruct (decide _); [exact Hb|].
  destruct (for_of _ _ _) as [sta [e|]] eqn:Hl;
    destruct (confirm_items_frame _ _ _ _ _ _ _ Hl) as (Ei & _ & _ & Ep & _);
    [exact (books_frame _ _ Ei Ep Hb)|].
  assert (Hd : Invoice_books
                 (Invoice.pre_save (now rq) (invoiceController.mark_confirmed rq invoice)))
    by (eapply Invoice_books_saved; [exact (proj1 Hb _ _ Hi)|reflexivity..]).
  cbv zeta. revert Hd. hide_saved. intros Hd.
  apply (books_put_invoice sta id saved (books_frame _ _ Ei Ep Hb) Hd);
    (destruct (Invoice.quotation saved) as [qid|]; [destruct (quotations _ !! qid)|];
     simpl; destruct (clients _ !! _); reflexivity).
Qed.

Lemma invoice_recordPayment_books rq id body st :
  books_agree st -> books_agree (fst (invoiceController.recordPayment rq id body st)).
Proof.
  intros Hb. unfold invoiceController.recordPayment.
  destruct (invoices st !! id) as [invoice|] eqn:Hi; [|exact Hb].
  destruct (decide _); [exact Hb|].
  destruct (Qgtb _ _); [exact Hb|].
  cbv zeta.
  set (p := mkPayment (invoiceController.body_amount body)
              (invoiceController.body_paymentMethod body)
              (invoiceController.body_reference body)
              (invoiceController.body_notes body) (user_id rq) (now rq)).
  destruct (_ && _).
  - assert (Hd : Invoice_books
                   (Invoice.pre_save (now rq)
                      (invoiceController.auto_confirmed rq
                         (invoiceController.add_payment rq body invoice))))
      by (eapply (Invoice_books_paid _ _ _ p); [exact (proj1 Hb _ _ Hi)|reflexivity..]).
    revert Hd. hide_saved. intros Hd.
    destruct (books_fold
                (invoiceController.deduct_item rq id
                   (invoiceController.add_payment rq body invoice))
                (Invoice.items (invoiceController.add_payment rq body invoice))) with (st := st)
      as (Ei & Ep).
    { intros s x. unfold invoiceController.deduct_item.
      destruct (products s !! _); [destruct (Qgeb _ _)|]; auto. }
    apply (books_put_invoice _ id saved (books_frame _ _ Ei Ep Hb) Hd);
      simpl; destruct (clients _ !! _); reflexivity.
  - assert (Hd : Invoice_books
                   (Invoice.pre_save (now rq)
                      (invoiceController.add_payment rq body invoice)))
      by (eapply (Invoice_books_paid _ _ _ p); [exact (proj1 Hb _ _ Hi)|reflexivity..]).
    revert Hd. hide_saved. intros Hd.
    apply (books_put_invoice st id saved Hb Hd);
      simpl; destruct (clients _ !! _); reflexivity.
Qed.

Lemma cancelInvoice_books rq id why st :
  books_agree st -> books_agree (fst (invoiceController.cancelInvoice rq id why st)).
Proof.
  intros Hb. unfold invoiceController.cancelInvoice.
  destruct (invoices st !! id) as [invoice|] eqn:Hi; [|exact Hb].
  destruct (decide _); [exact Hb|].
  assert (Hd : Invoice_books
                 (Invoice.pre_save (now rq) (invoiceController.mark_cancelled rq why invoice)))
    by (eapply Invoice_books_saved; [exact (proj1 Hb _ _ Hi)|reflexivity..]).
  cbv zeta. revert Hd. hide_saved. intros Hd.
  assert (Hf : let stb := if Invoice.stockDeducted invoice
                          then fold_left (invoiceController.reverse_item rq id invoice)
                                 (Invoice.items invoice) st
                          else st in
               invoices stb = invoices st /\ purchases stb = purchases st).
  { destruct (Invoice.stockDeducted invoice); [|auto]. apply books_fold.
    intros s x. unfold invoiceController.reverse_item.
    destruct (products s !! _); auto. }
  cbv zeta in Hf. revert Hf.
  generalize (if Invoice.stockDeducted invoice
              then fold_left (invoiceController.reverse_item rq id invoice)
                     (Invoice.items invoice) st
              else st).
  intros stb (Ei & Ep).
  apply (books_put_invoice stb id saved (books_frame _ _ Ei Ep Hb) Hd);
    simpl; destruct (clients _ !! _); reflexivity.
Qed.

Lemma receivePurchase_books rq id st :
  books_agree st -> books_agree (fst (purchaseController.receivePurchase rq id st)).
Proof.
  intros Hb. unfold purchaseController.receivePurchase.
  destruct (purchases st !! id) as [purchase|] eqn:Hi; [|exact Hb].
  destruct (decide _); [exact Hb|].
  assert (Hd : Purchase_books
                 (Purchase.pre_save (now rq) (purchaseController.mark_received rq purchase)))
    by (eapply Purchase_books_saved; [exact (proj2 Hb _ _ Hi)|reflexivity..]).
  cbv zeta. revert Hd. hide_saved. intros Hd.
  destruct (books_fold (purchaseController.receive_item rq id purchase)
              (Purchase.items purchase)) with (st := st) as (Ei & Ep).
  { intros s x. unfold purchaseController.receive_item.
    destruct (products s !! _); auto. }
  apply (books_put_purchase _ id saved (books_frame _ _ Ei Ep Hb) Hd);
    unfold Supplier_findById; simpl; destruct (suppliers _ !! _); reflexivity.
Qed.

Lemma purchase_recordPayment_books rq id body st :
  books_agree st -> books_agree (fst (purchaseController.recordPayment rq id body st)).
Proof.
  intros Hb. unfold purchaseController.recordPayment.
  destruct (purchases st !! id) as [purchase|] eqn:Hi; [|exact Hb].
  destruct (decide _); [exact Hb|].
  destruct (Qgtb _ _); [exact Hb|].
  cbv zeta.
  set (p := mkPayment (purchaseController.body_amount body)
              (purchaseController.body_paymentMethod body)
              (purchaseController.body_reference body)
              (purchaseController.body_notes body) (user_id rq) (now rq)).
  destruct (_ && _ && _).
  - assert (Hd : Purchase_books
                   (Purchase.pre_save (now rq)
                      (purchaseController.auto_received rq
                         (purchaseController.add_payment rq body purchase))))
      by (eapply (Purchase_books_paid _ _ _ p); [exact (proj2 Hb _ _ Hi)|reflexivity..]).
    revert Hd. hide_saved. intros Hd.
    destruct (books_fold
                (purchaseController.add_item rq id
                   (purchaseController.add_payment rq body purchase))
                (Purchase.items (purchaseController.add_payment rq body purchase)))
      with (st := st) as (Ei & Ep).
    { intros s x. unfold purchaseController.add_item.
      destruct (products s !! _); auto. }
    apply (books_put_purchase _ id saved (books_frame _ _ Ei Ep Hb) Hd);
      unfold Supplier_findById; simpl; destruct (suppliers _ !! _); reflexivity.
  - assert (Hd : Purchase_books
                   (Purchase.pre_save (now rq)
                      (purchaseController.add_payment rq body purchase)))
      by (eapply (Purchase_books_paid _ _ _ p); [exact (proj2 Hb _ _ Hi)|reflexivity..]).
    revert Hd. hide_saved. intros Hd.
    apply (books_put_purchase st id saved Hb Hd);
      unfold Supplier_findById; simpl; destruct (suppliers _ !! _); reflexivity.
Qed.

Lemma cancelPurchase_books rq id why st :
  books_agree st -> books_agree (fst (purchaseController.cancelPurchase rq id why st)).
Proof.
  intros Hb. unfold purchaseController.cancelPurchase.
  destruct (purchases st !! id) as [purchase|] eqn:Hi; [|exact Hb].
  destruct (decide _); [exact Hb|].
  assert (Hd : Purchase_books
                 (Purchase.pre_save (now rq)
                    (purchaseController.mark_cancelled rq why purchase)))
    by (eapply Purchase_books_saved; [exact (proj2 Hb _ _ Hi)|reflexivity..]).
  cbv zeta. revert Hd. hide_saved. intros Hd.
  assert (Hf : let stb := if Purchase.stockAdded purchase
                          then fold_left (purchaseController.reverse_item rq id purchase)
                                 (Purchase.items purchase) st
                          else st in
               invoices stb = invoices st /\ purchases stb = purchases st).
  { destruct (Purchase.stockAdded purchase); [|auto]. apply books_fold.
    intros s x. unfold purchaseController.reverse_item.
    destruct (products s !! _); auto. }
  cbv zeta in Hf. revert Hf.
  generalize (if Purchase.stockAdded purchase
              then fold_left (purchaseController.reverse_item rq id purchase)
                     (Purchase.items purchase) st
              else st).
  intros stb (Ei & Ep).
  apply (books_put_purchase stb id saved (books_frame _ _ Ei Ep Hb) Hd);
    unfold Supplier_findById; simpl; destruct (suppliers _ !! _); reflexivity.
Qed.

Lemma convertToInvoice_books rq id dueDate st :
  books_agree st ->
  books_agree (fst (quotationController.convertToInvoice rq id dueDate st)).
Proof.
  intros Hb. unfold quotationController.convertToInvoice.
  destruct (quotations st !! id) as [q|]; [|exact Hb].
  destruct (decide _); [exact Hb|].
  destruct (bool_decide _); [exact Hb|].
  assert (Hd : Invoice_books
                 (Invoice.pre_save (now rq)
                    (quotationController.new_invoice rq id dueDate q st))).
  { unfold Invoice_books.
    destruct (Invoice_pre_save_payments (now rq)
                (quotationController.new_invoice rq id dueDate q st)) as (-> & ->).
    reflexivity. }
  cbv zeta. revert Hd. hide_saved. intros Hd.
  apply (books_put_invoice st (nextId st) saved Hb Hd); reflexivity.
Qed.

(** X14.  No request makes [amountPaid] and the payments on record drift
    apart: if, on every invoice and every purchase of the store, the amount
    paid is the sum of the recorded payments, then the same holds after any
    request, accepted or rejected. *)
Theorem handle_keeps_books rq op st :
  books_agree st -> books_agree (fst (handle rq op st)).
Proof.
  intros Hb. destruct op; cbn [handle].
  - apply (books_frame st); [| |exact Hb];
      unfold stockController.receiveStock;
      (destruct (products st !! _); [|reflexivity]);
      (destruct (stockController.rb_supplier body) as [sid|]; [|reflexivity]);
      simpl; destruct (suppliers st !! sid); reflexivity.
  - apply (books_frame st); [| |exact Hb];
      unfold stockController.adjustStock;
      (destruct (negb _); [reflexivity|]);
      (destruct (products st !! _); [|reflexivity]);
      (destruct (String.eqb _ "in"); [reflexivity|]);
      (destruct (String.eqb _ "out"); [|reflexivity]);
      destruct (Qgtb _ _); reflexivity.
  - apply (books_frame st); [| |exact Hb];
      unfold stockController.deleteStockMovement;
      (destruct (stockController.StockMovement_findById id st) as [m|]; [|reflexivity]);
      simpl; destruct (products st !! _); reflexivity.
  - apply (books_frame st); [| |exact Hb];
      unfold stockController.updateStockMovement;
      destruct (stockController.StockMovement_findById id st); reflexivity.
  - apply confirmInvoice_books, Hb.
  - apply invoice_recordPayment_books, Hb.
  - apply cancelInvoice_books, Hb.
  - apply receivePurchase_books, Hb.
  - apply purchase_recordPayment_books, Hb.
  - apply cancelPurchase_books, Hb.
  - apply (books_frame st); [| |exact Hb];
      unfold quotationController.approveQuotation;
      (destruct (quotations st !! id); [|reflexivity]);
      destruct (decide _); reflexivity.
  - apply convertToInvoice_books, Hb.
Qed.

Lemma handle_keeps_books_witness :
  books_agree (fst (handle Sample.rq (InvoicePayment 10 (Sample.pay 400)) Sample.stocked)).
Proof.
  apply handle_keeps_books. split.
  - apply map_Forall_insert_2; [vm_compute; reflexivity|apply map_Forall_empty].
  - apply map_Forall_empty.
Defined.

(** ** The client's account *)

Lemma deduct_items_clients rq id invoice xs : forall st,
  clients (fold_left (invoiceController.deduct_item rq id invoice) xs st) = clients st.
Proof.
  induction xs as [|x xs IH]; intros st; simpl; [reflexivity|]. rewrite IH.
  unfold invoiceController.deduct_item.
  destruct (products st !! _); [destruct (Qgeb _ _)|]; reflexivity.
Qed.

(* the client side of an accepted payment *)
Lemma invoice_recordPayment_clients rq id body st invoice :
  invoices st !! id = Some invoice ->
  Invoice.status invoice <> Invoice.cancelled ->
  invoiceController.body_amount body <= Invoice.balance invoice ->
  clients (fst (invoiceController.recordPayment rq id body st))
  = match clients st !! Invoice.client invoice with
    | Some c => <[Invoice.client invoice := invoiceController.payment_client rq body c]>
                  (clients st)
    | None => clients st
    end.
Proof.
  intros Hi Hs Hb. unfold invoiceController.recordPayment. rewrite Hi.
  destruct (decide _); [contradiction|].
  apply Qgtb_false in Hb. rewrite Hb. cbv zeta.
  destruct (negb _ && bool_decide _).
  - pose proof (deduct_items_clients rq id (invoiceController.add_payment rq body invoice)
                  (Invoice.items (invoiceController.add_payment rq body invoice)) st) as Hc.
    revert Hc.
    generalize (fold_left
                (invoiceController.deduct_item rq id
                   (invoiceController.add_payment rq body invoice))
                (Invoice.items (invoiceController.add_payment rq body invoice)) st).
    intros stp Hc. hide_saved. simpl. rewrite <- Hc.
    destruct (clients stp !! _); reflexivity.
  - hide_saved. simpl. destruct (clients st !! _); reflexivity.
Qed.

Lemma payment_client_stats rq body c :
  let c' := invoiceController.payment_client rq body c in
  Client.totalPurchases c' = Client.totalPurchases c + invoiceController.body_amount body
  /\ Client.outstandingBalance c'
     = Math_max 0 (Client.outstandingBalance c - invoiceController.body_amount body)
  /\ 0 <= Client.outstandingBalance c'.
Proof.
  unfold invoiceController.payment_client, Math_max, Qltb. cbn.
  destruct (Qle_bool 0 _) eqn:E; cbn; repeat split; try lra.
  apply Qle_bool_iff in E. exact E.
Qed.

(** X15.  Every accepted payment on an invoice is booked on the client of
    the invoice, whether or not the invoice was ever confirmed: the client's
    [totalPurchases] rises by the amount, the client's [outstandingBalance]
    falls by the amount and is floored at zero, and no other client is
    touched. *)
Theorem invoice_payment_client_stats rq id body st st' invoice c :
  invoices st !! id = Some invoice ->
  clients st !! Invoice.client invoice = Some c ->
  invoiceController.recordPayment rq id body st = (st', ok) ->
  (exists c',
     clients st' !! Invoice.client invoice = Some c'
     /\ Client.totalPurchases c'
        = Client.totalPurchases c + invoiceController.body_amount body
     /\ Client.outstandingBalance c'
        = Math_max 0 (Client.outstandingBalance c - invoiceController.body_amount body)
     /\ 0 <= Client.outstandingBalance c')
  /\ forall other, other <> Invoice.client invoice ->
       clients st' !! other = clients st !! other.
Proof.
  intros Hi Hc H.
  destruct (Invoice_recordPayment_accepted _ _ _ _ _ _ Hi H) as (Hs & Hb).
  pose proof (invoice_recordPayment_clients rq id body st invoice Hi Hs Hb) as He.
  rewrite H, Hc in He. cbn [fst] in He. rewrite He. split.
  - eexists. split; [apply lookup_insert_eq|]. apply payment_client_stats.
  - intros other Hne. apply lookup_insert_ne. congruence.
Qed.

Lemma invoice_payment_client_stats_witness :
  let st' := fst (invoiceController.recordPayment Sample.rq 10 (Sample.pay 400)
                    Sample.stocked) in
  (exists c',
     clients st' !! 7%nat = Some c'
     /\ Client.totalPurchases c' = 0 + 400
     /\ Client.outstandingBalance c' = Math_max 0 (0 - 400)
     /\ 0 <= Client.outstandingBalance c')
  /\ forall other, other <> 7%nat -> clients st' !! other = clients Sample.stocked !! other.
Proof.
  refine (invoice_payment_client_stats Sample.rq 10 (Sample.pay 400) Sample.stocked _
            (Sample.invoice "INV-2026-00001" 7 [Sample.line 1 5 200 0 TaxA 0])
            (Client.mk "XYZ Construction" 0 0 None) _ _ _).
  - vm_compute. reflexivity.
  - vm_compute. reflexivity.
  - vm_compute. reflexivity.
Defined.




(** ** From quotation to invoice *)







(** ** The totals on sample documents *)







(** ** Draft invoices: create, update, delete *)






Lemma invoice_new_fields rq st client items body :
  let d := invoiceDrafts.number_hook rq st
             (invoiceDrafts.new_invoice rq client items body) in
  Invoice.status d = default Invoice.draft (invoiceDrafts.b_status body)
  /\ Invoice.amountPaid d = default 0 (invoiceDrafts.b_amountPaid body)
  /\ Invoice.items d = invoiceDrafts.processedItems items
  /\ Invoice.client d = default client (invoiceDrafts.b_client body).
Proof.
  cbv zeta. unfold invoiceDrafts.number_hook.
  destruct (String.eqb _ _); repeat split; reflexivity.
Qed.





Lemma createInvoice_ok rq items body st st1 :
  invoiceDrafts.createInvoice rq items body st = (st1, ok) ->
  exists clientId,
    invoiceDrafts.b_client body = Some clientId
    /\ st1 = invoiceDrafts.Invoice_create rq
               (invoiceDrafts.new_invoice rq clientId items body) st.
Proof.
  unfold invoiceDrafts.createInvoice.
  destruct (invoiceDrafts.b_client body) as [clientId|]; [|discriminate].
  destruct (clients st !! clientId); [|discriminate].
  destruct (for_of _ _ _) as [st0 [e|]]; [discriminate|].
  intros [= <-]. eauto.
Qed.

Lemma invoice_created_draft rq st clientId items body :
  invoiceDrafts.b_status body = None ->
  invoiceDrafts.b_amountPaid body = None ->
  Invoice.status
    (Invoice.pre_save (now rq)
       (invoiceDrafts.number_hook rq st (invoiceDrafts.new_invoice rq clientId items body)))
  = Invoice.draft.
Proof.
  intros Hs Ha.
  destruct (invoice_new_fields rq st clientId items body) as (Hs0 & Ha0 & _).
  cbv zeta in Hs0, Ha0. rewrite Hs in Hs0. rewrite Ha in Ha0.
  destruct (Invoice_pre_save_unpaid (now rq)
              (invoiceDrafts.number_hook rq st
                 (invoiceDrafts.new_invoice rq clientId items body))) as (-> & _);
    [rewrite Ha0; simpl; lra|exact Hs0].
Qed.

(** X21.  Deleting the draft that [createInvoice] has just stored is
    accepted and gives back the invoices, products, ledger and clients of
    before the creation; only the id counter has moved on.  (The body sends
    neither a status nor an amount paid, and the id handed out was free.) *)
Theorem createInvoice_then_delete rq items body st st1 :
  invoiceDrafts.createInvoice rq items body st = (st1, ok) ->
  invoiceDrafts.b_status body = None ->
  invoiceDrafts.b_amountPaid body = None ->
  invoices st !! nextId st = None ->
  let r := invoiceDrafts.deleteInvoice (nextId st) st1 in
  snd r = ok
  /\ invoices (fst r) = invoices st
  /\ products (fst r) = products st
  /\ movements (fst r) = movements st
  /\ clients (fst r) = clients st
  /\ nextId (fst r) = S (nextId st).
Proof.
  intros Hc Hs Ha Hfree. cbv zeta.
  destruct (createInvoice_ok _ _ _ _ _ Hc) as (clientId & _ & ->).
  pose proof (invoice_created_draft rq st clientId items body Hs Ha) as Hd.
  unfold invoiceDrafts.Invoice_create. cbv zeta. revert Hd. hide_saved. intros Hd.
  unfold invoiceDrafts.deleteInvoice. simpl. rewrite lookup_insert_eq.
  destruct (decide _) as [Hn|_]; [contradiction|]. simpl.
  repeat split. rewrite delete_insert_eq. apply delete_id. exact Hfree.
Qed.

Lemma createInvoice_then_delete_witness :
  let items := [invoiceDrafts.mkItemBody 1 5 200 None None None] in
  let body := invoiceDrafts.mkBody None (Some 7%nat) None None None None None None None None
                None None None None None None None None None None None None None None
                None None None in
  let st := Sample.shop 20 6 [] in
  let r := invoiceDrafts.deleteInvoice 100
             (fst (invoiceDrafts.createInvoice Sample.rq items body st)) in
  snd r = ok
  /\ invoices (fst r) = invoices st
  /\ products (fst r) = products st
  /\ movements (fst r) = movements st
  /\ clients (fst r) = clients st
  /\ nextId (fst r) = 101%nat.
Proof.
  refine (createInvoice_then_delete Sample.rq
            [invoiceDrafts.mkItemBody 1 5 200 None None None]
            (invoiceDrafts.mkBody None (Some 7%nat) None None None None None None None None
               None None None None None None None None None None None None None None
               None None None)
            (Sample.shop 20 6 []) _ _ _ _ _).
  - vm_compute. reflexivity.
  - reflexivity.
  - reflexivity.
  - vm_compute. reflexivity.
Defined.

Lemma Invoice_pre_save_number today d :
  Invoice.invoiceNumber (Invoice.pre_save today d) = Invoice.invoiceNumber d.
Proof.
  unfold Invoice.pre_save.
  transitivity (Invoice.invoiceNumber (Invoice.calculateTotals d)).
  - unfold Invoice.updateStatus.
    destruct (_ && _); [cbv zeta; destruct (Invoice.paidDate _)|destruct (_ && _)];
      reflexivity.
  - unfold Invoice.calculateTotals. destruct (Invoice.items d); reflexivity.
Qed.

(** X22.  The number hook counts the stored invoices, so a deletion makes
    it repeat itself: when two invoices are created one after the other,
    the second without a number in its body, and the first is deleted, the
    number the hook hands out next, in the same year, is the number of the
    second invoice, which is still stored. *)
Theorem invoice_number_reused rq rq' items items' body body' st st1 st2 st3 :
  invoiceDrafts.createInvoice rq items body st = (st1, ok) ->
  invoiceDrafts.createInvoice rq' items' body' st1 = (st2, ok) ->
  invoiceDrafts.b_invoiceNumber body' = None ->
  invoiceDrafts.deleteInvoice (nextId st) st2 = (st3, ok) ->
  invoices st !! nextId st = None ->
  invoices st !! S (nextId st) = None ->
  exists second,
    invoices st3 !! S (nextId st) = Some second
    /\ forall rq'', year rq'' = year rq' ->
         quotationController.invoice_number rq'' st3 = Invoice.invoiceNumber second.
Proof.
  intros H1 H2 Hnum H3 Hf1 Hf2.
  destruct (createInvoice_ok _ _ _ _ _ H1) as (c1 & _ & ->).
  destruct (createInvoice_ok _ _ _ _ _ H2) as (c2 & _ & ->).
  clear H1 H2. unfold invoiceDrafts.Invoice_create in *. cbv zeta in *.
  set (new2 := invoiceDrafts.new_invoice rq' c2 items' body') in *.
  assert (Hn2 : Invoice.invoiceNumber new2 = ""%string).
  { unfold new2, invoiceDrafts.new_invoice. simpl. rewrite Hnum. reflexivity. }
  revert H3.
  match goal with
  | |- context [Invoice.pre_save (now rq') ?d] =>
    pose proof (Invoice_pre_save_number (now rq') d) as Hp;
      generalize dependent (Invoice.pre_save (now rq') d)
  end.
  intros second Hp.
  unfold invoiceDrafts.number_hook in Hp at 1. rewrite Hn2 in Hp. simpl in Hp.
  revert second Hp.
  generalize (Invoice.pre_save (now rq)
    (invoiceDrafts.number_hook rq st (invoiceDrafts.new_invoice rq c1 items body))).
  intros first second Hp.
  unfold invoiceDrafts.deleteInvoice. simpl.
  rewrite lookup_insert_ne by lia. rewrite lookup_insert_eq.
  destruct (decide _); [discriminate|]. intros [= <-]. simpl.
  exists second. split.
  - rewrite lookup_delete_ne by lia. apply lookup_insert_eq.
  - intros rq'' Hy. rewrite Hp. unfold quotationController.invoice_number. simpl.
    rewrite Hy. do 4 f_equal.
    rewrite map_size_delete_Some.
    + rewrite (map_size_insert_None (S (nextId st)) second); [reflexivity|].
      rewrite lookup_insert_ne by lia. exact Hf2.
    + rewrite lookup_insert_ne by lia. rewrite lookup_insert_eq. eauto.
Qed.

Lemma invoice_number_reused_witness :
  let items := [invoiceDrafts.mkItemBody 1 5 200 None None None] in
  let body := invoiceDrafts.mkBody None (Some 7%nat) None None None None None None None None
                None None None None None None None None None None None None None None
                None None None in
  let st1 := fst (invoiceDrafts.createInvoice Sample.rq items body (Sample.shop 20 6 [])) in
  let st2 := fst (invoiceDrafts.createInvoice Sample.rq items body st1) in
  let st3 := fst (invoiceDrafts.deleteInvoice 100 st2) in
  exists second,
    invoices st3 !! 101%nat = Some second
    /\ forall rq'', year rq'' = 2026%nat ->
         quotationController.invoice_number rq'' st3 = Invoice.invoiceNumber second.
Proof.
  refine (invoice_number_reused Sample.rq Sample.rq
            [invoiceDrafts.mkItemBody 1 5 200 None None None]
            [invoiceDrafts.mkItemBody 1 5 200 None None None]
            (invoiceDrafts.mkBody None (Some 7%nat) None None None None None None None None
               None None None None None None None None None None None None None None
               None None None)
            (invoiceDrafts.mkBody None (Some 7%nat) None None None None None None None None
               None None None None None None None None None None None None None None
               None None None)
            (Sample.shop 20 6 []) _ _ _ _ _ _ _ _ _).
  - vm_compute. reflexivity.
  - vm_compute. reflexivity.
  - reflexivity.
  - vm_compute. reflexivity.
  - vm_compute. reflexivity.
  - vm_compute. reflexivity.
Defined.

(** ** Documents that left the draft state *)

Lemma Invoice_pre_save_status today d :
  Invoice.status (Invoice.pre_save today d) = Invoice.paid
  \/ Invoice.status (Invoice.pre_save today d) = Invoice.partial
  \/ Invoice.status (Invoice.pre_save today d) = Invoice.status d.
Proof.
  unfold Invoice.pre_save.
  destruct (Invoice_calculateTotals_frame d) as (Hs & _). rewrite <- Hs.
  generalize (Invoice.calculateTotals d). intros c. unfold Invoice.updateStatus.
  destruct (_ && _); [cbv zeta; destruct (Invoice.paidDate _)|destruct (_ && _)]; auto.
Qed.

Lemma Purchase_pre_save_status today d :
  Purchase.status (Purchase.pre_save today d) = Purchase.paid
  \/ Purchase.status (Purchase.pre_save today d) = Purchase.partial
  \/ Purchase.status (Purchase.pre_save today d) = Purchase.status d.
Proof.
  unfold Purchase.pre_save.
  destruct (Purchase_calculateTotals_frame d) as (Hs & _). rewrite <- Hs.
  generalize (Purchase.calculateTotals d). intros c. unfold Purchase.updateStatus.
  destruct (_ && _); [cbv zeta; destruct (Purchase.paidDate _)|destruct (_ && _)]; auto.
Qed.

(** X23.  Once [confirmInvoice] or [cancelInvoice] has been accepted for an
    invoice, the invoice is no draft any more: [updateInvoice] and
    [deleteInvoice] on it are rejected, whatever they send, and write
    nothing. *)
Theorem confirmed_invoice_is_frozen rq id why st st1 :
  invoiceController.confirmInvoice rq id st = (st1, ok)
  \/ invoiceController.cancelInvoice rq id why st = (st1, ok) ->
  (forall items body,
     invoiceDrafts.updateInvoice id items body st1
     = (st1, fail (InvalidState "Only draft invoices can be updated")))
  /\ invoiceDrafts.deleteInvoice id st1
     = (st1, fail (InvalidState "Only draft invoices can be deleted")).
Proof.
  intros H.
  assert (Hd : exists d, invoices st1 !! id = Some d /\ Invoice.status d <> Invoice.draft).
  { destruct H as [H|H].
    - destruct (confirmInvoice_ok _ _ _ _ H) as (d & _ & _ & _ & _ & Hi & _).
      cbv zeta in Hi. eexists. split; [exact Hi|].
      destruct (Invoice_pre_save_status (now rq) (invoiceController.mark_confirmed rq d))
        as [E|[E|E]]; rewrite E; discriminate.
    - assert (Hx : exists d,
                 invoices st1 !! id
                 = Some (Invoice.pre_save (now rq)
                           (invoiceController.mark_cancelled rq why d))).
      { revert H. unfold invoiceController.cancelInvoice.
        destruct (invoices st !! id) as [d|]; [|discriminate].
        destruct (decide _); [discriminate|]. intros [= <-].
        exists d. apply lookup_insert_eq. }
      destruct Hx as (d & Hi). eexists. split; [exact Hi|].
      destruct (Invoice_pre_save_status (now rq)
                  (invoiceController.mark_cancelled rq why d))
        as [E|[E|E]]; rewrite E; discriminate. }
  destruct Hd as (d & Hi & Hs).
  unfold invoiceDrafts.updateInvoice, invoiceDrafts.deleteInvoice. rewrite Hi.
  destruct (decide _); [|contradiction]. split; reflexivity.
Qed.

Lemma confirmed_invoice_is_frozen_witness :
  let st1 := fst (invoiceController.confirmInvoice Sample.rq 10 Sample.stocked) in
  (forall items body,
     invoiceDrafts.updateInvoice 10 items body st1
     = (st1, fail (InvalidState "Only draft invoices can be updated")))
  /\ invoiceDrafts.deleteInvoice 10 st1
     = (st1, fail (InvalidState "Only draft invoices can be deleted")).
Proof.
  refine (confirmed_invoice_is_frozen Sample.rq 10 None Sample.stocked _ (or_introl _)).
  vm_compute. reflexivity.
Defined.

(** X24.  Once [receivePurchase] or [cancelPurchase] has been accepted for
    a purchase, [updatePurchase] and [deletePurchase] on it are rejected,
    whatever they send, and write nothing. *)
Theorem received_purchase_is_frozen rq id why st st1 :
  purchaseController.receivePurchase rq id st = (st1, ok)
  \/ purchaseController.cancelPurchase rq id why st = (st1, ok) ->
  (forall items body,
     purchaseDrafts.updatePurchase id items body st1
     = (st1, fail (InvalidState "Only draft purchases can be updated")))
  /\ purchaseDrafts.deletePurchase id st1
     = (st1, fail (InvalidState "Only draft purchases can be deleted")).
Proof.
  intros H.
  assert (Hd : exists d, purchases st1 !! id = Some d /\ Purchase.status d <> Purchase.draft).
  { destruct H as [H|H].
    - assert (Hx : exists d,
                 purchases st1 !! id
                 = Some (Purchase.pre_save (now rq)
                           (purchaseController.mark_received rq d))).
      { revert H. unfold purchaseController.receivePurchase.
        destruct (purchases st !! id) as [d|]; [|discriminate].
        destruct (decide _); [discriminate|]. intros [= <-].
        exists d. cbv zeta. hide_saved. unfold Supplier_findById. simpl.
        destruct (suppliers _ !! _); simpl; apply lookup_insert_eq. }
      destruct Hx as (d & Hi). eexists. split; [exact Hi|].
      destruct (Purchase_pre_save_status (now rq) (purchaseController.mark_received rq d))
        as [E|[E|E]]; rewrite E; discriminate.
    - assert (Hx : exists d,
                 purchases st1 !! id
                 = Some (Purchase.pre_save (now rq)
                           (purchaseController.mark_cancelled rq why d))).
      { revert H. unfold purchaseController.cancelPurchase.
        destruct (purchases st !! id) as [d|]; [|discriminate].
        destruct (decide _); [discriminate|]. intros [= <-].
        exists d. apply lookup_insert_eq. }
      destruct Hx as (d & Hi). eexists. split; [exact Hi|].
      destruct (Purchase_pre_save_status (now rq)
                  (purchaseController.mark_cancelled rq why d))
        as [E|[E|E]]; rewrite E; discriminate. }
  destruct Hd as (d & Hi & Hs).
  unfold purchaseDrafts.updatePurchase, purchaseDrafts.deletePurchase. rewrite Hi.
  destruct (decide _); [|contradiction]. split; reflexivity.
Qed.

Lemma received_purchase_is_frozen_witness :
  let st1 := fst (purchaseController.receivePurchase Sample.rq 20 Sample.supplied) in
  (forall items body,
     purchaseDrafts.updatePurchase 20 items body st1
     = (st1, fail (InvalidState "Only draft purchases can be updated")))
  /\ purchaseDrafts.deletePurchase 20 st1
     = (st1, fail (InvalidState "Only draft purchases can be deleted")).
Proof.
  refine (received_purchase_is_frozen Sample.rq 20 None Sample.supplied _ (or_introl _)).
  vm_compute. reflexivity.
Defined.

(** ** Draft purchases *)




(** ** Draft quotations *)




(** X27.  A quotation whose status is 'rejected', 'converted' or 'expired'
    is out of reach of the quotation requests: [approveQuotation],
    [convertToInvoice], [updateQuotation] and [deleteQuotation] are all
    rejected and write nothing. *)
Theorem closed_quotation_is_frozen rq id dueDate items body st q :
  quotations st !! id = Some q ->
  Quotation.status q ∈ [Quotation.rejected; Quotation.converted; Quotation.expired] ->
  (exists e, quotationController.approveQuotation rq id st = (st, fail e))
  /\ (exists e, quotationController.convertToInvoice rq id dueDate st = (st, fail e))
  /\ (exists e, quotationDrafts.updateQuotation id items body st = (st, fail e))
  /\ (exists e, quotationDrafts.deleteQuotation id st = (st, fail e)).
Proof.
  intros Hq Hs.
  unfold quotationController.approveQuotation, quotationController.convertToInvoice,
    quotationDrafts.updateQuotation, quotationDrafts.deleteQuotation.
  rewrite Hq.
  assert (Hc : Quotation.status q = Quotation.rejected
               \/ Quotation.status q = Quotation.converted
               \/ Quotation.status q = Quotation.expired).
  { rewrite !elem_of_cons in Hs. destruct Hs as [E|[E|[E|E]]]; auto. inversion E. }
  destruct Hc as [E|[E|E]]; rewrite E; simpl; repeat split; eexists; reflexivity.
Qed.

Lemma closed_quotation_is_frozen_witness :
  let st := fst (quotationController.convertToInvoice Sample.rq 30 None Sample.quoted) in
  let body := quotationDrafts.mkBody None None None None None None None None None
                None None None None None in
  (exists e, quotationController.approveQuotation Sample.rq 30 st = (st, fail e))
  /\ (exists e, quotationController.convertToInvoice Sample.rq 30 None st = (st, fail e))
  /\ (exists e, quotationDrafts.updateQuotation 30 None body st = (st, fail e))
  /\ (exists e, quotationDrafts.deleteQuotation 30 st = (st, fail e)).
Proof.
  refine (closed_quotation_is_frozen Sample.rq 30 None None
            (quotationDrafts.mkBody None None None None None None None None None
               None None None None None)
            (fst (quotationController.convertToInvoice Sample.rq 30 None Sample.quoted))
            (Quotation.pre_save
               (quotationController.mark_converted Sample.rq 100 Sample.quotation)) _ _).
  - vm_compute. reflexivity.
  - rewrite !elem_of_cons. right. left. vm_compute. reflexivity.
Defined.


